(** * The internship recommendation engine of [backend.py]

    A shallow embedding of [preprocess], [get_top_contributing_terms] and
    [recommendInternship], and the properties of the ranking engine that
    the specification states about them.

    Conventions of the embedding.
    - Python raises exceptions: every fallible step returns an [outcome].
    - [recommendInternship] reads the caller's record objects and the
      process-wide generator of the [random] module: it is written in a
      state-and-exception monad [M] over a [world] that holds both.
    - Python numbers ([int], [float], [numpy.float64]) are the carrier of an
      interface [PyNum]; what a proof needs of their arithmetic is a law of
      [PyNumLaws], each of which holds of IEEE-754 doubles other than NaN.
    - NLTK, scikit-learn, NumPy and [random] are interfaces ([Nltk],
      [Sklearn], [Numpy], [PyRandom]); [Module Reference] gives executable
      instances on which the engine is run.
    - Texts are ASCII strings. *)

From Stdlib Require Import ZArith QArith Qround String Ascii List Permutation Sorted.
From stdpp Require Import base option list gmap strings pretty sorting.

Close Scope Q_scope.
Local Open Scope string_scope.

(** ** Exceptions *)

Inductive exn : Type :=
  | KeyError (key : string)
  | TypeError
  | ZeroDivisionError
  | IndexError
  | ValueError (msg : string).

Inductive outcome (A : Type) : Type :=
  | Ok (a : A)
  | Raise (e : exn).
Arguments Ok {A} a.
Arguments Raise {A} e.

#[global] Instance outcome_ret : MRet outcome := @Ok.
#[global] Instance outcome_bind : MBind outcome := λ A B f m,
  match m with Ok a => f a | Raise e => Raise e end.

Definition is_ok {A} (o : outcome A) : bool :=
  match o with Ok _ => true | Raise _ => false end.

(** [l[i]] for a non-negative index. *)
Definition py_index {A} (l : list A) (i : nat) : outcome A :=
  match l !! i with Some x => Ok x | None => Raise IndexError end.

(** [l[:k]]: a negative [k] counts from the end. *)
Definition py_slice_to {A} (l : list A) (k : Z) : list A :=
  if (0 <=? k)%Z then take (Z.to_nat k) l
  else take (length l - Z.to_nat (- k)) l.

(** ** Python strings (ASCII) *)

Definition in_range (lo hi : nat) (c : ascii) : bool :=
  (lo <=? nat_of_ascii c)%nat && (nat_of_ascii c <=? hi)%nat.

Definition is_upper (c : ascii) : bool := in_range 65 90 c.
Definition is_lower (c : ascii) : bool := in_range 97 122 c.
Definition is_digit (c : ascii) : bool := in_range 48 57 c.
Definition is_alnum (c : ascii) : bool := is_upper c || is_lower c || is_digit c.
(** [str.isspace] on ASCII: TAB..CR, FS..US and the blank. *)
Definition is_space (c : ascii) : bool :=
  in_range 9 13 c || in_range 28 32 c.

Definition lower_char (c : ascii) : ascii :=
  if is_upper c then ascii_of_nat (nat_of_ascii c + 32) else c.

Fixpoint string_map (f : ascii → ascii) (s : string) : string :=
  match s with
  | EmptyString => EmptyString
  | String c s' => String (f c) (string_map f s')
  end.

Fixpoint string_forall (p : ascii → bool) (s : string) : bool :=
  match s with
  | EmptyString => true
  | String c s' => p c && string_forall p s'
  end.

Definition nonempty (s : string) : bool :=
  match s with EmptyString => false | String _ _ => true end.

(** [s.lower()], [s.isalnum()], [s.isdigit()], [not s.strip()] and
    [sep.join(l)]. *)
Definition py_lower (s : string) : string := string_map lower_char s.
Definition py_isalnum (s : string) : bool := nonempty s && string_forall is_alnum s.
Definition py_isdigit (s : string) : bool := nonempty s && string_forall is_digit s.
Definition py_blank (s : string) : bool := string_forall is_space s.
Definition py_join (sep : string) (l : list string) : string := String.concat sep l.

(** ** Numbers *)

Class PyNum : Type := {
  num : Type;
  num_of_Q : Q → num;                 (* a numeric literal *)
  num_add : num → num → num;
  num_mul : num → num → num;
  num_div : num → num → num;          (* true division, divisor not zero *)
  num_eqb : num → num → bool;
  num_ltb : num → num → bool;
  num_str : num → string;             (* str(x) *)
  num_fmt3 : num → string             (* format(x, ".3f") *)
}.

Section Runtime.
Context {N : PyNum}.

Definition lit (q : Q) : num := num_of_Q q.

(** What the engine needs of the arithmetic. *)
Class PyNumLaws : Prop := {
  num_mul_comm : ∀ a b : num, num_mul a b = num_mul b a;
  num_eqb_refl_0 : num_eqb (lit 0) (lit 0) = true;
  num_1_neq_0 : num_eqb (lit 1) (lit 0) = false;
  num_5_neq_0 : num_eqb (lit 5) (lit 0) = false;
  num_10_neq_0 : num_eqb (lit 10) (lit 0) = false;
  num_100_neq_0 : num_eqb (lit 100) (lit 0) = false;
  num_div_0_1 : num_div (lit 0) (lit 1) = lit 0;
  num_mul_0_l : num_mul (lit 0) (lit 0.15) = lit 0;
  num_1_lt_0 : num_ltb (lit 1) (lit 0) = false;
  num_ltb_irrefl : ∀ a : num, num_ltb a a = false;
  num_ltb_trans : ∀ a b c : num,
    num_ltb a b = true → num_ltb b c = true → num_ltb a c = true;
  num_ltb_negtrans : ∀ a b c : num,
    num_ltb a b = false → num_ltb b c = false → num_ltb a c = false
}.

(** ** Values and records *)

Inductive value : Type :=
  | VNone
  | VNum (x : num)
  | VStr (s : string).

(** [str(v)], as an f-string field formats it. *)
Definition py_str (v : value) : string :=
  match v with
  | VNone => "None"
  | VNum x => num_str x
  | VStr s => s
  end.

(** [a + b] where one operand is a string. *)
Definition py_concat (a b : value) : outcome string :=
  match a, b with
  | VStr s, VStr t => Ok (s +:+ t)
  | _, _ => Raise TypeError
  end.

(** [a / b]. *)
Definition py_truediv (a b : value) : outcome num :=
  match a, b with
  | VNum x, VNum y =>
      if num_eqb y (lit 0) then Raise ZeroDivisionError else Ok (num_div x y)
  | _, _ => Raise TypeError
  end.

(** [a > b]. *)
Definition py_gt (a b : value) : outcome bool :=
  match a, b with
  | VNum x, VNum y => Ok (num_ltb y x)
  | VStr s, VStr t => Ok (String.ltb t s)
  | _, _ => Raise TypeError
  end.

(** [a == b]: never raises. *)
Definition py_eq (a b : value) : bool :=
  match a, b with
  | VNone, VNone => true
  | VNum x, VNum y => num_eqb x y
  | VStr s, VStr t => String.eqb s t
  | _, _ => false
  end.

(** [max(l)]: the first maximal item; each later item is compared with
    the maximum so far by [>]. *)
Fixpoint max_from (m : value) (l : list value) : outcome value :=
  match l with
  | [] => Ok m
  | x :: l' => b ← py_gt x m; max_from (if b : bool then x else m) l'
  end.

Definition py_max (l : list value) : outcome value :=
  match l with
  | [] => Raise (ValueError "max() arg is an empty sequence")
  | x :: l' => max_from x l'
  end.

(** The value at an index known to be in range. *)
Definition value_at (v : list num) (i : nat) : num := default (lit 0) (v !! i).

(** [min(a, b)] of two numbers: [b] only when [b < a]. *)
Definition py_min (a b : num) : num := if num_ltb b a then b else a.

End Runtime.

Arguments value N : clear implicits.
Arguments PyNumLaws N : clear implicits.

(** ** The libraries the engine calls *)

(** NLTK: [word_tokenize], [stopwords.words('english')] and
    [WordNetLemmatizer().lemmatize] with its default part of speech. *)
Class Nltk : Type := {
  word_tokenize : string → list string;
  stop_words : list string;
  lemmatize : string → string
}.

(** scikit-learn. [tfidf_fit_transform corpus] is
    [TfidfVectorizer(max_features=5000, ngram_range=(1, 2), min_df=2)]
    fitted on [corpus]: it raises, or gives the feature names
    ([get_feature_names_out]) and the rows of the term-weight matrix, one
    per document. [cosine_similarity q rows] is the first row of
    [cosine_similarity(q, rows)]. *)
Class Sklearn (N : PyNum) : Type := {
  tfidf_fit_transform : list string → outcome (list string * list (list num));
  cosine_similarity : list num → list (list num) → list num
}.

(** NumPy: [np.argsort] with its default kind. *)
Class Numpy (N : PyNum) : Type := {
  np_argsort : list num → list nat
}.

(** The generator of the [random] module: [random.random()] reads and
    advances a state shared by the whole process. *)
Class PyRandom (N : PyNum) : Type := {
  rng_state : Type;
  random_random : rng_state → num * rng_state
}.

(** ** Text normalisation *)

Section Preprocessing.
Context {NL : Nltk}.

(** The filter of [preprocess]: alphanumeric, not a stopword, not a
    number, longer than two characters. *)
Definition keep_token (word : string) : bool :=
  py_isalnum word
  && negb (bool_decide (word ∈ stop_words))
  && negb (py_isdigit word)
  && (2 <? String.length word)%nat.

Definition preprocess (text : string) : string :=
  let tokens := word_tokenize (py_lower text) in
  let filtered_tokens := map lemmatize (List.filter keep_token tokens) in
  py_join " " filtered_tokens.

End Preprocessing.

(** ** [list.sort(key=..., reverse=True)]

    A reversed sort reverses the list, sorts it stably in ascending order
    of the keys, comparing them by [<] alone, and reverses the result.
    The key of an element is computed once: where the key function draws
    a random number, the engine below pairs each element with its key
    first and sorts the pairs by their first component. *)

Section Sorting.
Context {K E : Type} (lt : K → K → bool) (key : E → K).

Fixpoint insert_sorted (x : E) (l : list E) : list E :=
  match l with
  | [] => [x]
  | y :: l' => if lt (key y) (key x) then y :: insert_sorted x l' else x :: y :: l'
  end.

Definition sort_asc (l : list E) : list E := foldr insert_sorted [] l.

Definition py_sort_desc (l : list E) : list E :=
  reverse (sort_asc (reverse l)).

(** [x] may stand before [y] in ascending, in descending order. *)
Definition ascending (x y : E) : Prop := lt (key y) (key x) = false.
Definition descending (x y : E) : Prop := lt (key x) (key y) = false.

(** The key of [x] is tied with [s]: neither is smaller. *)
Definition tied_with (s : K) (x : E) : Prop :=
  lt (key x) s = false ∧ lt s (key x) = false.

#[global] Instance tied_with_dec s x : Decision (tied_with s x).
Proof. unfold tied_with. apply _. Defined.

End Sorting.

(** [(a, r) < (b, s)] on tuples: the first components that differ by [==]
    decide. *)
Definition tuple_ltb {N : PyNum} (x y : num * num) : bool :=
  if num_eqb x.1 y.1
  then (if num_eqb x.2 y.2 then false else num_ltb x.2 y.2)
  else num_ltb x.1 y.1.

(** ** The world: the caller's records and the process's generator

    A candidate list is a list of references to record objects that the
    caller owns; the store maps each reference to the record it
    designates.  A result holds the reference of its record, as the tuple
    of the source holds the caller's dictionary itself. *)

Abbreviation ref := nat.

Record world {N : PyNum} {R : PyRandom N} : Type := World {
  store : ref → gmap string (value N);
  generator : rng_state
}.
Arguments world N R : clear implicits.
Arguments World {N R} store generator.

Definition M {N : PyNum} {R : PyRandom N} (A : Type) : Type :=
  world N R → outcome A * world N R.

#[global] Instance M_ret {N : PyNum} {R : PyRandom N} : MRet M :=
  λ A a w, (Ok a, w).
#[global] Instance M_bind {N : PyNum} {R : PyRandom N} : MBind M :=
  λ A B f m w,
    match m w with
    | (Ok a, w') => f a w'
    | (Raise e, w') => (Raise e, w')
    end.

Section Effects.
Context {N : PyNum} {R : PyRandom N}.

Definition lift {A} (o : outcome A) : M A := λ w, (o, w).

(** [d[key]] *)
Definition dict_index (d : ref) (key : string) : M (value N) := λ w,
  match store w d !! key with
  | Some v => (Ok v, w)
  | None => (Raise (KeyError key), w)
  end.

(** [d.get(key, dflt)] *)
Definition dict_get (d : ref) (key : string) (dflt : value N) : M (value N) :=
  λ w, (Ok (default dflt (store w d !! key)), w).

(** [random.random()] *)
Definition random_draw : M num := λ w,
  let '(x, g) := random_random (generator w) in (Ok x, World (store w) g).

End Effects.

(** ** The recommendation engine *)

(** The bullet that opens each explanation line (U+2022 in UTF-8) and the
    line separator. *)
Definition bullet : string :=
  String (ascii_of_nat 226) (String (ascii_of_nat 128)
    (String (ascii_of_nat 162) EmptyString)).
Definition newline : string := String (ascii_of_nat 10) EmptyString.

Definition fallback_explanation : string :=
  "Recommended based on general popularity and ratings.".
Definition general_match_line : string :=
  bullet +:+ " General textual match with your resume.".
Definition no_match_line : string :=
  bullet +:+ " No strong skill match, ranked by popularity and ratings.".
Definition keyword_line (top_terms : list string) : string :=
  bullet +:+ " Keyword Match: " +:+ py_join ", " top_terms.

Section Engine.
Context {N : PyNum} {NL : Nltk} {SK : Sklearn N} {NP : Numpy N} {R : PyRandom N}.

(** A ranked result: the score, the record (the caller's object, not a
    copy) and the explanation. *)
Definition ranked : Type := num * ref * string.

(** *** [get_top_contributing_terms] *)

(** [query_vec.toarray()[0] * doc_vec.toarray()[0]] *)
Definition contributions_of (query_vec doc_vec : list num) : outcome (list num) :=
  if (length query_vec =? length doc_vec)%nat
  then Ok (zip_with num_mul query_vec doc_vec)
  else Raise (ValueError "operands could not be broadcast together").

(** [[feature_names[i] for i in top_indices if contributions[i] > 0]] *)
Fixpoint positive_terms (contributions : list num) (feature_names : list string)
    (top_indices : list nat) : outcome (list string) :=
  match top_indices with
  | [] => Ok []
  | i :: rest =>
      c ← py_index contributions i;
      if num_ltb (lit 0) c
      then name ← py_index feature_names i;
           terms ← positive_terms contributions feature_names rest;
           Ok (name :: terms)
      else positive_terms contributions feature_names rest
  end.

Definition get_top_contributing_terms (query_vec doc_vec : list num)
    (feature_names : list string) (top_n : nat) : outcome (list string) :=
  contributions ← contributions_of query_vec doc_vec;
  let top_indices := reverse (np_argsort contributions) in
  terms ← positive_terms contributions feature_names top_indices;
  Ok (take top_n terms).

(** *** [recommendInternship] *)

(** [student.get("skills", "") + " " + student.get("interests", "")] *)
Definition query_raw_of (student : gmap string (value N)) : outcome string :=
  skills_sp ← py_concat (default (VStr "") (student !! "skills")) (VStr " ");
  py_concat (VStr skills_sp) (default (VStr "") (student !! "interests")).

(** The document of a posting:
    [preprocess(f'{i["title"]} {i["description"]} {i["required_skills"]}')] *)
Definition document_of (i : ref) : M string :=
  title ← dict_index i "title";
  description ← dict_index i "description";
  required_skills ← dict_index i "required_skills";
  mret (preprocess
    (py_str title +:+ " " +:+ py_str description +:+ " " +:+ py_str required_skills)).

(** The score of the fallback path, on the three quotients. *)
Definition fallback_score (p r c : num) : num :=
  num_add (num_add (num_mul p (lit 0.5)) (num_mul r (lit 0.3)))
          (num_mul c (lit 0.2)).

(** The body of the fallback loop. *)
Definition fallback_entry (intern : ref) : M ranked :=
  popularity ← dict_get intern "popularity" (VNum (lit 0));
  p ← lift (py_truediv popularity (VNum (lit 100)));
  rating ← dict_get intern "rating" (VNum (lit 0));
  r ← lift (py_truediv rating (VNum (lit 5)));
  prestige ← dict_get intern "company_prestige" (VNum (lit 0));
  c ← lift (py_truediv prestige (VNum (lit 10)));
  mret (fallback_score p r c, intern, fallback_explanation).

(** [scores.sort(key=lambda x: x[0], reverse=True); return scores[:top_n]] *)
Definition fallback_path (internships : list ref) (top_n : Z) : M (list ranked) :=
  scores ← mapM fallback_entry internships;
  let scores := py_sort_desc num_ltb (λ x : ranked, x.1.1) scores in
  mret (py_slice_to scores top_n).

(** The weighted score of the vector-space path, on the similarity and
    the four quotients. *)
Definition blended_score (sim p s r c : num) : num :=
  num_add (num_add (num_add (num_add
    (num_mul sim (lit 0.55))
    (num_mul p (lit 0.15)))
    (num_mul (py_min s (lit 1)) (lit 0.15)))
    (num_mul r (lit 0.10)))
    (num_mul c (lit 0.05)).

(** The first line of an explanation. *)
Definition match_line (sim : num) (top_terms : list string) : string :=
  if num_ltb (lit 0.05) sim && negb (bool_decide (top_terms = []))
  then keyword_line top_terms
  else if num_ltb (lit 0.05) sim
  then general_match_line
  else no_match_line.

Definition explanation_of (sim : num) (top_terms : list string)
    (popularity prestige : value N) : string :=
  py_join newline
    [ match_line sim top_terms;
      bullet +:+ " Similarity Score: " +:+ num_fmt3 sim;
      bullet +:+ " Popularity Score: " +:+ py_str popularity +:+ "/100";
      bullet +:+ " Prestige Score: " +:+ py_str prestige +:+ "/10" ].

(** The body of the scoring loop of the vector-space path. *)
Definition scored_entry (similarities : list num) (max_stipend : value N)
    (query_vec : list num) (doc_vecs : list (list num))
    (feature_names : list string) (ix : nat * ref) : M ranked :=
  let '(i, intern) := ix in
  sim ← lift (py_index similarities i);
  popularity ← dict_get intern "popularity" (VNum (lit 0));
  p ← lift (py_truediv popularity (VNum (lit 100)));
  stipend ← dict_get intern "stipend" (VNum (lit 0));
  s ← lift (py_truediv stipend max_stipend);
  rating ← dict_get intern "rating" (VNum (lit 0));
  r ← lift (py_truediv rating (VNum (lit 5)));
  prestige ← dict_get intern "company_prestige" (VNum (lit 0));
  c ← lift (py_truediv prestige (VNum (lit 10)));
  doc_vec ← lift (py_index doc_vecs i);
  top_terms ← lift (get_top_contributing_terms query_vec doc_vec feature_names 3);
  popularity' ← dict_get intern "popularity" (VNum (lit 0));
  prestige' ← dict_get intern "company_prestige" (VNum (lit 0));
  mret (blended_score sim p s r c, intern,
        explanation_of sim top_terms popularity' prestige').

(** The key of the final sort: [(x[0], random.random())]. *)
Definition tie_break_key (x : ranked) : M ((num * num) * ranked) :=
  r ← random_draw;
  mret ((x.1.1, r), x).

(** [sorted(scores, key=lambda x: (x[0], random.random()), reverse=True)] *)
Definition tie_break_sort (scores : list ranked) : M (list ranked) :=
  keyed ← mapM tie_break_key scores;
  mret (py_sort_desc tuple_ltb fst keyed).*2.

Definition enumerate {A} (l : list A) : list (nat * A) :=
  zip (seq 0 (length l)) l.

(** [tfidf_matrix[-1]] *)
Definition last_row (tfidf_matrix : list (list num)) : outcome (list num) :=
  match last tfidf_matrix with
  | Some row => Ok row
  | None => Raise IndexError
  end.

(** [max(all_stipends) if all_stipends else 1], then [1] in place of [0]. *)
Definition max_stipend_of (all_stipends : list (value N)) : outcome (value N) :=
  max_stipend ← match all_stipends with
                | [] => Ok (VNum (lit 1))
                | _ :: _ => py_max all_stipends
                end;
  Ok (if py_eq max_stipend (VNum (lit 0)) then VNum (lit 1) else max_stipend).

Definition vector_path (query : string) (docs : list string)
    (internships : list ref) (top_n : Z) : M (list ranked) :=
  '(feature_names, tfidf_matrix) ← lift (tfidf_fit_transform (docs ++ [query]));
  query_vec ← lift (last_row tfidf_matrix);
  let doc_vecs := removelast tfidf_matrix in
  let similarities := cosine_similarity query_vec doc_vecs in
  all_stipends ← mapM (λ intern, dict_get intern "stipend" (VNum (lit 0)))
                      internships;
  max_stipend ← lift (max_stipend_of all_stipends);
  scores ← mapM (scored_entry similarities max_stipend query_vec doc_vecs
                              feature_names)
                (enumerate internships);
  scores ← tie_break_sort scores;
  mret (py_slice_to scores top_n).

Definition recommendInternship (student : gmap string (value N))
    (internships : list ref) (top_n : Z) : M (list ranked) :=
  match internships with
  | [] => mret []
  | _ :: _ =>
      query_raw ← lift (query_raw_of student);
      let query := preprocess query_raw in
      docs ← mapM document_of internships;
      if py_blank query
      then fallback_path internships top_n
      else vector_path query docs internships top_n
  end.

End Engine.

(** * The statements of the specification *)

Section Specification.
Context {N : PyNum} {NL : Nltk}.

(** What [d.get(key, 0)] reads of a record. *)
Definition signal (d : gmap string (value N)) (key : string) : value N :=
  default (VNum (lit 0)) (d !! key).

Definition is_num (v : value N) : bool :=
  match v with VNum _ => true | _ => false end.

Definition num_of (v : value N) : num :=
  match v with VNum x => x | _ => lit 0 end.

Definition has_key (d : gmap string (value N)) (key : string) : bool :=
  match d !! key with Some _ => true | None => false end.

(** A candidate record: the three text fields are present and each of the
    four signals is a number or is missing. *)
Definition well_formed (d : gmap string (value N)) : bool :=
  has_key d "title" && has_key d "description" && has_key d "required_skills"
  && is_num (signal d "popularity") && is_num (signal d "stipend")
  && is_num (signal d "rating") && is_num (signal d "company_prestige").

Definition popularity_of (d : gmap string (value N)) : num := num_of (signal d "popularity").
Definition stipend_of (d : gmap string (value N)) : num := num_of (signal d "stipend").
Definition rating_of (d : gmap string (value N)) : num := num_of (signal d "rating").
Definition prestige_of (d : gmap string (value N)) : num := num_of (signal d "company_prestige").

Definition text_of (d : gmap string (value N)) (key : string) : string :=
  py_str (default VNone (d !! key)).

(** The normalised document of a record. *)
Definition document_text (d : gmap string (value N)) : string :=
  preprocess (text_of d "title" +:+ " " +:+ text_of d "description" +:+ " "
              +:+ text_of d "required_skills").

(** [0.5*(popularity/100) + 0.3*(rating/5) + 0.2*(prestige/10)] *)
Definition spec_fallback_score (popularity rating prestige : num) : num :=
  num_add (num_add
    (num_mul (lit 0.5) (num_div popularity (lit 100)))
    (num_mul (lit 0.3) (num_div rating (lit 5))))
    (num_mul (lit 0.2) (num_div prestige (lit 10))).

(** [0.15*min(stipend/maxStipend, 1)] *)
Definition spec_stipend_term (stipend maxStipend : num) : num :=
  num_mul (lit 0.15) (py_min (num_div stipend maxStipend) (lit 1)).

(** [0.55*sim + 0.15*(popularity/100) + 0.15*min(stipend/maxStipend, 1)
     + 0.10*(rating/5) + 0.05*(prestige/10)] *)
Definition spec_blended_score (sim popularity stipend maxStipend rating prestige : num)
    : num :=
  num_add (num_add (num_add (num_add
    (num_mul (lit 0.55) sim)
    (num_mul (lit 0.15) (num_div popularity (lit 100))))
    (spec_stipend_term stipend maxStipend))
    (num_mul (lit 0.10) (num_div rating (lit 5))))
    (num_mul (lit 0.05) (num_div prestige (lit 10))).

(** The maximum of a non-empty sequence of numbers. *)
Definition maximum (x : num) (l : list num) : num :=
  foldl (λ m y, if num_ltb m y then y else m) x l.

(** The maximum stipend of the call, [1] when that maximum is [0]. *)
Definition spec_max_stipend (stipends : list num) : num :=
  match stipends with
  | [] => lit 1
  | x :: l => let m := maximum x l in if num_eqb m (lit 0) then lit 1 else m
  end.

Definition score_of (x : ranked) : num := x.1.1.
Definition record_of (x : ranked) : ref := x.1.2.

(** The index [i] has a strictly positive contribution. *)
Definition is_positive (contributions : list num) (i : nat) : Prop :=
  num_ltb (lit 0) (value_at contributions i) = true.

#[global] Instance is_positive_dec contributions i :
  Decision (is_positive contributions i).
Proof. unfold is_positive. apply _. Defined.

Definition name_at (feature_names : list string) (i : nat) : string :=
  default "" (feature_names !! i).

(** The number of indices with a strictly positive contribution. *)
Definition positive_count (contributions : list num) : nat :=
  length (filter (is_positive contributions) (seq 0 (length contributions))).

(** The indices of the terms of an explanation: the first [n] indices of
    the reversed [np.argsort] of the products that have a strictly
    positive product. *)
Definition picked_indices {NP : Numpy N} (query_vec doc_vec : list num) (n : nat)
    : list nat :=
  let contributions := zip_with num_mul query_vec doc_vec in
  take n (filter (is_positive contributions) (reverse (np_argsort contributions))).

(** The terms of an explanation. *)
Definition top_terms_of {NP : Numpy N} (query_vec doc_vec : list num)
    (feature_names : list string) : list string :=
  map (name_at feature_names) (picked_indices query_vec doc_vec 3).

(** The entry the vector-space path makes of candidate [i]. *)
Definition scored_entry_of {NP : Numpy N} (st : ref → gmap string (value N))
    (similarities : list num) (maxStipend : num) (query_vec : list num)
    (doc_vecs : list (list num)) (feature_names : list string)
    (ix : nat * ref) : ranked :=
  let sim := value_at similarities ix.1 in
  let d := st ix.2 in
  (spec_blended_score sim (popularity_of d) (stipend_of d) maxStipend
                      (rating_of d) (prestige_of d),
   ix.2,
   explanation_of sim
     (top_terms_of query_vec (default [] (doc_vecs !! ix.1)) feature_names)
     (signal d "popularity") (signal d "company_prestige")).

(** The stipends of the candidates of a call. *)
Definition stipends_of (st : ref → gmap string (value N)) (internships : list ref)
    : list num :=
  map (λ r, stipend_of (st r)) internships.

(** The entry the fallback path makes of a record. *)
Definition fallback_entry_of (st : ref → gmap string (value N)) (r : ref) : ranked :=
  (spec_fallback_score (popularity_of (st r)) (rating_of (st r)) (prestige_of (st r)),
   r, fallback_explanation).

(** No two entries have scores that [==] holds equal. *)
Definition differ (x y : ranked) : Prop :=
  num_eqb (score_of x) (score_of y) = false
  ∧ num_eqb (score_of y) (score_of x) = false.

Fixpoint no_ties (l : list ranked) : Prop :=
  match l with
  | [] => True
  | x :: l' => Forall (differ x) l' ∧ no_ties l'
  end.

(** The first component of a sort key is the score of its entry. *)
Definition well_keyed (k : (num * num) * ranked) : Prop := k.1.1 = score_of k.2.

End Specification.

(** ** What the engine relies on of the libraries *)

(** The shapes of the vectorizer's results. *)
Class SklearnShape {N : PyNum} (SK : Sklearn N) : Prop := {
  fit_rows : ∀ corpus names rows,
    tfidf_fit_transform corpus = Ok (names, rows) →
    length rows = length corpus;
  fit_cols : ∀ corpus names rows,
    tfidf_fit_transform corpus = Ok (names, rows) →
    Forall (λ row, length row = length names) rows;
  cosine_length : ∀ q rows, length (cosine_similarity q rows) = length rows
}.

(** [np.argsort v] lists every index of [v] once, by ascending value.
    Nothing is assumed of the order of indices with equal values: the
    default kind of sort is not stable. *)
Class NumpyArgsort {N : PyNum} (NP : Numpy N) : Prop := {
  argsort_perm : ∀ v, np_argsort v ≡ₚ seq 0 (length v);
  argsort_sorted : ∀ v,
    StronglySorted (ascending num_ltb (value_at v)) (np_argsort v)
}.

(** ** Two runs of the engine side by side *)

Section Frame.
Context {N : PyNum} {R : PyRandom N}.

(** The two records agree on what the engine reads of a record. *)
Definition agree (d1 d2 : gmap string (value N)) : Prop :=
  d1 !! "title" = d2 !! "title"
  ∧ d1 !! "description" = d2 !! "description"
  ∧ d1 !! "required_skills" = d2 !! "required_skills"
  ∧ signal d1 "popularity" = signal d2 "popularity"
  ∧ signal d1 "stipend" = signal d2 "stipend"
  ∧ signal d1 "rating" = signal d2 "rating"
  ∧ signal d1 "company_prestige" = signal d2 "company_prestige".

(** Two runs, one on the store [stA] and one on [stB], from the same
    generator state. *)
Definition paired (stA stB : ref → gmap string (value N)) (w1 w2 : world N R) : Prop :=
  store w1 = stA ∧ store w2 = stB ∧ generator w1 = generator w2.

(** [m] gives the same outcome on both stores, writes to neither and
    leaves the generator in the same state. *)
Definition respects (stA stB : ref → gmap string (value N)) {A} (m : M A) : Prop :=
  ∀ w1 w2, paired stA stB w1 w2 →
    (m w1).1 = (m w2).1 ∧ paired stA stB (m w1).2 (m w2).2.

(** [m] neither reads nor advances the generator: on a given store it has
    one outcome, whatever the state of the generator. *)
Definition generator_free {A} (m : M A) : Prop :=
  ∀ st, ∃ o, ∀ g, m (World st g) = (o, World st g).

(** [m] depends on the generator through the final sort alone. *)
Definition tie_break_only (top_n : Z) (m : M (R:=R) (list ranked)) : Prop :=
  ∀ st,
    (∃ o, ∀ g, m (World st g) = (o, World st g))
    ∨ (∃ scores, ∀ g,
         m (World st g)
         = (sorted ← tie_break_sort scores; mret (py_slice_to sorted top_n))
             (World st g)).

(** The four signals of a record. *)
Definition signal_keys : list string :=
  ["popularity"; "rating"; "company_prestige"; "stipend"].

(** The store with the record at [r] replaced. *)
Definition store_set (st : ref → gmap string (value N)) (r : ref)
    (d : gmap string (value N)) : ref → gmap string (value N) :=
  λ r', if decide (r' = r) then d else st r'.

End Frame.

(** * Executable instances of the interfaces *)

Module Reference.

(** ** Exact rational numbers *)

Definition show_Z (z : Z) : string := pretty z.

(** Integers print in decimal, other rationals as a fraction. *)
Definition show_Q (q : Q) : string :=
  let q := Qred q in
  if (Z.pos (Qden q) =? 1)%Z then show_Z (Qnum q)
  else show_Z (Qnum q) +:+ "/" +:+ show_Z (Z.pos (Qden q)).

Definition pad3 (z : Z) : string :=
  (if (z <? 10)%Z then "00" else if (z <? 100)%Z then "0" else "") +:+ show_Z z.

(** Three decimals, rounding half up. *)
Definition show_Q3 (q : Q) : string :=
  let n := Qfloor (Qplus (Qmult q 1000) (1 # 2)) in
  (if (n <? 0)%Z then "-" else "")
  +:+ show_Z (Z.abs n / 1000) +:+ "." +:+ pad3 (Z.abs n mod 1000).

#[global] Instance Q_num : PyNum := {|
  num := Q;
  num_of_Q := Qred;
  num_add := λ a b, Qred (Qplus a b);
  num_mul := λ a b, Qred (Qmult a b);
  num_div := λ a b, Qred (Qdiv a b);
  num_eqb := Qeq_bool;
  num_ltb := λ a b, negb (Qle_bool b a);
  num_str := show_Q;
  num_fmt3 := show_Q3
|}.

(** ** A fragment of NLTK *)

(** Splitting at blanks: on lower-case words separated by single blanks
    this is what [word_tokenize] returns. *)
Fixpoint split_blanks (cur : string) (s : string) : list string :=
  match s with
  | EmptyString => if nonempty cur then [cur] else []
  | String c s' =>
      if is_space c
      then (if nonempty cur then [cur] else []) ++ split_blanks "" s'
      else split_blanks (cur +:+ String c "") s'
  end.

(** [stopwords.words('english')] *)
Definition english_stop_words : list string :=
  [ "i"; "me"; "my"; "myself"; "we"; "our"; "ours"; "ourselves"; "you";
    "you're"; "you've"; "you'll"; "you'd"; "your"; "yours"; "yourself";
    "yourselves"; "he"; "him"; "his"; "himself"; "she"; "she's"; "her";
    "hers"; "herself"; "it"; "it's"; "its"; "itself"; "they"; "them";
    "their"; "theirs"; "themselves"; "what"; "which"; "who"; "whom"; "this";
    "that"; "that'll"; "these"; "those"; "am"; "is"; "are"; "was"; "were";
    "be"; "been"; "being"; "have"; "has"; "had"; "having"; "do"; "does";
    "did"; "doing"; "a"; "an"; "the"; "and"; "but"; "if"; "or"; "because";
    "as"; "until"; "while"; "of"; "at"; "by"; "for"; "with"; "about";
    "against"; "between"; "into"; "through"; "during"; "before"; "after";
    "above"; "below"; "to"; "from"; "up"; "down"; "in"; "out"; "on"; "off";
    "over"; "under"; "again"; "further"; "then"; "once"; "here"; "there";
    "when"; "where"; "why"; "how"; "all"; "any"; "both"; "each"; "few";
    "more"; "most"; "other"; "some"; "such"; "no"; "nor"; "not"; "only";
    "own"; "same"; "so"; "than"; "too"; "very"; "s"; "t"; "can"; "will";
    "just"; "don"; "don't"; "should"; "should've"; "now"; "d"; "ll"; "m";
    "o"; "re"; "ve"; "y"; "ain"; "aren"; "aren't"; "couldn"; "couldn't";
    "didn"; "didn't"; "doesn"; "doesn't"; "hadn"; "hadn't"; "hasn";
    "hasn't"; "haven"; "haven't"; "isn"; "isn't"; "ma"; "mightn";
    "mightn't"; "mustn"; "mustn't"; "needn"; "needn't"; "shan"; "shan't";
    "shouldn"; "shouldn't"; "wasn"; "wasn't"; "weren"; "weren't"; "won";
    "won't"; "wouldn"; "wouldn't" ].

(** The noun lemmas of WordNet that the examples below use. *)
Definition wordnet_nouns : list string :=
  [ "can"; "python"; "flask"; "design"; "developer"; "intern"; "skill";
    "photoshop"; "database"; "engineer" ].

(** The detachment rules of WordNet for nouns. *)
Definition noun_rules : list (string * string) :=
  [ ("s", ""); ("ses", "s"); ("ves", "f"); ("xes", "x"); ("zes", "z");
    ("ches", "ch"); ("shes", "sh"); ("men", "man"); ("ies", "y") ].

Definition ends_with (suffix word : string) : bool :=
  let n := String.length word in
  let k := String.length suffix in
  (k <=? n)%nat && String.eqb (String.substring (n - k) k word) suffix.

Definition detach (word : string) (rule : string * string) : list string :=
  if ends_with rule.1 word
  then [String.substring 0 (String.length word - String.length rule.1) word +:+ rule.2]
  else [].

Fixpoint shortest (best : string) (l : list string) : string :=
  match l with
  | [] => best
  | x :: l' =>
      shortest (if (String.length x <? String.length best)%nat then x else best) l'
  end.

(** [WordNetLemmatizer().lemmatize(word)]: the shortest of the word and its
    detached forms that are noun lemmas, the word itself when there is none. *)
Definition morphy_lemmatize (word : string) : string :=
  let forms := word :: flat_map (detach word) noun_rules in
  match List.filter (λ f, bool_decide (f ∈ wordnet_nouns)) forms with
  | [] => word
  | f :: fs => shortest f fs
  end.

#[global] Instance nltk_fragment : Nltk := {|
  word_tokenize := split_blanks "";
  stop_words := english_stop_words;
  lemmatize := morphy_lemmatize
|}.

(** ** A stand-in for scikit-learn

    The vocabulary and the errors are those of the vectorizer: a token is a
    maximal run of at least two word characters, the terms of a document
    are its tokens and the pairs of adjacent tokens, a term is kept when
    at least [min_df = 2] documents contain it, and fitting raises when no
    term is left.  The weights are term counts and the similarity is the
    square of the cosine: the tf-idf weights and the cosine itself need
    logarithms and square roots, which the rationals lack. *)

Definition is_word_char (c : ascii) : bool := is_alnum c || Ascii.eqb c "_".

Fixpoint word_runs (cur : string) (s : string) : list string :=
  match s with
  | EmptyString => [cur]
  | String c s' =>
      if is_word_char c then word_runs (cur +:+ String c "") s'
      else cur :: word_runs "" s'
  end.

Definition sk_tokens (doc : string) : list string :=
  List.filter (λ t, (2 <=? String.length t)%nat) (word_runs "" (py_lower doc)).

Fixpoint bigrams (tokens : list string) : list string :=
  match tokens with
  | a :: (b :: _) as rest => (a +:+ " " +:+ b) :: bigrams rest
  | _ => []
  end.

Definition sk_terms (doc : string) : list string :=
  let tokens := sk_tokens doc in tokens ++ bigrams tokens.

Definition occurrences (term : string) (terms : list string) : nat :=
  length (List.filter (String.eqb term) terms).

Definition document_frequency (term : string) (corpus : list (list string)) : nat :=
  length (List.filter (λ terms, bool_decide (term ∈ terms)) corpus).

Definition max_features : nat := 5000.
Definition min_df : nat := 2.

Definition sk_vocabulary (corpus : list string) : outcome (list string) :=
  let docs := map sk_terms corpus in
  let seen := remove_dups (concat docs) in
  match seen with
  | [] => Raise (ValueError
            "empty vocabulary; perhaps the documents only contain stop words")
  | _ :: _ =>
      let kept := List.filter (λ t, (min_df <=? document_frequency t docs)%nat) seen in
      let by_count :=
        py_sort_desc Nat.ltb (λ t, occurrences t (concat docs)) kept in
      match take max_features by_count with
      | [] => Raise (ValueError
                "After pruning, no terms remain. Try a lower min_df or a higher max_df.")
      | capped => Ok (sort_asc String.ltb id capped)
      end
  end.

Definition sk_fit_transform (corpus : list string)
    : outcome (list string * list (list Q)) :=
  names ← sk_vocabulary corpus;
  Ok (names,
      map (λ doc, map (λ t, inject_Z (Z.of_nat (occurrences t (sk_terms doc)))) names)
          corpus).

Definition dot (u v : list Q) : Q :=
  foldr (λ x acc, Qred (Qplus x acc)) 0%Q (zip_with Qmult u v).

Definition squared_cosine (q d : list Q) : Q :=
  let n := Qmult (dot q q) (dot d d) in
  if Qeq_bool n 0 then 0%Q else Qred (Qdiv (Qmult (dot q d) (dot q d)) n).

#[global] Instance sklearn_stand_in : Sklearn Q_num := {|
  tfidf_fit_transform := sk_fit_transform;
  cosine_similarity := λ q rows, map (squared_cosine q) rows
|}.

(** ** NumPy's sort of a short array

    The default kind sorts an array of at most sixteen elements by
    insertion, which keeps equal elements in index order. *)
Definition insertion_argsort (v : list Q) : list nat :=
  sort_asc (num_ltb (PyNum:=Q_num)) (value_at (N:=Q_num) v) (seq 0 (length v)).

#[global] Instance numpy_insertion : Numpy Q_num := {|
  np_argsort := insertion_argsort
|}.

(** ** A generator given by the values it will draw *)
#[global] Instance tape_random : PyRandom Q_num := {|
  rng_state := list Q;
  random_random := λ g, match g with [] => (0%Q, []) | x :: g' => (x, g') end
|}.

(** ** Sample data *)

Definition posting (title description skills : string)
    (popularity rating prestige stipend : Q) : gmap string (value Q_num) :=
  list_to_map
    [ ("title", VStr title); ("description", VStr description);
      ("required_skills", VStr skills);
      ("popularity", VNum popularity); ("rating", VNum rating);
      ("company_prestige", VNum prestige); ("stipend", VNum stipend) ].

Definition store_of (records : list (gmap string (value Q_num)))
    : ref → gmap string (value Q_num) :=
  λ r, default ∅ (records !! r).

Definition resume (skills : string) : gmap string (value Q_num) :=
  {[ "skills" := VStr skills ]}.

Definition backend : gmap string (value Q_num) :=
  posting "Backend Developer" "" "python flask sql" 80 4.2 7 10000.
Definition design : gmap string (value Q_num) :=
  posting "Graphic Design Intern" "" "photoshop illustrator" 90 4.8 8 15000.
(** A posting that is in the catalogue twice: two candidates with equal
    scores. *)
Definition twin : gmap string (value Q_num) :=
  posting "Python Developer" "" "python" 80 4 7 0.
(** A posting whose stipend column is NULL, and one without the column. *)
Definition unpaid : gmap string (value Q_num) := <["stipend" := VNone]> backend.
Definition no_stipend : gmap string (value Q_num) := delete "stipend" backend.

(** The records of a returned list, in order. *)
Definition records_of (o : outcome (list (ranked (N:=Q_num)))) : list ref :=
  match o with Ok l => map record_of l | Raise _ => [] end.

Definition two_postings : world Q_num tape_random :=
  World (store_of [backend; design]) [0.5; 0.25; 0.75]%Q.
Definition two_twins : world Q_num tape_random :=
  World (store_of [twin; twin]) [0.2; 0.8; 0.8; 0.2]%Q.
Definition one_posting (d : gmap string (value Q_num)) : world Q_num tape_random :=
  World (store_of [d]) [].

End Reference.

(** * What a call reads, draws and returns *)

Section Reach.
Context {N : PyNum} {NL : Nltk} {R : PyRandom N}.

(** The state of the generator after [n] calls of [random.random()]. *)
Definition draws (n : nat) (g : rng_state) : rng_state :=
  Nat.iter n (λ g, (random_random g).2) g.

(** The values [n] calls of [random.random()] return. *)
Fixpoint draw_values (n : nat) (g : rng_state) : list num :=
  match n with
  | 0 => []
  | S n' => let '(x, g') := random_random g in x :: draw_values n' g'
  end.

(** The keys of the final sort: the score of each entry with the number
    drawn for it, the entries taken in order. *)
Definition keys_of (scores : list ranked) (g : rng_state)
    : list ((num * num) * ranked) :=
  zip_with (λ x r, ((x.1.1, r), x)) scores (draw_values (length scores) g).

(** The call reaches the vectorizer: there is a candidate and the
    normalised query is not blank. *)
Definition takes_vector_path (student : gmap string (value N))
    (internships : list ref) : bool :=
  match internships, query_raw_of student with
  | _ :: _, Ok q => negb (py_blank (preprocess q))
  | _, _ => false
  end.

Definition is_str (v : value N) : bool :=
  match v with VStr _ => true | _ => false end.

(** Both texts of the student are strings or missing. *)
Definition student_texts (student : gmap string (value N)) : bool :=
  is_str (default (VStr "") (student !! "skills"))
  && is_str (default (VStr "") (student !! "interests")).

(** The text field that [document_of] finds missing first. *)
Definition first_missing_text (d : gmap string (value N)) : option string :=
  if negb (has_key d "title") then Some "title"
  else if negb (has_key d "description") then Some "description"
  else if negb (has_key d "required_skills") then Some "required_skills"
  else None.

(** The three signals of the fallback path are numbers or missing; so are
    the four signals of the vector-space path. *)
Definition numeric_for_fallback (d : gmap string (value N)) : bool :=
  is_num (signal d "popularity") && is_num (signal d "rating")
  && is_num (signal d "company_prestige").

Definition numeric_for_vector (d : gmap string (value N)) : bool :=
  numeric_for_fallback d && is_num (signal d "stipend").

(** The two records agree on what the fallback path reads of a record. *)
Definition agree_but_stipend (d1 d2 : gmap string (value N)) : Prop :=
  d1 !! "title" = d2 !! "title"
  ∧ d1 !! "description" = d2 !! "description"
  ∧ d1 !! "required_skills" = d2 !! "required_skills"
  ∧ signal d1 "popularity" = signal d2 "popularity"
  ∧ signal d1 "rating" = signal d2 "rating"
  ∧ signal d1 "company_prestige" = signal d2 "company_prestige".

End Reach.

(** The products at [j] and at [k] are equal: neither is smaller. *)
Definition tied_products {N : PyNum} (c : list num) (j k : nat) : Prop :=
  tied_with num_ltb (value_at c) (value_at c j) k.

(** A stable sort lists the indices of equal values in ascending order.
    [np.argsort] promises it for [kind='stable'], not for its default
    kind. *)
Class NumpyStable {N : PyNum} (NP : Numpy N) : Prop := {
  argsort_stable : ∀ v,
    StronglySorted (λ i j, tied_products v i j → (i < j)%nat) (np_argsort v)
}.

(** Numbers that [==] holds equal are not ordered by [<]. *)
Class PyNumTies (N : PyNum) : Prop := {
  num_eqb_tied : ∀ a b : num,
    num_eqb a b = true → num_ltb a b = false ∧ num_ltb b a = false
}.

(** [==] is an equivalence that [<] respects, and two numbers that [<]
    does not order are equal: the numbers are totally ordered (no NaN). *)
Class PyNumOrder (N : PyNum) : Prop := {
  num_eqb_sym : ∀ a b : num, num_eqb a b = num_eqb b a;
  num_eqb_trans : ∀ a b c : num,
    num_eqb a b = true → num_eqb b c = true → num_eqb a c = true;
  num_ltb_eqb_l : ∀ a b c : num, num_eqb a b = true → num_ltb a c = num_ltb b c;
  num_ltb_eqb_r : ∀ a b c : num, num_eqb a b = true → num_ltb c a = num_ltb c b;
  num_ltb_total : ∀ a b : num,
    num_ltb a b = false → num_ltb b a = false → num_eqb a b = true
}.

(** * The route that calls the engine: [find_matches] of [app.py]

    The route is a view wrapped by [student_required], which is itself
    wrapped by [login_required].  What the view needs of Flask, SQLite
    and PyMuPDF is in its context: the row of the logged-in user
    ([g.user], set before the request), the uploaded files, and the rows
    [SELECT * FROM internships] returns. *)

(** [s.endswith(suffix)] *)
Definition py_endswith (s suffix : string) : bool :=
  let n := String.length s in
  let m := String.length suffix in
  (m <=? n)%nat && String.eqb (substring (n - m) m s) suffix.

(** PyMuPDF: [fitz.open(stream=..., filetype="pdf")] and [get_text()] of
    each page, or the message of the exception either raises. *)
Inductive extraction : Type :=
  | Pages (texts : list string)
  | Failed (message : string).

Class Fitz : Type := {
  fitz_page_texts : string → extraction
}.

(** [round(x, ndigits)] *)
Class PyRound (N : PyNum) : Type := {
  num_round : num → Z → num
}.

(** Rounding does not reverse the order of two numbers. *)
Class PyRoundLaws {N : PyNum} (RD : PyRound N) : Prop := {
  num_round_mono : ∀ (a b : num) (ndigits : Z),
    num_ltb a b = false → num_ltb (num_round a ndigits) (num_round b ndigits) = false
}.

Section Route.
Context {N : PyNum} {NL : Nltk} {SK : Sklearn N} {NP : Numpy N} {R : PyRandom N}.
Context {FZ : Fitz} {RD : PyRound N}.

(** A row of the table [users]. *)
Record user_row : Type := {
  user_id : Z;
  user_name : string;
  user_email : string;
  user_password_hash : string;
  user_role : string
}.

(** A row of the table [internships]: a cell holds a number, a text or
    NULL, whatever type its column declares. *)
Record internship_row : Type := {
  row_id : value N;
  row_title : value N;
  row_description : value N;
  row_required_skills : value N;
  row_company : value N;
  row_duration : value N;
  row_stipend : value N;
  row_popularity : value N;
  row_rating : value N;
  row_company_prestige : value N;
  row_company_id : value N;
  row_apply_url : value N
}.

(** [dict(row)]: every column is a key, NULL cells included. *)
Definition dict_of_row (row : internship_row) : gmap string (value N) :=
  list_to_map
    [ ("id", row_id row); ("title", row_title row);
      ("description", row_description row);
      ("required_skills", row_required_skills row);
      ("company", row_company row); ("duration", row_duration row);
      ("stipend", row_stipend row); ("popularity", row_popularity row);
      ("rating", row_rating row);
      ("company_prestige", row_company_prestige row);
      ("company_id", row_company_id row); ("apply_url", row_apply_url row) ].

(** An uploaded file: its name and its bytes. *)
Record upload : Type := {
  filename : string;
  stream : string
}.

Record request_context : Type := {
  g_user : option user_row;
  request_url : string;
  request_files : gmap string upload;
  internships_table : list internship_row
}.

(** An element of the list the route answers with. *)
Record suggestion : Type := {
  item_score : num;
  item_internship : gmap string (value N);
  item_explanation : string
}.

Inductive body : Type :=
  | error_body (error : string)
  | match_list (items : list suggestion).

Inductive response : Type :=
  | redirect (endpoint next : string)
  | jsonify (b : body) (status : nat).

(** A view runs in a request context and shares the generator of the
    process. *)
Definition view : Type := request_context → rng_state → outcome response * rng_state.

Definition login_required (f : view) : view := λ ctx g,
  match g_user ctx with
  | None => (Ok (redirect "login" (request_url ctx)), g)
  | Some _ => f ctx g
  end.

Definition student_required (f : view) : view :=
  login_required (λ ctx g,
    match g_user ctx with
    | None => (Raise TypeError, g)
    | Some user =>
        if negb (String.eqb (user_role user) "student")
        then (Ok (jsonify (error_body "Student access required.") 403), g)
        else f ctx g
    end).

(** The dictionaries the route builds from the rows, one object for each
    row, in the order of the rows. *)
Definition rows_store (rows : list internship_row) : ref → gmap string (value N) :=
  λ r, default ∅ (dict_of_row <$> rows !! r).

(** [{'score': round(s, 4), 'internship': i, 'explanation': e}] *)
Definition suggestion_of (st : ref → gmap string (value N)) (x : ranked) : suggestion :=
  {| item_score := num_round x.1.1 4;
     item_internship := st x.1.2;
     item_explanation := x.2 |}.

Definition find_matches : view :=
  student_required (λ ctx g,
    match request_files ctx !! "resume" with
    | None => (Ok (jsonify (error_body "No resume file provided") 400), g)
    | Some file =>
        if negb (py_endswith (py_lower (filename file)) ".pdf")
        then (Ok (jsonify
                    (error_body "Unsupported file type. Please upload a PDF file.")
                    400), g)
        else
          match fitz_page_texts (stream file) with
          | Failed e =>
              (Ok (jsonify (error_body ("Error processing PDF file: " +:+ e)) 500), g)
          | Pages texts =>
              let resume_text := py_join "" texts in
              if py_blank resume_text
              then (Ok (jsonify (error_body "Could not extract text from the PDF.")
                          400), g)
              else
                let student : gmap string (value N) :=
                  {[ "skills" := VStr resume_text ]} in
                let rows := internships_table ctx in
                match rows with
                | [] =>
                    (Ok (jsonify
                           (error_body "No internship opportunities available.")
                           404), g)
                | _ :: _ =>
                    let internships := seq 0 (length rows) in
                    match recommendInternship student internships 5
                            (World (rows_store rows) g) with
                    | (Ok recommendations, w') =>
                        (Ok (jsonify
                               (match_list
                                  (map (suggestion_of (store w')) recommendations))
                               200),
                         generator w')
                    | (Raise e, w') => (Raise e, generator w')
                    end
                end
          end
    end).

(** The request passes every check that precedes the call of the engine:
    a student is logged in, the upload is named [*.pdf], its text is
    extracted and is not blank, and the table is not empty. *)
Definition reaches_engine (ctx : request_context) (resume_text : string) : Prop :=
  (∃ user, g_user ctx = Some user ∧ user_role user = "student")
  ∧ (∃ file texts,
       request_files ctx !! "resume" = Some file
       ∧ py_endswith (py_lower (filename file)) ".pdf" = true
       ∧ fitz_page_texts (stream file) = Pages texts
       ∧ resume_text = py_join "" texts)
  ∧ py_blank resume_text = false
  ∧ internships_table ctx ≠ [].

End Route.

(** * Executable instances for the route *)

Module RouteReference.
Import Reference.

(** ** Rounding exact rationals

    [round] rounds half to even. *)
Definition round_half_even (x : Q) : Z :=
  let f := Qfloor x in
  match Qcompare (x - inject_Z f) (1 # 2)%Q with
  | Lt => f
  | Gt => (f + 1)%Z
  | Eq => if Z.even f then f else (f + 1)%Z
  end.

Definition Q_round (q : Q) (ndigits : Z) : Q :=
  if (0 <=? ndigits)%Z
  then Qred (inject_Z (round_half_even (q * inject_Z (10 ^ ndigits)))
             / inject_Z (10 ^ ndigits))
  else Qred (inject_Z (round_half_even (q / inject_Z (10 ^ (- ndigits))))
             * inject_Z (10 ^ (- ndigits))).

#[global] Instance Q_rounding : PyRound Q_num := {| num_round := Q_round |}.

(** ** A stand-in for PyMuPDF

    A stream that starts with the marker of a PDF file has one page, the
    rest of the stream; any other stream cannot be opened. *)
Definition pdf_marker : string := "%PDF".

#[global] Instance fitz_stand_in : Fitz := {|
  fitz_page_texts := λ s,
    if String.prefix pdf_marker s
    then Pages [substring (String.length pdf_marker)
                          (String.length s - String.length pdf_marker) s]
    else Failed "Failed to open stream"
|}.

(** ** Sample requests *)

Definition row_of (id : Z) (title skills : string)
    (popularity rating prestige stipend : value Q_num) : internship_row :=
  {| row_id := VNum (inject_Z id);
     row_title := VStr title;
     row_description := VNone;
     row_required_skills := VStr skills;
     row_company := VStr "Ministry of Corporate Affairs";
     row_duration := VStr "6 months";
     row_stipend := stipend;
     row_popularity := popularity;
     row_rating := rating;
     row_company_prestige := prestige;
     row_company_id := VNum 1%Q;
     row_apply_url := VNone |}.

Definition backend_row : internship_row :=
  row_of 1 "Backend Developer" "python flask sql"
         (VNum 80%Q) (VNum 4.2%Q) (VNum 7%Q) (VNum 10000%Q).
Definition design_row : internship_row :=
  row_of 2 "Graphic Design Intern" "photoshop illustrator"
         (VNum 90%Q) (VNum 4.8%Q) (VNum 8%Q) (VNum 15000%Q).
(** A row whose rating was never set. *)
Definition unrated_row : internship_row :=
  row_of 3 "Data Analyst" "python sql"
         (VNum 60%Q) VNone (VNum 6%Q) (VNum 12000%Q).

Definition aditya : user_row :=
  {| user_id := 2; user_name := "Aditya Sharma";
     user_email := "aditya@student.com"; user_password_hash := "";
     user_role := "student" |}.

(** A student posts a resume with the given text to [/find-matches]. *)
Definition student_posts (resume_text : string) (rows : list internship_row)
    : request_context :=
  {| g_user := Some aditya;
     request_url := "http://localhost:5000/find-matches";
     request_files :=
       {[ "resume" := {| filename := "Resume.PDF";
                         stream := pdf_marker +:+ resume_text |} ]};
     internships_table := rows |}.

(** The response carries a list of suggestions. *)
Definition answers_list (o : outcome response) : bool :=
  match o with
  | Ok (jsonify (match_list _) _) => true
  | _ => false
  end.

End RouteReference.

(** * Facts about the sort *)

Section SortingFacts.
Context {K E : Type} (lt : K → K → bool) (key : E → K).

Lemma insert_sorted_perm (x : E) l : insert_sorted lt key x l ≡ₚ x :: l.
Proof.
  induction l as [|y l IH]; simpl; [done|].
  destruct (lt (key y) (key x)); [|done].
  rewrite IH. apply Permutation_swap.
Qed.

Lemma sort_asc_perm (l : list E) : sort_asc lt key l ≡ₚ l.
Proof.
  induction l as [|x l IH]; simpl; [done|].
  by rewrite insert_sorted_perm, IH.
Qed.

Lemma py_sort_desc_perm (l : list E) : py_sort_desc lt key l ≡ₚ l.
Proof.
  unfold py_sort_desc.
  by rewrite reverse_Permutation, sort_asc_perm, reverse_Permutation.
Qed.

Lemma py_sort_desc_length (l : list E) :
  length (py_sort_desc lt key l) = length l.
Proof. apply Permutation_length, py_sort_desc_perm. Qed.

Lemma StronglySorted_reverse (R : relation E) l :
  StronglySorted R l → StronglySorted (flip R) (reverse l).
Proof.
  induction 1 as [|x l Hl IH Hx]; [rewrite reverse_nil; constructor|].
  rewrite reverse_cons. apply StronglySorted_app_2; [|exact IH|repeat constructor].
  intros y z Hy Hz. apply list_elem_of_singleton in Hz as ->.
  rewrite elem_of_reverse in Hy. unfold flip.
  rewrite Forall_forall in Hx. by apply Hx.
Qed.

Lemma filter_take_prefix (P : E → Prop) `{!∀ x, Decision (P x)} (l : list E) n :
  filter P (take n l) `prefix_of` filter P l.
Proof.
  rewrite <-(take_drop n l) at 2. rewrite filter_app. by apply prefix_app_r.
Qed.

(** The two laws of a strict weak order that the sort relies on. *)
Hypothesis lt_asym : ∀ a b, lt a b = true → lt b a = false.
Hypothesis lt_negtrans : ∀ a b c, lt a b = false → lt b c = false → lt a c = false.

Lemma insert_sorted_sorted x l :
  StronglySorted (ascending lt key) l →
  StronglySorted (ascending lt key) (insert_sorted lt key x l).
Proof.
  induction 1 as [|y l Hl IH Hy]; simpl.
  - repeat constructor.
  - destruct (lt (key y) (key x)) eqn:Hlt.
    + constructor; [done|].
      rewrite insert_sorted_perm. constructor; [|done].
      by apply lt_asym.
    + constructor; [by constructor|].
      constructor; [done|].
      eapply Forall_impl; [exact Hy|]. intros z Hz.
      unfold ascending in *. by eapply lt_negtrans.
Qed.

Lemma sort_asc_sorted l : StronglySorted (ascending lt key) (sort_asc lt key l).
Proof.
  induction l; simpl; [constructor|by apply insert_sorted_sorted].
Qed.

Lemma py_sort_desc_sorted l :
  StronglySorted (descending lt key) (py_sort_desc lt key l).
Proof.
  unfold py_sort_desc.
  apply (StronglySorted_reverse (ascending lt key)), sort_asc_sorted.
Qed.

(** Stability: the elements whose keys are tied with a given key keep
    their order. *)
Lemma insert_sorted_stable s x l :
  filter (tied_with lt key s) (insert_sorted lt key x l)
  = filter (tied_with lt key s) (x :: l).
Proof.
  induction l as [|y l IH]; simpl; [done|].
  destruct (lt (key y) (key x)) eqn:Hlt; [|done].
  rewrite filter_cons, IH, !filter_cons.
  destruct (decide (tied_with lt key s x)) as [[Hx1 Hx2]|]; [|done].
  destruct (decide (tied_with lt key s y)) as [[Hy1 Hy2]|]; [|done].
  rewrite (lt_negtrans _ _ _ Hy1 Hx2) in Hlt. done.
Qed.

Lemma sort_asc_stable s l :
  filter (tied_with lt key s) (sort_asc lt key l) = filter (tied_with lt key s) l.
Proof.
  induction l as [|x l IH]; simpl; [done|].
  by rewrite insert_sorted_stable, !filter_cons, IH.
Qed.

Lemma py_sort_desc_stable s l :
  filter (tied_with lt key s) (py_sort_desc lt key l)
  = filter (tied_with lt key s) l.
Proof.
  unfold py_sort_desc.
  by rewrite filter_reverse, sort_asc_stable, filter_reverse, reverse_involutive.
Qed.

End SortingFacts.

(** * The engine reads and never writes *)

Section FrameFacts.
Context {N : PyNum} {NL : Nltk} {SK : Sklearn N} {NP : Numpy N} {R : PyRandom N}.
Variables stA stB : ref → gmap string (value N).
Hypothesis Hagree : ∀ r, agree (stA r) (stB r).

Lemma respects_ret {A} (a : A) : respects stA stB (mret a).
Proof. by intros w1 w2 H. Qed.

Lemma respects_lift {A} (o : outcome A) : respects stA stB (lift o).
Proof. by intros w1 w2 H. Qed.

Lemma respects_bind {A B} (m : M A) (f : A → M B) :
  respects stA stB m → (∀ a, respects stA stB (f a)) →
  respects stA stB (m ≫= f).
Proof.
  intros Hm Hf w1 w2 H. destruct (Hm w1 w2 H) as [Ho Hw].
  unfold mbind, M_bind.
  destruct (m w1) as [[a|e] w1'], (m w2) as [[a'|e'] w2']; simplify_eq/=;
    [by apply Hf|done].
Qed.

Lemma respects_mapM {A B} (f : A → M B) (l : list A) :
  (∀ a, respects stA stB (f a)) → respects stA stB (mapM f l).
Proof.
  intros Hf. induction l as [|x l IH]; simpl; [apply respects_ret|].
  apply respects_bind; [done|]. intros y.
  apply respects_bind; [done|]. intros k. apply respects_ret.
Qed.

Lemma respects_random : respects stA stB random_draw.
Proof.
  intros [st1 g1] [st2 g2] (?&?&?); simplify_eq/=. unfold random_draw; simpl.
  by destruct (random_random g2).
Qed.

Lemma respects_get r key :
  (∀ r, signal (stA r) key = signal (stB r) key) →
  respects stA stB (dict_get r key (VNum (lit 0))).
Proof.
  intros Hk [st1 g1] [st2 g2] (?&?&?); simplify_eq/=.
  unfold dict_get; simpl. split; [|done]. f_equal. apply Hk.
Qed.

Lemma respects_index r key :
  (∀ r, stA r !! key = stB r !! key) →
  respects stA stB (dict_index r key).
Proof.
  intros Hk [st1 g1] [st2 g2] (?&?&?); simplify_eq/=.
  unfold dict_index; simpl. rewrite Hk. by destruct (stB r !! key).
Qed.

Ltac respects_step :=
  first
    [ apply respects_ret
    | apply respects_lift
    | apply respects_random
    | apply respects_get; intros r'; apply (Hagree r')
    | apply respects_index; intros r'; apply (Hagree r')
    | apply respects_mapM; intros ?
    | apply respects_bind; [|intros ?] ].

Lemma respects_document_of r : respects stA stB (document_of r).
Proof. unfold document_of. repeat respects_step. Qed.

Lemma respects_fallback_entry r : respects stA stB (fallback_entry r).
Proof. unfold fallback_entry. repeat respects_step. Qed.

Lemma respects_scored_entry sims m q dvs names ix :
  respects stA stB (scored_entry sims m q dvs names ix).
Proof. destruct ix. unfold scored_entry. repeat respects_step. Qed.

Lemma respects_tie_break_sort scores : respects stA stB (tie_break_sort scores).
Proof. unfold tie_break_sort, tie_break_key. repeat respects_step. Qed.

Lemma respects_recommendInternship student internships top_n :
  respects stA stB (recommendInternship student internships top_n).
Proof.
  unfold recommendInternship. destruct internships as [|r l]; [apply respects_ret|].
  apply respects_bind; [apply respects_lift|]. intros q.
  apply respects_bind; [apply respects_mapM, respects_document_of|]. intros docs.
  destruct (py_blank (preprocess q)).
  - unfold fallback_path.
    apply respects_bind; [apply respects_mapM, respects_fallback_entry|].
    intros; apply respects_ret.
  - unfold vector_path.
    apply respects_bind; [apply respects_lift|]. intros [names rows].
    apply respects_bind; [apply respects_lift|]. intros qv.
    apply respects_bind; [repeat respects_step|]. intros sts.
    apply respects_bind; [apply respects_lift|]. intros ms.
    apply respects_bind; [apply respects_mapM; intros; apply respects_scored_entry|].
    intros scores.
    apply respects_bind; [apply respects_tie_break_sort|].
    intros; apply respects_ret.
Qed.

End FrameFacts.

(** * Runs of the loops *)

Section RunFacts.
Context {N : PyNum} {NL : Nltk} {SK : Sklearn N} {NP : Numpy N} {R : PyRandom N}.

Lemma bind_run {A B} (m : M A) (f : A → M B) (w : world N R) :
  (m ≫= f) w =
  match m w with
  | (Ok a, w') => f a w'
  | (Raise e, w') => (Raise e, w')
  end.
Proof. reflexivity. Qed.

Lemma mapM_cons_run {A B} (f : A → M B) x (l : list A) (w : world N R) :
  mapM f (x :: l) w =
  match f x w with
  | (Ok y, w1) =>
      match mapM f l w1 with
      | (Ok k, w2) => (Ok (y :: k), w2)
      | (Raise e, w2) => (Raise e, w2)
      end
  | (Raise e, w1) => (Raise e, w1)
  end.
Proof. reflexivity. Qed.

Lemma mapM_run_ok {A B} (f : A → M B) (g : A → B) (l : list A) (w : world N R) :
  (∀ x, x ∈ l → f x w = (Ok (g x), w)) →
  mapM f l w = (Ok (map g l), w).
Proof.
  induction l as [|x l IH]; intros Hf; [done|].
  rewrite mapM_cons_run, Hf by left. rewrite IH; [done|].
  intros y Hy. apply Hf. by right.
Qed.

Lemma mapM_run_length {A B} (f : A → M B) (l : list A) (w w' : world N R) ys :
  mapM f l w = (Ok ys, w') → length ys = length l.
Proof.
  revert w ys. induction l as [|x l IH]; intros w ys.
  - by intros [= <- _].
  - rewrite mapM_cons_run. destruct (f x w) as [[y|e] w1]; [|done].
    destruct (mapM f l w1) as [[k|e] w2] eqn:E; [|done].
    intros [= <- <-]. simpl. f_equal. by eapply IH.
Qed.

Lemma py_slice_to_take {A} (l : list A) (k : Z) :
  (0 ≤ k)%Z → py_slice_to l k = take (Z.to_nat k) l.
Proof. intros H. unfold py_slice_to. by rewrite (proj2 (Z.leb_le 0 k) H). Qed.

Lemma signal_num (d : gmap string (value N)) key :
  is_num (signal d key) = true → signal d key = VNum (num_of (signal d key)).
Proof. by destruct (signal d key). Qed.

Lemma well_formed_inv (d : gmap string (value N)) :
  well_formed d = true →
  (has_key d "title" = true ∧ has_key d "description" = true
   ∧ has_key d "required_skills" = true)
  ∧ signal d "popularity" = VNum (popularity_of d)
  ∧ signal d "stipend" = VNum (stipend_of d)
  ∧ signal d "rating" = VNum (rating_of d)
  ∧ signal d "company_prestige" = VNum (prestige_of d).
Proof.
  unfold well_formed. rewrite !andb_true_iff.
  intros [[[[[[? ?] ?] ?] ?] ?] ?]. repeat split; try done; by apply signal_num.
Qed.

Lemma dict_index_run (w : world N R) r key :
  has_key (store w r) key = true →
  dict_index r key w = (Ok (default VNone (store w r !! key)), w).
Proof. unfold has_key, dict_index. by destruct (store w r !! key). Qed.

Lemma document_of_run (w : world N R) r :
  well_formed (store w r) = true →
  document_of r w = (Ok (document_text (store w r)), w).
Proof.
  intros ((Ht & Hd & Hs) & _)%well_formed_inv.
  unfold document_of, mbind, M_bind.
  by rewrite (dict_index_run _ _ _ Ht), (dict_index_run _ _ _ Hd),
    (dict_index_run _ _ _ Hs).
Qed.

Context {L : PyNumLaws N}.

Lemma fallback_score_spec (p r c : num) :
  fallback_score (num_div p (lit 100)) (num_div r (lit 5)) (num_div c (lit 10))
  = spec_fallback_score p r c.
Proof.
  unfold fallback_score, spec_fallback_score.
  by rewrite !(num_mul_comm (num_div _ _)).
Qed.

Lemma blended_score_spec (sim p s m r c : num) :
  blended_score sim (num_div p (lit 100)) (num_div s m) (num_div r (lit 5))
                (num_div c (lit 10))
  = spec_blended_score sim p s m r c.
Proof.
  unfold blended_score, spec_blended_score, spec_stipend_term.
  rewrite (num_mul_comm sim), (num_mul_comm (py_min _ _)).
  by rewrite !(num_mul_comm (num_div _ _)).
Qed.

Lemma py_truediv_ok (x y : num) :
  num_eqb y (lit 0) = false → py_truediv (VNum x) (VNum y) = Ok (num_div x y).
Proof. intros H. unfold py_truediv. by rewrite H. Qed.

Lemma fallback_entry_run (w : world N R) r :
  well_formed (store w r) = true →
  fallback_entry r w = (Ok (fallback_entry_of (store w) r), w).
Proof.
  intros (_ & Hp & _ & Hr & Hc)%well_formed_inv.
  unfold fallback_entry, fallback_entry_of, mbind, M_bind, dict_get, lift.
  fold (signal (store w r) "popularity") (signal (store w r) "rating")
       (signal (store w r) "company_prestige").
  rewrite Hp, Hr, Hc.
  rewrite !py_truediv_ok by auto using num_100_neq_0, num_5_neq_0, num_10_neq_0.
  by rewrite fallback_score_spec.
Qed.

End RunFacts.

(** * The fallback path *)

Section FallbackFacts.
Context {N : PyNum} {NL : Nltk} {R : PyRandom N} {L : PyNumLaws N}.

Lemma num_ltb_asym (a b : num) : num_ltb a b = true → num_ltb b a = false.
Proof.
  intros H. destruct (num_ltb b a) eqn:Hba; [|done].
  by rewrite <-(num_ltb_irrefl a), (num_ltb_trans a b a).
Qed.

Lemma recommendInternship_blank {SK : Sklearn N} {NP : Numpy N}
    student internships top_n (w : world N R) q :
  query_raw_of student = Ok q →
  py_blank (preprocess q) = true →
  (∀ r, r ∈ internships → well_formed (store w r) = true) →
  recommendInternship student internships top_n w
  = (Ok (py_slice_to
           (py_sort_desc num_ltb score_of (map (fallback_entry_of (store w)) internships))
           top_n), w).
Proof.
  intros Hq Hblank Hwf. unfold recommendInternship.
  destruct internships as [|r0 l].
  { unfold py_slice_to. cbn. by destruct (0 <=? top_n)%Z; rewrite take_nil. }
  rewrite bind_run. unfold lift at 1. rewrite Hq.
  rewrite bind_run.
  rewrite (mapM_run_ok document_of (λ r, document_text (store w r)))
    by (intros; by apply document_of_run, Hwf).
  rewrite Hblank. unfold fallback_path. rewrite bind_run.
  rewrite (mapM_run_ok fallback_entry (fallback_entry_of (store w)))
    by (intros; by apply fallback_entry_run, Hwf).
  done.
Qed.

End FallbackFacts.

(** C2.  When the normalised query is blank, the engine never calls the
    vectorizer: whatever scikit-learn and NumPy would do, it scores each
    record by [0.5*(popularity/100) + 0.3*(rating/5) + 0.2*(prestige/10)],
    attaches the fixed explanation, sorts the entries in descending order
    of that score and returns the first [top_n] of them. *)
Theorem fallback_ranking {N : PyNum} {NL : Nltk} {R : PyRandom N} {L : PyNumLaws N}
    (SK SK' : Sklearn N) (NP NP' : Numpy N)
    student internships top_n (w : world N R) q :
  (1 ≤ top_n)%Z →
  query_raw_of student = Ok q →
  py_blank (preprocess q) = true →
  (∀ r, r ∈ internships → well_formed (store w r) = true) →
  ∃ sorted,
    recommendInternship (SK:=SK) (NP:=NP) student internships top_n w
      = (Ok (take (Z.to_nat top_n) sorted), w)
    ∧ recommendInternship (SK:=SK') (NP:=NP') student internships top_n w
      = (Ok (take (Z.to_nat top_n) sorted), w)
    ∧ sorted ≡ₚ map (fallback_entry_of (store w)) internships
    ∧ StronglySorted (λ x y, num_ltb (score_of x) (score_of y) = false) sorted.
Proof.
  intros Hn Hq Hblank Hwf.
  exists (py_sort_desc num_ltb score_of (map (fallback_entry_of (store w)) internships)).
  rewrite <-py_slice_to_take by lia.
  split; [by eapply recommendInternship_blank|].
  split; [by eapply recommendInternship_blank|].
  split; [apply py_sort_desc_perm|].
  apply py_sort_desc_sorted; [apply num_ltb_asym|apply num_ltb_negtrans].
Qed.

(** * The stable descending sort *)

Section StableSortFacts.
Context {K E : Type} (lt : K → K → bool) (key : E → K).
Hypothesis lt_irrefl : ∀ a, lt a a = false.

(** A rearrangement of a list that is in descending order of the keys and
    keeps the elements of every class of tied keys in their order is
    determined by the list. *)
Lemma stable_sort_unique (l l' : list E) :
  l ≡ₚ l' →
  StronglySorted (descending lt key) l →
  StronglySorted (descending lt key) l' →
  (∀ s, filter (tied_with lt key s) l = filter (tied_with lt key s) l') →
  l = l'.
Proof.
  revert l'. induction l as [|x t IH]; intros l' Hperm Hs Hs' Hf.
  - by apply Permutation_nil_l in Hperm.
  - destruct l' as [|x' t']; [by apply Permutation_nil_r in Hperm|].
    apply StronglySorted_inv in Hs as [Hst Hx].
    apply StronglySorted_inv in Hs' as [Hst' Hx'].
    rewrite Forall_forall in Hx, Hx'.
    assert (Hxx' : lt (key x) (key x') = false).
    { assert (Hin : x' ∈ x :: t) by (rewrite Hperm; by left).
      apply elem_of_cons in Hin as [->|Hin]; [apply lt_irrefl|by apply Hx]. }
    assert (Hx'x : lt (key x') (key x) = false).
    { assert (Hin : x ∈ x' :: t') by (rewrite <-Hperm; by left).
      apply elem_of_cons in Hin as [->|Hin]; [apply lt_irrefl|by apply Hx']. }
    assert (x = x') as <-.
    { pose proof (Hf (key x)) as H.
      rewrite (filter_cons_True _ x), (filter_cons_True _ x') in H;
        [by injection H|by split|by split; apply lt_irrefl]. }
    f_equal. apply IH; [by eapply Permutation_cons_inv|done|done|].
    intros s. pose proof (Hf s) as H. rewrite !filter_cons in H.
    destruct (decide (tied_with lt key s x)); [by injection H|done].
Qed.

End StableSortFacts.

(** C10.  On the fallback path the engine draws no random number: from
    every state of the generator it returns the same list and leaves the
    generator as it was.  The list is the first [top_n] entries of the
    stable descending sort of the entries of the candidates: a
    rearrangement of all of them, in non-increasing order of score, in
    which the entries tied with any given score stand in the order of the
    input list; there is one such rearrangement and no other. *)
Theorem fallback_deterministic_stable
    {N : PyNum} {NL : Nltk} {SK : Sklearn N} {NP : Numpy N} {R : PyRandom N}
    {L : PyNumLaws N}
    student internships top_n (st : ref → gmap string (value N)) q :
  (1 ≤ top_n)%Z →
  query_raw_of student = Ok q →
  py_blank (preprocess q) = true →
  (∀ r, r ∈ internships → well_formed (st r) = true) →
  let entries := map (fallback_entry_of st) internships in
  ∃ sorted,
    (∀ g, recommendInternship student internships top_n (World st g)
          = (Ok (take (Z.to_nat top_n) sorted), World st g))
    ∧ sorted ≡ₚ entries
    ∧ StronglySorted (descending num_ltb score_of) sorted
    ∧ (∀ s, filter (tied_with num_ltb score_of s) sorted
            = filter (tied_with num_ltb score_of s) entries)
    ∧ (∀ sorted',
         sorted' ≡ₚ entries →
         StronglySorted (descending num_ltb score_of) sorted' →
         (∀ s, filter (tied_with num_ltb score_of s) sorted'
               = filter (tied_with num_ltb score_of s) entries) →
         sorted' = sorted).
Proof.
  intros Hn Hq Hblank Hwf entries.
  exists (py_sort_desc num_ltb score_of entries).
  assert (Hsorted : StronglySorted (descending num_ltb score_of)
                      (py_sort_desc num_ltb score_of entries)).
  { apply py_sort_desc_sorted; [apply num_ltb_asym|apply num_ltb_negtrans]. }
  split; [|split; [|split; [|split]]].
  - intros g. rewrite <-py_slice_to_take by lia.
    by apply (recommendInternship_blank student internships top_n (World st g) q).
  - apply py_sort_desc_perm.
  - exact Hsorted.
  - intros s. apply py_sort_desc_stable, num_ltb_negtrans.
  - intros sorted' Hperm Hs' Hstable.
    apply (stable_sort_unique num_ltb score_of num_ltb_irrefl);
      [by rewrite Hperm, py_sort_desc_perm|done|done|].
    intros s. rewrite Hstable.
    symmetry. apply py_sort_desc_stable, num_ltb_negtrans.
Qed.

(** * The candidates are read, never written *)

(** C9.  A call leaves the caller's records as they were: the store after
    the call is the store before it, whether the call returns or raises.
    The list of candidates, the normaliser and the vectorizer are values
    and functions of the embedding: nothing can write to them. *)
Theorem candidates_unchanged
    {N : PyNum} {NL : Nltk} {SK : Sklearn N} {NP : Numpy N} {R : PyRandom N}
    student internships top_n (w : world N R) :
  store (recommendInternship student internships top_n w).2 = store w.
Proof.
  assert (Hagree : ∀ r, agree (store w r) (store w r)) by (intros r; by repeat split).
  destruct (respects_recommendInternship (store w) (store w) Hagree
              student internships top_n w w) as [_ (H & _ & _)]; [by repeat split|].
  exact H.
Qed.

(** C7 (amended).  A signal that is missing from a record is read as zero:
    the call returns or raises exactly what it does when the record holds
    the number [0] under that key, and leaves the generator in the same
    state. *)
Theorem missing_signal_is_zero
    {N : PyNum} {NL : Nltk} {SK : Sklearn N} {NP : Numpy N} {R : PyRandom N}
    student internships top_n (w : world N R) r key :
  key ∈ signal_keys →
  store w r !! key = None →
  let w0 := World (store_set (store w) r (<[key := VNum (lit 0)]> (store w r)))
                  (generator w) in
  (recommendInternship student internships top_n w).1
  = (recommendInternship student internships top_n w0).1
  ∧ generator (recommendInternship student internships top_n w).2
    = generator (recommendInternship student internships top_n w0).2.
Proof.
  intros Hkey Hnone w0.
  assert (Hagree : ∀ r', agree (store w r') (store w0 r')).
  { intros r'. subst w0; simpl. unfold store_set.
    destruct (decide (r' = r)) as [->|]; [|by repeat split].
    unfold agree, signal, signal_keys in *.
    rewrite !elem_of_cons in Hkey.
    destruct Hkey as [->|[->|[->|[->|Hk]]]]; [..|by apply elem_of_nil in Hk];
      repeat split;
      rewrite ?lookup_insert_eq, ?lookup_insert_ne by done; by rewrite ?Hnone. }
  destruct (respects_recommendInternship (store w) (store w0) Hagree
              student internships top_n w w0) as [Ho (_ & _ & Hg)]; [by repeat split|].
  by split.
Qed.

(** * The reference instances satisfy the laws *)

Module ReferenceFacts.
Import Reference.

Lemma Q_ltb_lt (a b : Q) : negb (Qle_bool b a) = true ↔ (a < b)%Q.
Proof.
  rewrite negb_true_iff, <-not_true_iff_false, Qle_bool_iff.
  split; [apply Qnot_le_lt|apply Qlt_not_le].
Qed.

Lemma Q_ltb_ge (a b : Q) : negb (Qle_bool b a) = false ↔ (b <= a)%Q.
Proof. by rewrite negb_false_iff, Qle_bool_iff. Qed.

#[global] Instance Q_laws : PyNumLaws Q_num.
Proof.
  split; try reflexivity; simpl.
  - intros a b. f_equal. unfold Qmult. f_equal; [apply Z.mul_comm|apply Pos.mul_comm].
  - intros a. apply Q_ltb_ge, Qle_refl.
  - intros a b c. rewrite !Q_ltb_lt. apply Qlt_trans.
  - intros a b c. rewrite !Q_ltb_ge. intros ? ?. by apply Qle_trans with b.
Qed.

End ReferenceFacts.

(** * The contributing terms *)

Section TermFacts.
Context {N : PyNum} {NP : Numpy N}.

Lemma StronglySorted_filter {A} (Rel : relation A) (P : A → Prop)
    `{!∀ x, Decision (P x)} (l : list A) :
  StronglySorted Rel l → StronglySorted Rel (filter P l).
Proof.
  induction 1 as [|x l Hl IH Hx]; [constructor|].
  rewrite filter_cons. destruct (decide (P x)); [|done].
  constructor; [done|].
  apply Forall_forall. intros y [_ Hy]%list_elem_of_filter.
  rewrite Forall_forall in Hx. by apply Hx.
Qed.

Lemma StronglySorted_take {A} (Rel : relation A) (l : list A) n :
  StronglySorted Rel l → StronglySorted Rel (take n l).
Proof.
  intros H. revert n. induction H as [|x l Hl IH Hx]; intros [|n]; simpl;
    try constructor; [done|]. by apply Forall_take.
Qed.

Lemma py_index_run {A} (l : list A) i x :
  l !! i = Some x → py_index l i = Ok x.
Proof. unfold py_index. by intros ->. Qed.

Lemma contributions_of_run (q d : list num) :
  length q = length d → contributions_of q d = Ok (zip_with num_mul q d).
Proof. intros H. unfold contributions_of. by rewrite H, Nat.eqb_refl. Qed.

Lemma positive_terms_run (c : list num) (names : list string) idxs :
  Forall (λ i, i < length c ∧ i < length names)%nat idxs →
  positive_terms c names idxs
  = Ok (map (name_at names) (filter (is_positive c) idxs)).
Proof.
  induction 1 as [|i idxs [Hc Hn] _ IH]; [done|].
  apply lookup_lt_is_Some in Hc as [x Hx]. apply lookup_lt_is_Some in Hn as [s Hs].
  assert (Hval : value_at c i = x) by (unfold value_at; by rewrite Hx).
  simpl. rewrite (py_index_run _ _ _ Hx). simpl.
  rewrite filter_cons.
  destruct (decide (is_positive c i)) as [Hpos|Hpos];
    unfold is_positive in Hpos; rewrite Hval in Hpos.
  - rewrite Hpos, (py_index_run _ _ _ Hs), IH. simpl.
    unfold name_at at 2. by rewrite Hs.
  - apply not_true_is_false in Hpos. by rewrite Hpos, IH.
Qed.

Context {A : NumpyArgsort NP}.

(** The indices [get_top_contributing_terms] picks. *)
Lemma argsort_in_range (c : list num) i :
  i ∈ np_argsort c ↔ (i < length c)%nat.
Proof. rewrite argsort_perm, elem_of_seq. lia. Qed.

Lemma get_top_contributing_terms_run (q d : list num) (names : list string) n :
  length q = length d → length names = length d →
  get_top_contributing_terms q d names n
  = Ok (map (name_at names) (picked_indices q d n)).
Proof.
  intros Hq Hn. unfold get_top_contributing_terms, picked_indices.
  rewrite (contributions_of_run _ _ Hq). simpl.
  rewrite positive_terms_run.
  - simpl. by rewrite <-fmap_take.
  - apply Forall_forall. intros i Hi. rewrite elem_of_reverse, argsort_in_range in Hi.
    rewrite length_zip_with in *. lia.
Qed.

Lemma picked_indices_positive (q d : list num) n i :
  i ∈ picked_indices q d n →
  (i < length (zip_with num_mul q d))%nat ∧ is_positive (zip_with num_mul q d) i.
Proof.
  unfold picked_indices. intros Hi%(subseteq_take n)%list_elem_of_filter.
  destruct Hi as [Hp Hi]. by rewrite elem_of_reverse, argsort_in_range in Hi.
Qed.

Lemma picked_indices_NoDup (q d : list num) n : NoDup (picked_indices q d n).
Proof.
  unfold picked_indices. eapply sublist_NoDup; [|apply sublist_take].
  apply NoDup_filter. rewrite reverse_Permutation, argsort_perm. apply NoDup_seq.
Qed.

Lemma picked_indices_length (q d : list num) n :
  length (picked_indices q d n) = min n (positive_count (zip_with num_mul q d)).
Proof.
  unfold picked_indices, positive_count. rewrite length_take. f_equal.
  apply Permutation_length.
  by rewrite reverse_Permutation, argsort_perm.
Qed.

Lemma picked_indices_sorted (q d : list num) n :
  StronglySorted (descending num_ltb (value_at (zip_with num_mul q d)))
                 (picked_indices q d n).
Proof.
  unfold picked_indices. apply StronglySorted_take, StronglySorted_filter.
  apply (StronglySorted_reverse (ascending num_ltb _)), argsort_sorted.
Qed.

Lemma picked_indices_top (q d : list num) n i j :
  i ∈ picked_indices q d n →
  (j < length (zip_with num_mul q d))%nat →
  is_positive (zip_with num_mul q d) j →
  j ∉ picked_indices q d n →
  num_ltb (value_at (zip_with num_mul q d) i) (value_at (zip_with num_mul q d) j) = false.
Proof.
  unfold picked_indices. set (c := zip_with num_mul q d).
  set (F := filter (is_positive c) (reverse (np_argsort c))).
  intros Hi Hj Hpos Hnot.
  assert (HF : j ∈ F).
  { apply list_elem_of_filter. split; [done|]. by rewrite elem_of_reverse, argsort_in_range. }
  assert (Hsorted : StronglySorted (descending num_ltb (value_at c)) (take n F ++ drop n F)).
  { rewrite take_drop. apply StronglySorted_filter.
    apply (StronglySorted_reverse (ascending num_ltb _)), argsort_sorted. }
  rewrite <-(take_drop n F), elem_of_app in HF. destruct HF as [?|HF]; [done|].
  by apply (StronglySorted_app_1_elem_of _ _ _ _ _ Hsorted).
Qed.

End TermFacts.

(** * The vector-space path *)

Section VectorFacts.
Context {N : PyNum} {NL : Nltk} {SK : Sklearn N} {NP : Numpy N} {R : PyRandom N}.
Context {L : PyNumLaws N} {S : SklearnShape SK} {A : NumpyArgsort NP}.

Lemma max_from_run (m : num) (l : list num) :
  max_from (VNum m) (map VNum l) = Ok (VNum (maximum m l)).
Proof.
  revert m. induction l as [|y l IH]; intros m; [done|].
  simpl. rewrite <-IH. by destruct (num_ltb m y).
Qed.

Lemma max_stipend_of_run (xs : list num) :
  max_stipend_of (map VNum xs) = Ok (VNum (spec_max_stipend xs)).
Proof.
  unfold max_stipend_of, spec_max_stipend. destruct xs as [|x l]; simpl.
  - by rewrite num_1_neq_0.
  - rewrite max_from_run. simpl. by destruct (num_eqb (maximum x l) (lit 0)).
Qed.

Lemma spec_max_stipend_nonzero (xs : list num) :
  num_eqb (spec_max_stipend xs) (lit 0) = false.
Proof.
  unfold spec_max_stipend. destruct xs as [|x l]; [apply num_1_neq_0|].
  simpl. destruct (num_eqb (maximum x l) (lit 0)) eqn:E; [apply num_1_neq_0|done].
Qed.

Lemma enumerate_lookup {B} (l : list B) k :
  enumerate l !! k = (λ r, (k, r)) <$> l !! k.
Proof.
  unfold enumerate. rewrite lookup_zip_with.
  destruct (l !! k) as [r|] eqn:E.
  - rewrite lookup_seq_lt by (by eapply lookup_lt_Some). done.
  - by destruct (seq 0 (length l) !! k).
Qed.

Lemma elem_of_enumerate {B} (l : list B) i r :
  (i, r) ∈ enumerate l → l !! i = Some r.
Proof.
  intros [k Hk]%list_elem_of_lookup. rewrite enumerate_lookup in Hk.
  destruct (l !! k) eqn:E; by simplify_eq/=.
Qed.

Lemma scored_entry_run (w : world N R) sims m q dvs names i r sim dv :
  well_formed (store w r) = true →
  sims !! i = Some sim → dvs !! i = Some dv →
  length q = length dv → length names = length dv →
  num_eqb m (lit 0) = false →
  scored_entry sims (VNum m) q dvs names (i, r) w
  = (Ok (scored_entry_of (store w) sims m q dvs names (i, r)), w).
Proof.
  intros (_ & Hp & Hs & Hr & Hc)%well_formed_inv Hsim Hdv Hq Hn Hm.
  unfold scored_entry, scored_entry_of, top_terms_of, value_at; simpl.
  rewrite Hsim, Hdv; simpl.
  unfold mbind, M_bind, dict_get, lift.
  fold (signal (store w r) "popularity") (signal (store w r) "rating")
       (signal (store w r) "company_prestige") (signal (store w r) "stipend").
  rewrite (py_index_run _ _ _ Hsim).
  rewrite Hp, Hs, Hr, Hc.
  rewrite !py_truediv_ok by auto using num_100_neq_0, num_5_neq_0, num_10_neq_0.
  rewrite (py_index_run _ _ _ Hdv), (get_top_contributing_terms_run _ _ _ _ Hq Hn).
  by rewrite blended_score_spec.
Qed.

(** The final sort draws one number for each entry and permutes them. *)
Lemma mapM_tie_break_key_run (scores : list ranked) (w : world N R) :
  ∃ keyed g,
    mapM tie_break_key scores w = (Ok keyed, World (store w) g)
    ∧ keyed.*2 = scores.
Proof.
  revert w. induction scores as [|x l IH]; intros w.
  - exists [], (generator w). by destruct w.
  - rewrite mapM_cons_run. unfold tie_break_key at 1.
    rewrite bind_run. unfold random_draw at 1.
    destruct (random_random (generator w)) as [y g1] eqn:Hg. simpl.
    destruct (IH (World (store w) g1)) as (keyed & g & -> & Hk). simpl.
    exists (((x.1.1, y), x) :: keyed), g. by rewrite <-Hk.
Qed.

Lemma tie_break_sort_run (scores : list ranked) (w : world N R) :
  ∃ sorted g,
    tie_break_sort scores w = (Ok sorted, World (store w) g)
    ∧ sorted ≡ₚ scores.
Proof.
  destruct (mapM_tie_break_key_run scores w) as (keyed & g & Hrun & Hk).
  exists (py_sort_desc tuple_ltb fst keyed).*2, g.
  unfold tie_break_sort. rewrite bind_run, Hrun. split; [done|].
  by rewrite py_sort_desc_perm, Hk.
Qed.

Lemma stipends_run (w : world N R) internships :
  (∀ r, r ∈ internships → well_formed (store w r) = true) →
  mapM (λ intern, dict_get intern "stipend" (VNum (lit 0))) internships w
  = (Ok (map VNum (stipends_of (store w) internships)), w).
Proof.
  intros Hwf. unfold stipends_of. rewrite map_map.
  apply (mapM_run_ok _ (λ r, VNum (stipend_of (store w r)))).
  intros r Hr. apply Hwf, well_formed_inv in Hr as (_ & _ & Hs & _).
  unfold dict_get. fold (signal (store w r) "stipend"). by rewrite Hs.
Qed.

Lemma vector_path_run (w : world N R) query internships top_n names rows :
  (∀ r, r ∈ internships → well_formed (store w r) = true) →
  tfidf_fit_transform (map (λ r, document_text (store w r)) internships ++ [query])
    = Ok (names, rows) →
  let query_vec := default [] (last rows) in
  let doc_vecs := removelast rows in
  let sims := cosine_similarity query_vec doc_vecs in
  let maxStipend := spec_max_stipend (stipends_of (store w) internships) in
  ∃ sorted g,
    vector_path query (map (λ r, document_text (store w r)) internships)
                internships top_n w
    = (Ok (py_slice_to sorted top_n), World (store w) g)
    ∧ sorted ≡ₚ map (scored_entry_of (store w) sims maxStipend query_vec doc_vecs names)
                    (enumerate internships).
Proof.
  intros Hwf Hfit.
  pose proof (fit_rows _ _ _ Hfit) as Hrows.
  pose proof (fit_cols _ _ _ Hfit) as Hcols.
  rewrite length_app, length_map in Hrows. simpl in Hrows.
  destruct (last rows) as [qv|] eqn:Hlast; cycle 1.
  { apply last_None in Hlast as ->. simpl in Hrows. lia. }
  apply last_Some in Hlast as [dvs ->].
  rewrite removelast_last. simpl.
  rewrite length_app in Hrows. simpl in Hrows.
  apply Forall_app in Hcols as [Hdvs Hqv]. rewrite Forall_singleton in Hqv.
  set (sims := cosine_similarity qv dvs).
  set (maxS := spec_max_stipend (stipends_of (store w) internships)).
  destruct (tie_break_sort_run
    (map (scored_entry_of (store w) sims maxS qv dvs names) (enumerate internships)) w)
    as (sorted & g & Hsort & Hperm).
  exists sorted, g. split; [|done].
  unfold vector_path. rewrite bind_run. unfold lift at 1. rewrite Hfit.
  rewrite bind_run. unfold lift at 1, last_row. rewrite last_snoc.
  rewrite removelast_last. fold sims.
  rewrite bind_run, (stipends_run _ _ Hwf).
  rewrite bind_run. unfold lift at 1. rewrite max_stipend_of_run. fold maxS.
  rewrite bind_run.
  rewrite (mapM_run_ok _ (scored_entry_of (store w) sims maxS qv dvs names)).
  - by rewrite bind_run, Hsort.
  - intros [i r] Hir%elem_of_enumerate.
    assert (Hi : (i < length internships)%nat) by (by eapply lookup_lt_Some).
    destruct (lookup_lt_is_Some_2 sims i) as [sim Hsim].
    { unfold sims. rewrite cosine_length. lia. }
    destruct (lookup_lt_is_Some_2 dvs i) as [dv Hdv]; [lia|].
    assert (Hlen : length dv = length names).
    { rewrite Forall_forall in Hdvs. apply Hdvs. by eapply list_elem_of_lookup_2. }
    apply (scored_entry_run w sims maxS qv dvs names i r sim dv);
      [|done|done|congruence|congruence|apply spec_max_stipend_nonzero].
    apply Hwf. by eapply list_elem_of_lookup_2.
Qed.

End VectorFacts.

Section ScoreFacts.
Context {N : PyNum} {L : PyNumLaws N}.

(** [maximum x l] is an element of [x :: l] that none exceeds. *)
Lemma maximum_elem (x : num) (l : list num) : maximum x l ∈ x :: l.
Proof.
  unfold maximum. revert x. induction l as [|y l IH]; intros x; simpl; [by left|].
  destruct (num_ltb x y).
  - right. apply IH.
  - specialize (IH x). apply elem_of_cons in IH as [->|IH]; [by left|by do 2 right].
Qed.

Lemma maximum_ge_first (x : num) (l : list num) : num_ltb (maximum x l) x = false.
Proof.
  unfold maximum. revert x. induction l as [|y l IH]; intros x; simpl.
  - apply num_ltb_irrefl.
  - destruct (num_ltb x y) eqn:Hxy; [|apply IH].
    destruct (num_ltb (foldl (λ m z, if num_ltb m z then z else m) y l) x) eqn:Hm;
      [|done].
    specialize (IH y). by rewrite (num_ltb_trans _ _ _ Hm Hxy) in IH.
Qed.

Lemma maximum_upper_bound (x : num) (l : list num) y :
  y ∈ x :: l → num_ltb (maximum x l) y = false.
Proof.
  revert x. induction l as [|z l IH]; intros x.
  - intros ->%list_elem_of_singleton. apply num_ltb_irrefl.
  - intros [->|Hy]%elem_of_cons; [apply maximum_ge_first|].
    unfold maximum. simpl. fold (maximum (if num_ltb x z then z else x) l).
    apply elem_of_cons in Hy as [->|Hy].
    + destruct (num_ltb x z) eqn:Hxz; [apply maximum_ge_first|].
      eapply num_ltb_negtrans; [apply maximum_ge_first|done].
    + apply IH. by right.
Qed.

Lemma maximum_zeros (xs : list num) :
  Forall (λ x, x = lit 0) xs → maximum (lit 0) xs = lit 0.
Proof.
  unfold maximum. induction 1 as [|x xs -> _ IH]; [done|].
  simpl. by rewrite num_ltb_irrefl.
Qed.

Lemma spec_max_stipend_zeros (xs : list num) :
  Forall (λ x, x = lit 0) xs → spec_max_stipend xs = lit 1.
Proof.
  intros H. unfold spec_max_stipend. destruct H as [|x xs -> H]; [done|].
  simpl. fold (maximum (lit 0) xs). by rewrite (maximum_zeros _ H), num_eqb_refl_0.
Qed.

Lemma spec_stipend_term_zero : spec_stipend_term (lit 0) (lit 1) = lit 0.
Proof.
  unfold spec_stipend_term, py_min.
  by rewrite num_div_0_1, num_1_lt_0, num_mul_comm, num_mul_0_l.
Qed.

End ScoreFacts.

(** C1.  On the vector-space path every candidate [i] gets the score
    [0.55*sim + 0.15*(popularity/100) + 0.15*min(stipend/maxStipend, 1)
     + 0.10*(rating/5) + 0.05*(prestige/10)],
    where [sim] is its similarity and [maxStipend] the largest stipend of
    the call, [1] when that is [0]; the call returns the first [top_n] of
    a permutation of these entries.  When every stipend is [0] the divisor
    is [1] and the stipend term is [0] for every candidate. *)
Theorem blended_scores
    {N : PyNum} {NL : Nltk} {SK : Sklearn N} {NP : Numpy N} {R : PyRandom N}
    {L : PyNumLaws N} {S : SklearnShape SK} {A : NumpyArgsort NP}
    student internships top_n (w : world N R) q names rows :
  (1 ≤ top_n)%Z →
  query_raw_of student = Ok q →
  py_blank (preprocess q) = false →
  (∀ r, r ∈ internships → well_formed (store w r) = true) →
  tfidf_fit_transform
    (map (λ r, document_text (store w r)) internships ++ [preprocess q])
    = Ok (names, rows) →
  let sims := cosine_similarity (default [] (last rows)) (removelast rows) in
  let maxStipend := spec_max_stipend (stipends_of (store w) internships) in
  ∃ entries sorted w',
    recommendInternship student internships top_n w
      = (Ok (take (Z.to_nat top_n) sorted), w')
    ∧ sorted ≡ₚ entries
    ∧ length entries = length internships
    ∧ (∀ i r, internships !! i = Some r →
         ∃ x, entries !! i = Some x
              ∧ record_of x = r
              ∧ score_of x =
                  spec_blended_score (value_at sims i)
                    (popularity_of (store w r)) (stipend_of (store w r)) maxStipend
                    (rating_of (store w r)) (prestige_of (store w r)))
    ∧ ((∀ r, r ∈ internships → stipend_of (store w r) = lit 0) →
         maxStipend = lit 1
         ∧ ∀ r, r ∈ internships →
             spec_stipend_term (stipend_of (store w r)) maxStipend = lit 0).
Proof.
  intros Hn Hq Hblank Hwf Hfit sims maxStipend.
  assert (Hzero : (∀ r, r ∈ internships → stipend_of (store w r) = lit 0) →
    maxStipend = lit 1
    ∧ ∀ r, r ∈ internships →
        spec_stipend_term (stipend_of (store w r)) maxStipend = lit 0).
  { intros H0.
    assert (maxStipend = lit 1) as ->.
    { apply spec_max_stipend_zeros, Forall_forall. unfold stipends_of.
      intros x (r & -> & Hr)%list_elem_of_fmap. by apply H0. }
    split; [done|]. intros r Hr. rewrite (H0 r Hr). apply spec_stipend_term_zero. }
  destruct (decide (internships = [])) as [->|Hne].
  { exists [], [], w. rewrite take_nil.
    split; [done|]. split; [done|]. split; [done|]. split; [|exact Hzero].
    intros i r Hi. by rewrite lookup_nil in Hi. }
  destruct (vector_path_run w (preprocess q) internships top_n names rows Hwf Hfit)
    as (sorted & g & Hrun & Hperm).
  eexists _, sorted, (World (store w) g).
  split; [|split; [exact Hperm|]].
  - unfold recommendInternship. destruct internships; [done|].
    rewrite bind_run. unfold lift at 1. rewrite Hq.
    rewrite bind_run.
    rewrite (mapM_run_ok document_of (λ r, document_text (store w r)))
      by (intros; by apply document_of_run, Hwf).
    rewrite Hblank, Hrun. by rewrite py_slice_to_take by lia.
  - split; [|split; [|exact Hzero]].
    + unfold enumerate. by rewrite length_map, length_zip_with, length_seq, Nat.min_id.
    + intros i r Hi. eexists. split.
      * by rewrite list_lookup_fmap, enumerate_lookup, Hi.
      * by split.
Qed.

(** * Equal products *)

Section TieFacts.
Context {N : PyNum} {NP : Numpy N} {L : PyNumLaws N}.

Lemma StronglySorted_weaken {B} (R1 R2 : relation B) (l : list B) :
  (∀ x y, R1 x y → R2 x y) → StronglySorted R1 l → StronglySorted R2 l.
Proof.
  intros HR. induction 1 as [|x l Hl IH Hx]; constructor; [done|].
  eapply Forall_impl; [exact Hx|]. intros y. apply HR.
Qed.

Lemma tied_products_sym (c : list num) j k :
  tied_products c j k → tied_products c k j.
Proof. by intros [? ?]. Qed.

Lemma tied_products_refl (c : list num) j : tied_products c j j.
Proof. split; apply num_ltb_irrefl. Qed.

(** Under a stable sort the reversed [np.argsort] lists the indices of
    equal products in descending order, and so does what is picked of
    it. *)
Lemma picked_indices_stable {St : NumpyStable NP} (q d : list num) n :
  StronglySorted (λ j k, tied_products (zip_with num_mul q d) j k → (k < j)%nat)
                 (take n (filter (is_positive (zip_with num_mul q d))
                            (reverse (np_argsort (zip_with num_mul q d)))))
  ∧ StronglySorted (λ j k, tied_products (zip_with num_mul q d) j k → (k < j)%nat)
                   (filter (is_positive (zip_with num_mul q d))
                      (reverse (np_argsort (zip_with num_mul q d)))).
Proof.
  set (c := zip_with num_mul q d).
  assert (H : StronglySorted (λ j k, tied_products c j k → (k < j)%nat)
                (filter (is_positive c) (reverse (np_argsort c)))).
  { apply StronglySorted_filter.
    apply (StronglySorted_weaken
             (flip (λ i j, tied_products c i j → (i < j)%nat))).
    - intros j k Hkj Hjk. by apply Hkj, tied_products_sym.
    - apply StronglySorted_reverse, argsort_stable. }
  split; [by apply StronglySorted_take|exact H].
Qed.

(** A sort whose classes of equal values are in ascending order of index
    is stable. *)
Lemma stable_of_tied_classes (v : list num) (l : list nat) :
  (∀ s, StronglySorted lt (filter (tied_with num_ltb (value_at v) s) l)) →
  StronglySorted (λ i j, tied_products v i j → (i < j)%nat) l.
Proof.
  induction l as [|x l IH]; intros H; constructor.
  - apply IH. intros s. specialize (H s). rewrite filter_cons in H.
    destruct (decide (tied_with num_ltb (value_at v) s x)); [|done].
    by apply StronglySorted_inv in H as [? _].
  - apply Forall_forall. intros j Hj Htied. specialize (H (value_at v x)).
    rewrite filter_cons_True in H by apply tied_products_refl.
    apply StronglySorted_inv in H as [_ H]. rewrite Forall_forall in H.
    apply H. by apply list_elem_of_filter.
Qed.

Lemma seq_ascending (a n : nat) : StronglySorted lt (seq a n).
Proof.
  revert a. induction n as [|n IH]; intros a; simpl; constructor; [done|].
  apply Forall_forall. intros j Hj%elem_of_seq. lia.
Qed.

End TieFacts.

(** C6 (amended).  The terms of an explanation are the names of at most
    three indices: distinct, each with a strictly positive product, in
    order of descending product, and such that no index left out has a
    larger product than one that is listed; they are all the indices with
    a positive product when there are at most three.  Any two of them,
    indices with equal products included, come in the order of the
    reversed [np.argsort]: the indices picked are the first three with a
    positive product in that order.  When the sort is stable this is not
    the order of the vector: of two listed indices with equal products
    the higher comes first, and an index left out with the product of a
    listed one is lower than that one.  The first line of the explanation
    lists the terms when [sim > 0.05] and there is one, is the general
    line when [sim > 0.05] and there is none, and is the no-match line
    otherwise. *)
Theorem explanation_terms
    {N : PyNum} {NP : Numpy N} {R : PyRandom N}
    {L : PyNumLaws N} {A : NumpyArgsort NP}
    (w : world N R) sims m query_vec doc_vecs feature_names i r sim doc_vec :
  well_formed (store w r) = true →
  sims !! i = Some sim → doc_vecs !! i = Some doc_vec →
  length query_vec = length doc_vec → length feature_names = length doc_vec →
  num_eqb m (lit 0) = false →
  let c := zip_with num_mul query_vec doc_vec in
  ∃ picked terms score rest,
    get_top_contributing_terms query_vec doc_vec feature_names 3 = Ok terms
    ∧ terms = map (name_at feature_names) picked
    ∧ NoDup picked
    ∧ length picked = min 3 (positive_count c)
    ∧ (∀ j, j ∈ picked → (j < length c)%nat ∧ is_positive c j)
    ∧ StronglySorted (descending num_ltb (value_at c)) picked
    ∧ (∀ j k, j ∈ picked → (k < length c)%nat → is_positive c k → k ∉ picked →
         num_ltb (value_at c j) (value_at c k) = false)
    ∧ picked = take 3 (filter (is_positive c) (reverse (np_argsort c)))
    ∧ picked `sublist_of` reverse (np_argsort c)
    ∧ (NumpyStable NP →
         StronglySorted (λ j k, tied_products c j k → (k < j)%nat) picked
         ∧ ∀ j k, j ∈ picked → (k < length c)%nat → is_positive c k → k ∉ picked →
                  tied_products c j k → (k < j)%nat)
    ∧ scored_entry sims (VNum m) query_vec doc_vecs feature_names (i, r) w
      = (Ok (score, r, py_join newline (match_line sim terms :: rest)), w)
    ∧ (num_ltb (lit 0.05) sim = true → terms ≠ [] →
         match_line sim terms = keyword_line terms)
    ∧ (num_ltb (lit 0.05) sim = true → terms = [] →
         match_line sim terms = general_match_line)
    ∧ (num_ltb (lit 0.05) sim = false → match_line sim terms = no_match_line).
Proof.
  intros Hwf Hsim Hdv Hq Hn Hm c.
  exists (picked_indices query_vec doc_vec 3),
         (map (name_at feature_names) (picked_indices query_vec doc_vec 3)).
  exists (spec_blended_score sim (popularity_of (store w r)) (stipend_of (store w r)) m
            (rating_of (store w r)) (prestige_of (store w r))),
         [ bullet +:+ " Similarity Score: " +:+ num_fmt3 sim;
           bullet +:+ " Popularity Score: "
             +:+ py_str (signal (store w r) "popularity") +:+ "/100";
           bullet +:+ " Prestige Score: "
             +:+ py_str (signal (store w r) "company_prestige") +:+ "/10" ].
  split; [by apply get_top_contributing_terms_run|].
  split; [done|].
  split; [apply picked_indices_NoDup|].
  split; [apply picked_indices_length|].
  split; [apply picked_indices_positive|].
  split; [apply picked_indices_sorted|].
  split; [apply picked_indices_top|].
  split; [done|].
  split.
  { unfold picked_indices. etrans; [apply sublist_take|apply sublist_filter]. }
  split.
  { intros St. subst c.
    destruct (picked_indices_stable query_vec doc_vec 3) as [Hpicked Hall].
    split; [exact Hpicked|].
    intros j k Hj Hk Hpos Hnot Htied.
    set (c := zip_with num_mul query_vec doc_vec) in *.
    set (F := filter (is_positive c) (reverse (np_argsort c))) in *.
    assert (HF : k ∈ F).
    { apply list_elem_of_filter. split; [done|].
      by rewrite elem_of_reverse, argsort_in_range. }
    rewrite <-(take_drop 3 F) in Hall, HF.
    apply elem_of_app in HF as [?|HF]; [done|].
    by apply (StronglySorted_app_1_elem_of _ _ _ j k Hall). }
  split.
  { rewrite (scored_entry_run w sims m query_vec doc_vecs feature_names i r sim doc_vec)
      by done.
    unfold scored_entry_of, explanation_of, top_terms_of, value_at. cbn [fst snd].
    by rewrite Hsim, Hdv. }
  unfold match_line. repeat split.
  - intros -> Hne. by rewrite bool_decide_eq_false_2.
  - intros -> Hnil. by rewrite bool_decide_eq_true_2.
  - by intros ->.
Qed.

(** * Where the generator matters *)

Section GeneratorFacts.
Context {N : PyNum} {NL : Nltk} {SK : Sklearn N} {NP : Numpy N} {R : PyRandom N}.

Lemma generator_free_ret {A} (a : A) : generator_free (R:=R) (mret a).
Proof. intros st. by exists (Ok a). Qed.

Lemma generator_free_lift {A} (o : outcome A) : generator_free (R:=R) (lift o).
Proof. intros st. by exists o. Qed.

Lemma generator_free_get r key dflt : generator_free (R:=R) (dict_get r key dflt).
Proof. intros st. by exists (Ok (default dflt (st r !! key))). Qed.

Lemma generator_free_index r key : generator_free (R:=R) (dict_index r key).
Proof.
  intros st. unfold dict_index. simpl.
  destruct (st r !! key) as [v|]; [by exists (Ok v)|by exists (Raise (KeyError key))].
Qed.

Lemma generator_free_bind {A B} (m : M (R:=R) A) (f : A → M B) :
  generator_free m → (∀ a, generator_free (f a)) → generator_free (m ≫= f).
Proof.
  intros Hm Hf st. destruct (Hm st) as [[a|e] Ho].
  - destruct (Hf a st) as [o' Ho']. exists o'. intros g.
    by rewrite bind_run, Ho.
  - exists (Raise e). intros g. by rewrite bind_run, Ho.
Qed.

Lemma generator_free_mapM {A B} (f : A → M (R:=R) B) (l : list A) :
  (∀ a, generator_free (f a)) → generator_free (mapM f l).
Proof.
  intros Hf. induction l as [|x l IH]; simpl; [apply generator_free_ret|].
  apply generator_free_bind; [done|]. intros y.
  apply generator_free_bind; [done|]. intros k. apply generator_free_ret.
Qed.

Ltac generator_free_step :=
  first
    [ apply generator_free_ret
    | apply generator_free_lift
    | apply generator_free_get
    | apply generator_free_index
    | apply generator_free_mapM; intros ?
    | apply generator_free_bind; [|intros ?] ].

Lemma generator_free_document_of r : generator_free (R:=R) (document_of r).
Proof. unfold document_of. repeat generator_free_step. Qed.

Lemma generator_free_fallback_path internships top_n :
  generator_free (R:=R) (fallback_path internships top_n).
Proof. unfold fallback_path, fallback_entry. repeat generator_free_step. Qed.

Lemma generator_free_scored_entry sims m q dvs names ix :
  generator_free (R:=R) (scored_entry sims m q dvs names ix).
Proof. destruct ix. unfold scored_entry. repeat generator_free_step. Qed.

Lemma tie_break_only_free top_n m : generator_free m → tie_break_only top_n m.
Proof. intros H st. left. apply H. Qed.

Lemma tie_break_only_bind {A} top_n (m : M A) f :
  generator_free m → (∀ a, tie_break_only top_n (f a)) →
  tie_break_only top_n (m ≫= f).
Proof.
  intros Hm Hf st. destruct (Hm st) as [[a|e] Ho].
  - destruct (Hf a st) as [[o' Ho']|[scores Hs]].
    + left. exists o'. intros g. by rewrite bind_run, Ho.
    + right. exists scores. intros g. by rewrite bind_run, Ho.
  - left. exists (Raise e). intros g. by rewrite bind_run, Ho.
Qed.

Lemma tie_break_only_recommendInternship student internships top_n :
  tie_break_only top_n (recommendInternship student internships top_n).
Proof.
  unfold recommendInternship. destruct internships as [|r l].
  { apply tie_break_only_free, generator_free_ret. }
  apply tie_break_only_bind; [apply generator_free_lift|]. intros q.
  apply tie_break_only_bind;
    [apply generator_free_mapM, generator_free_document_of|]. intros docs.
  destruct (py_blank (preprocess q)).
  { apply tie_break_only_free, generator_free_fallback_path. }
  unfold vector_path.
  apply tie_break_only_bind; [apply generator_free_lift|]. intros [names rows].
  apply tie_break_only_bind; [apply generator_free_lift|]. intros qv.
  apply tie_break_only_bind; [repeat generator_free_step|]. intros sts.
  apply tie_break_only_bind; [apply generator_free_lift|]. intros ms.
  apply tie_break_only_bind;
    [apply generator_free_mapM; intros; apply generator_free_scored_entry|].
  intros scores st. right. by exists scores.
Qed.

(** Without ties the random component of the key is never compared. *)
Lemma differ_sym (x y : ranked) : differ x y → differ y x.
Proof. by intros [? ?]. Qed.

Lemma no_ties_snoc (l : list ranked) x :
  no_ties (l ++ [x]) ↔ no_ties l ∧ Forall (differ x) l.
Proof.
  induction l as [|y l IH]; simpl.
  - split; [done|]. by repeat split.
  - rewrite Forall_app, Forall_singleton, IH, Forall_cons.
    split.
    + intros [[Hy Hyx] [Hl Hx]]. split; [by split|]. split; [by apply differ_sym|done].
    + intros [[Hy Hl] [Hxy Hx]]. split; [split; [done|by apply differ_sym]|by split].
Qed.

Lemma no_ties_reverse (l : list ranked) : no_ties l → no_ties (reverse l).
Proof.
  induction l as [|x l IH]; [done|]. intros [Hx Hl].
  rewrite reverse_cons. apply no_ties_snoc. split; [by apply IH|].
  by rewrite Forall_forall in *; setoid_rewrite elem_of_reverse.
Qed.

Lemma insert_sorted_keyed (k : (num * num) * ranked) l :
  well_keyed k → Forall well_keyed l → Forall (λ y, differ k.2 y.2) l →
  (insert_sorted tuple_ltb fst k l).*2 = insert_sorted num_ltb score_of k.2 (l.*2).
Proof.
  intros Hk. induction 1 as [|y l Hy Hl IH]; [done|].
  intros [[_ Hd] Hrest]%Forall_cons. simpl.
  unfold tuple_ltb at 1. unfold well_keyed in Hk, Hy. rewrite Hk, Hy, Hd.
  destruct (num_ltb (score_of y.2) (score_of k.2)); [|done].
  simpl. f_equal. by apply IH.
Qed.

Lemma sort_asc_keyed (l : list ((num * num) * ranked)) :
  Forall well_keyed l → no_ties (l.*2) →
  (sort_asc tuple_ltb fst l).*2 = sort_asc num_ltb score_of (l.*2).
Proof.
  induction 1 as [|k l Hk Hl IH]; [done|].
  intros [Hd Hties]. rewrite fmap_cons.
  change (sort_asc tuple_ltb fst (k :: l))
    with (insert_sorted tuple_ltb fst k (sort_asc tuple_ltb fst l)).
  change (sort_asc num_ltb score_of (k.2 :: l.*2))
    with (insert_sorted num_ltb score_of k.2 (sort_asc num_ltb score_of (l.*2))).
  rewrite <-IH by done.
  apply insert_sorted_keyed; [done|by rewrite sort_asc_perm|].
  rewrite sort_asc_perm. by rewrite Forall_fmap in Hd.
Qed.

Lemma py_sort_desc_keyed (l : list ((num * num) * ranked)) :
  Forall well_keyed l → no_ties (l.*2) →
  (py_sort_desc tuple_ltb fst l).*2 = py_sort_desc num_ltb score_of (l.*2).
Proof.
  intros Hl Hties. unfold py_sort_desc.
  rewrite fmap_reverse, sort_asc_keyed, fmap_reverse; [done| |].
  - by rewrite Forall_forall in *; setoid_rewrite elem_of_reverse.
  - rewrite fmap_reverse. by apply no_ties_reverse.
Qed.

Lemma mapM_tie_break_key_keyed (scores : list ranked) (w w' : world N R) keyed :
  mapM tie_break_key scores w = (Ok keyed, w') →
  keyed.*2 = scores ∧ Forall well_keyed keyed.
Proof.
  revert w keyed. induction scores as [|x l IH]; intros w keyed.
  - by intros [= <- _].
  - rewrite mapM_cons_run. unfold tie_break_key at 1.
    rewrite bind_run. unfold random_draw at 1.
    destruct (random_random (generator w)) as [y g1]. simpl.
    destruct (mapM tie_break_key l _) as [[k|e] w2] eqn:E; [|done].
    intros [= <- <-]. destruct (IH _ _ E) as [<- Hk].
    split; [done|]. by constructor.
Qed.

Lemma tie_break_sort_no_ties (scores : list ranked) (w : world N R) :
  no_ties scores →
  (tie_break_sort scores w).1 = Ok (py_sort_desc num_ltb score_of scores).
Proof.
  intros Hties. destruct (mapM_tie_break_key_run scores w) as (keyed & g & Hrun & _).
  destruct (mapM_tie_break_key_keyed _ _ _ _ Hrun) as [<- Hk].
  unfold tie_break_sort. rewrite bind_run, Hrun. simpl.
  by rewrite py_sort_desc_keyed.
Qed.

End GeneratorFacts.

(** C8 (amended).  The engine has no randomness parameter: the tie-break
    draws from the generator of the process.  Two calls with the same
    arguments that start from the same records and the same state of that
    generator return the same list and leave the generator in the same
    state.  The generator is used by the final sort of the vector-space
    path and nowhere else: whatever precedes that sort has one outcome for
    all generator states, and the sort itself has one result for all
    generator states when no two scores are equal. *)
Theorem tie_break_is_the_only_randomness
    {N : PyNum} {NL : Nltk} {SK : Sklearn N} {NP : Numpy N} {R : PyRandom N}
    student internships top_n :
  (∀ w1 w2 : world N R,
     store w1 = store w2 → generator w1 = generator w2 →
     recommendInternship student internships top_n w1
     = recommendInternship student internships top_n w2)
  ∧ (∀ st : ref → gmap string (value N),
       (∃ o, ∀ g, recommendInternship student internships top_n (World st g)
                  = (o, World st g))
       ∨ (∃ scores, ∀ g,
            recommendInternship student internships top_n (World st g)
            = (sorted ← tie_break_sort scores; mret (py_slice_to sorted top_n))
                (World st g)))
  ∧ (∀ scores (st : ref → gmap string (value N)) g1 g2,
       no_ties scores →
       (tie_break_sort scores (World st g1)).1
       = (tie_break_sort scores (World st g2)).1).
Proof.
  split; [|split].
  - intros [st1 g1] [st2 g2] ? ?; by simplify_eq/=.
  - apply tie_break_only_recommendInternship.
  - intros scores st g1 g2 H. by rewrite !tie_break_sort_no_ties.
Qed.

(** * What a call returns when it returns *)

Section LengthFacts.
Context {N : PyNum} {NL : Nltk} {SK : Sklearn N} {NP : Numpy N} {R : PyRandom N}.

Lemma bind_run_inv {A B} (m : M A) (f : A → M B) (w w' : world N R) b :
  (m ≫= f) w = (Ok b, w') →
  ∃ a w1, m w = (Ok a, w1) ∧ f a w1 = (Ok b, w').
Proof.
  rewrite bind_run. destruct (m w) as [[a|e] w1]; [|done].
  intros H. by exists a, w1.
Qed.

Lemma ret_run_inv {A} (a b : A) (w w' : world N R) :
  (mret a : M A) w = (Ok b, w') → a = b.
Proof. by intros [= <- _]. Qed.

Lemma py_slice_to_length {A} (l : list A) (k : Z) :
  (0 ≤ k)%Z → length (py_slice_to l k) = min (Z.to_nat k) (length l).
Proof. intros H. by rewrite py_slice_to_take, length_take. Qed.

Lemma enumerate_length {A} (l : list A) : length (enumerate l) = length l.
Proof. unfold enumerate. by rewrite length_zip_with, length_seq, Nat.min_id. Qed.

(** The empty list of candidates returns the empty list. *)
Lemma recommendInternship_nil student top_n (w : world N R) :
  recommendInternship student [] top_n w = (Ok [], w).
Proof. reflexivity. Qed.

(** Whenever a call returns a list, the list has [min top_n n] entries. *)
Lemma recommendInternship_length student internships top_n (w w' : world N R) out :
  (0 ≤ top_n)%Z →
  recommendInternship student internships top_n w = (Ok out, w') →
  length out = min (Z.to_nat top_n) (length internships).
Proof.
  intros Hn. unfold recommendInternship.
  destruct internships as [|r l] eqn:Hl.
  { intros Hret. apply ret_run_inv in Hret as <-. simpl. lia. }
  rewrite <-Hl. clear Hl r l.
  intros (q & w1 & _ & H)%bind_run_inv.
  apply bind_run_inv in H as (docs & w2 & _ & H).
  destruct (py_blank (preprocess q)).
  - unfold fallback_path in H.
    apply bind_run_inv in H as (scores & w3 & Hs%mapM_run_length & <-%ret_run_inv).
    by rewrite py_slice_to_length, py_sort_desc_length, Hs.
  - unfold vector_path in H.
    apply bind_run_inv in H as ([names rows] & w3 & _ & H).
    apply bind_run_inv in H as (qv & w4 & _ & H).
    apply bind_run_inv in H as (sts & w5 & _ & H).
    apply bind_run_inv in H as (ms & w6 & _ & H).
    apply bind_run_inv in H as (scores & w7 & Hs%mapM_run_length & H).
    apply bind_run_inv in H as (sorted & w8 & Hsort & <-%ret_run_inv).
    unfold tie_break_sort in Hsort.
    apply bind_run_inv in Hsort as (keyed & w9 & Hk%mapM_run_length & <-%ret_run_inv).
    rewrite py_slice_to_length, length_fmap, py_sort_desc_length by done.
    by rewrite Hk, Hs, enumerate_length.
Qed.

(** An error of the vectorizer is an error of the call. *)
Lemma vectorizer_error_escapes student internships top_n (w : world N R) q e :
  internships ≠ [] →
  query_raw_of student = Ok q →
  py_blank (preprocess q) = false →
  (∀ r, r ∈ internships → well_formed (store w r) = true) →
  tfidf_fit_transform
    (map (λ r, document_text (store w r)) internships ++ [preprocess q]) = Raise e →
  recommendInternship student internships top_n w = (Raise e, w).
Proof.
  intros Hne Hq Hblank Hwf Hfit. unfold recommendInternship.
  destruct internships as [|r l] eqn:Hl; [done|]. rewrite <-Hl in *. clear Hl r l Hne.
  rewrite bind_run. unfold lift at 1. rewrite Hq.
  rewrite bind_run.
  rewrite (mapM_run_ok document_of (λ r, document_text (store w r)))
    by (intros; by apply document_of_run, Hwf).
  rewrite Hblank. unfold vector_path.
  rewrite bind_run. unfold lift at 1. by rewrite Hfit.
Qed.

End LengthFacts.

(** * Normalising twice *)

(** C5 (amended).  Normalising a normalised text changes nothing when the
    lemmas of the text are stable: the tokenizer splits their join back
    into them, each passes the filter, and each is its own lemma. *)
Theorem preprocess_idempotent_on_stable_lemmas {NL : Nltk} (text : string) :
  let lemmas := map lemmatize (List.filter keep_token (word_tokenize (py_lower text))) in
  word_tokenize (py_lower (py_join " " lemmas)) = lemmas →
  Forall (λ t, keep_token t = true ∧ lemmatize t = t) lemmas →
  preprocess (preprocess text) = preprocess text.
Proof.
  intros lemmas Htok Hstable. unfold preprocess. fold lemmas. rewrite Htok.
  f_equal. clear Htok. clearbody lemmas.
  induction Hstable as [|t l [Hk Ht] _ IH]; [done|].
  simpl. rewrite Hk. simpl. by rewrite Ht, IH.
Qed.

(** * Runs on the reference instances *)

Module Examples.
Import Reference ReferenceFacts.

#[global] Instance stand_in_shape : SklearnShape sklearn_stand_in.
Proof.
  split; simpl.
  - intros corpus names rows. unfold sk_fit_transform.
    destruct (sk_vocabulary corpus); simpl; [|done].
    intros [= <- <-]. by rewrite length_map.
  - intros corpus names rows. unfold sk_fit_transform.
    destruct (sk_vocabulary corpus) as [a|]; simpl; [|done].
    intros [= <- <-]. apply Forall_forall.
    intros row (doc & -> & _)%list_elem_of_fmap. by rewrite length_map.
  - intros q rows. by rewrite length_map.
Qed.

#[global] Instance insertion_argsort_laws : NumpyArgsort numpy_insertion.
Proof.
  split; simpl; intros v; unfold insertion_argsort.
  - apply sort_asc_perm.
  - apply sort_asc_sorted;
      [apply (num_ltb_asym (N:=Q_num))|apply (num_ltb_negtrans (N:=Q_num))].
Qed.

#[global] Instance insertion_argsort_stable : NumpyStable numpy_insertion.
Proof.
  split. simpl. intros v. unfold insertion_argsort.
  apply (stable_of_tied_classes (N:=Q_num)). intros s.
  rewrite sort_asc_stable by apply (num_ltb_negtrans (N:=Q_num)).
  apply StronglySorted_filter, seq_ascending.
Qed.

Ltac each_record :=
  let r := fresh "r" in let Hr := fresh "Hr" in
  intros r Hr;
  repeat (apply elem_of_cons in Hr as [->|Hr]; [vm_compute; reflexivity|]);
  by apply elem_of_nil in Hr.

(** C3: two postings that share no term with each other or with the
    resume.  No list of two entries comes back: the error of the
    vectorizer ends the call. *)
Example no_list_without_shared_terms :
  (recommendInternship (resume "kubernetes") [0; 1] 2 two_postings).1
  = Raise (ValueError
      "After pruning, no terms remain. Try a lower min_df or a higher max_df.").
Proof. vm_compute. reflexivity. Qed.

(** C4: one posting and a resume that shares no term with it.  Every term
    occurs in one document only, the vocabulary is empty after the filter,
    and the call raises instead of scoring the posting with [sim = 0]. *)
Example degenerate_vocabulary_raises :
  (recommendInternship (resume "kubernetes docker") [0] 5 (one_posting design)).1
  = Raise (ValueError
      "After pruning, no terms remain. Try a lower min_df or a higher max_df.").
Proof. vm_compute. reflexivity. Qed.

(** C5: the lemma of "cans" is "can", which is a stopword: the second
    pass removes what the first pass produced. *)
Example preprocess_not_idempotent :
  preprocess "cans" = "can"
  ∧ preprocess (preprocess "cans") = ""
  ∧ preprocess (preprocess "cans") ≠ preprocess "cans".
Proof. vm_compute. repeat split. discriminate. Qed.

(** C6: four terms with equal products.  In vector order the first three
    would be listed; the reversed sort lists the last three, last first. *)
Example ties_not_in_vector_order :
  get_top_contributing_terms [0.5; 0.5; 0.5; 0.5]%Q [0.5; 0.5; 0.5; 0.5]%Q
    ["flask"; "python"; "python flask"; "sql"] 3
  = Ok ["sql"; "python flask"; "python"]
  ∧ get_top_contributing_terms [0.5; 0.5; 0.5; 0.5]%Q [0.5; 0.5; 0.5; 0.5]%Q
      ["flask"; "python"; "python flask"; "sql"] 3
    ≠ Ok ["flask"; "python"; "python flask"].
Proof. vm_compute. split; [reflexivity|discriminate]. Qed.

(** C7: a stipend that is present but is not a number is not replaced by
    zero: the call raises, where it returns for the stipend [0]. *)
Example non_numeric_signal_raises :
  (recommendInternship (resume "python flask developer") [0] 5 (one_posting unpaid)).1
  = Raise TypeError
  ∧ is_ok (recommendInternship (resume "python flask developer") [0] 5
             (one_posting (<["stipend" := VNum 0%Q]> backend))).1 = true.
Proof. vm_compute. split; reflexivity. Qed.

(** C8: the same call, twice in a row.  The arguments are the same; the
    generator of the process has advanced, and the two tied candidates
    come back in the other order. *)
Example same_arguments_different_order :
  let first := recommendInternship (resume "python developer") [0; 1] 2 two_twins in
  let second := recommendInternship (resume "python developer") [0; 1] 2 first.2 in
  records_of first.1 = [1; 0]
  ∧ records_of second.1 = [0; 1]
  ∧ first.1 ≠ second.1.
Proof. vm_compute. repeat split. discriminate. Qed.

(** Whenever no term occurs in two documents, the stand-in vectorizer
    raises, and so does the call: the degenerate vocabulary is never
    turned into a similarity of zero. *)
Lemma filter_none {A} (f : A → bool) (l : list A) :
  (∀ x, f x = false) → List.filter f l = [].
Proof. intros H. induction l as [|x l IH]; simpl; [done|]. by rewrite H. Qed.

Lemma sk_fit_transform_degenerate (corpus : list string) :
  (∀ t, (document_frequency t (map sk_terms corpus) < min_df)%nat) →
  ∃ msg, sk_fit_transform corpus = Raise (ValueError msg).
Proof.
  intros Hdf. unfold sk_fit_transform, sk_vocabulary.
  destruct (remove_dups (concat (map sk_terms corpus))) as [|t seen];
    [by eexists|].
  rewrite filter_none; [by eexists|].
  intros x. apply Nat.leb_gt, Hdf.
Qed.

Lemma degenerate_vocabulary_always_raises student internships top_n
    (w : world Q_num tape_random) q :
  internships ≠ [] →
  query_raw_of student = Ok q →
  py_blank (preprocess q) = false →
  (∀ r, r ∈ internships → well_formed (store w r) = true) →
  (∀ t, (document_frequency t
           (map sk_terms (map (λ r, document_text (store w r)) internships
                          ++ [preprocess q])) < min_df)%nat) →
  ∃ msg,
    recommendInternship student internships top_n w = (Raise (ValueError msg), w).
Proof.
  intros Hne Hq Hblank Hwf Hdf.
  destruct (sk_fit_transform_degenerate _ Hdf) as [msg Hfit].
  exists msg. by apply (vectorizer_error_escapes student internships top_n w q).
Qed.

(** ** The theorems at concrete inputs *)

Lemma blended_scores_witness :
  ∃ entries sorted w',
    recommendInternship (resume "python flask machine learning") [0; 1] 2 two_postings
      = (Ok (take 2 sorted), w')
    ∧ sorted ≡ₚ entries
    ∧ length entries = 2%nat.
Proof.
  destruct (blended_scores (resume "python flask machine learning") [0; 1] 2
              two_postings "python flask machine learning "
              ["flask"; "python"; "python flask"]
              [[1; 1; 1]; [0; 0; 0]; [1; 1; 1]]%Q)
    as (entries & sorted & w' & Hrun & Hperm & Hlen & _);
    [lia|vm_compute; reflexivity|vm_compute; reflexivity|each_record
    |vm_compute; reflexivity|].
  exists entries, sorted, w'. split; [exact Hrun|]. split; [exact Hperm|exact Hlen].
Defined.

Lemma fallback_ranking_witness :
  ∃ sorted,
    recommendInternship (resume "the and of") [0; 1] 2 two_postings
      = (Ok (take 2 sorted), two_postings)
    ∧ sorted ≡ₚ map (fallback_entry_of (store two_postings)) [0; 1].
Proof.
  destruct (fallback_ranking sklearn_stand_in sklearn_stand_in
              numpy_insertion numpy_insertion
              (resume "the and of") [0; 1] 2 two_postings "the and of ")
    as (sorted & Hrun & _ & Hperm & _);
    [lia|vm_compute; reflexivity|vm_compute; reflexivity|each_record|].
  exists sorted. split; [exact Hrun|exact Hperm].
Defined.

(** Two postings with equal fallback scores, a better one between them:
    the better one comes first and the two tied ones keep their order. *)
Lemma fallback_deterministic_stable_witness :
  ∃ sorted,
    (∀ g, recommendInternship (resume "the and of") [0; 1; 2] 3
            (World (store_of [twin; design; twin]) g)
          = (Ok (take 3 sorted), World (store_of [twin; design; twin]) g))
    ∧ map record_of sorted = [1; 0; 2]
    ∧ map record_of
        (filter (tied_with num_ltb score_of (0.78)%Q) sorted) = [0; 2].
Proof.
  destruct (fallback_deterministic_stable (resume "the and of") [0; 1; 2] 3
              (store_of [twin; design; twin]) "the and of ")
    as (sorted & Hrun & Hperm & _ & Hstable & _);
    [lia|vm_compute; reflexivity|vm_compute; reflexivity|each_record|].
  exists sorted. split; [exact Hrun|]. split.
  - assert (Hout : records_of
                     (recommendInternship (resume "the and of") [0; 1; 2] 3
                        (World (store_of [twin; design; twin]) [])).1 = [1; 0; 2])
      by (vm_compute; reflexivity).
    rewrite (Hrun []) in Hout. simpl in Hout.
    rewrite take_ge in Hout; [exact Hout|].
    apply Permutation_length in Hperm. rewrite Hperm. simpl. lia.
  - rewrite Hstable. vm_compute. reflexivity.
Defined.

Lemma preprocess_idempotent_witness :
  preprocess (preprocess "Python Developers") = preprocess "Python Developers".
Proof.
  apply (preprocess_idempotent_on_stable_lemmas "Python Developers").
  - vm_compute. reflexivity.
  - repeat constructor.
Defined.

(** Four equal products under the stable sort: the three terms of the
    highest indices, the highest first. *)
Lemma explanation_terms_witness :
  ∃ picked terms,
    get_top_contributing_terms [0.5; 0.5; 0.5; 0.5]%Q [0.5; 0.5; 0.5; 0.5]%Q
      ["flask"; "python"; "python flask"; "sql"] 3 = Ok terms
    ∧ terms = map (name_at ["flask"; "python"; "python flask"; "sql"]) picked
    ∧ picked = [3; 2; 1]
    ∧ StronglySorted
        (λ j k, tied_products
                  (zip_with num_mul [0.5; 0.5; 0.5; 0.5]%Q [0.5; 0.5; 0.5; 0.5]%Q) j k →
                (k < j)%nat) picked
    ∧ terms = ["sql"; "python flask"; "python"].
Proof.
  destruct (explanation_terms two_postings [1%Q] 1%Q
              [0.5; 0.5; 0.5; 0.5]%Q [[0.5; 0.5; 0.5; 0.5]%Q]
              ["flask"; "python"; "python flask"; "sql"] 0 0 1%Q
              [0.5; 0.5; 0.5; 0.5]%Q)
    as (picked & terms & score & rest & Hrun & Hterms & _ & _ & _ & _ & _
        & Hpicked & _ & Hstable & _);
    [vm_compute; reflexivity|reflexivity|reflexivity|reflexivity|reflexivity
    |reflexivity|].
  destruct (Hstable insertion_argsort_stable) as [Hsorted _].
  assert (Hlist : picked = [3; 2; 1]) by (rewrite Hpicked; vm_compute; reflexivity).
  exists picked, terms.
  split; [exact Hrun|]. split; [exact Hterms|]. split; [exact Hlist|].
  split; [exact Hsorted|].
  rewrite Hterms, Hlist. reflexivity.
Defined.

Lemma missing_signal_is_zero_witness :
  (recommendInternship (resume "python flask developer") [0] 5
     (one_posting no_stipend)).1
  = (recommendInternship (resume "python flask developer") [0] 5
       (World (store_set (store (one_posting no_stipend)) 0
                 (<["stipend" := VNum (lit 0)]> no_stipend)) [])).1.
Proof.
  apply (missing_signal_is_zero (resume "python flask developer") [0] 5
           (one_posting no_stipend) 0 "stipend").
  - unfold signal_keys. repeat constructor.
  - vm_compute. reflexivity.
Defined.

End Examples.

(** * What every call returns *)

Section ReturnFacts.
Context {N : PyNum} {NL : Nltk} {SK : Sklearn N} {NP : Numpy N} {R : PyRandom N}.

Ltac free_step :=
  first
    [ apply generator_free_ret
    | apply generator_free_lift
    | apply generator_free_get
    | apply generator_free_index
    | apply generator_free_mapM; intros ?
    | apply generator_free_bind; [|intros ?] ].

Lemma generator_free_run {A} (m : M A) (w w' : world N R) o :
  generator_free m → m w = (o, w') → w' = w.
Proof.
  intros Hm. destruct w as [st g]. destruct (Hm st) as [o' Ho'].
  rewrite Ho'. by intros [= _ <-].
Qed.

Lemma mapM_run_inv {A B} (f : A → M B) (P : A → B → Prop) l (w w' : world N R) ys :
  (∀ x w1 y w2, f x w1 = (Ok y, w2) → P x y) →
  mapM f l w = (Ok ys, w') → Forall2 P l ys.
Proof.
  intros Hf. revert w ys. induction l as [|x l IH]; intros w ys.
  - intros [= <- _]. constructor.
  - rewrite mapM_cons_run. destruct (f x w) as [[y|e] w1] eqn:Hx; [|done].
    destruct (mapM f l w1) as [[k|e] w2] eqn:E; [|done].
    intros [= <- <-]. constructor; [by eapply Hf|by eapply IH].
Qed.

Lemma fallback_entry_record r (w : world N R) e (w' : world N R) :
  fallback_entry r w = (Ok e, w') → record_of e = r.
Proof.
  unfold fallback_entry. intros H.
  repeat (apply bind_run_inv in H as (? & ? & _ & H)).
  by apply ret_run_inv in H as <-.
Qed.

Lemma scored_entry_record sims m q dvs names ix (w w' : world N R) e :
  scored_entry sims m q dvs names ix w = (Ok e, w') → record_of e = ix.2.
Proof.
  destruct ix as [i r]. unfold scored_entry. intros H.
  repeat (apply bind_run_inv in H as (? & ? & _ & H)).
  by apply ret_run_inv in H as <-.
Qed.

Lemma enumerate_snd {B} (l : list B) : (enumerate l).*2 = l.
Proof. unfold enumerate. apply snd_zip. by rewrite length_seq. Qed.

Lemma Forall2_record {B} (f : B → ref) (l : list B) (scores : list ranked) :
  Forall2 (λ x e, record_of e = f x) l scores → map record_of scores = map f l.
Proof. induction 1 as [|x e l k H _ IH]; [done|]. simpl. by rewrite H, IH. Qed.

Lemma draws_succ (n : nat) (g : rng_state) :
  draws (R:=R) (S n) g = draws n ((random_random g).2).
Proof. unfold draws. by rewrite Nat.iter_succ_r. Qed.

Lemma keys_of_cons (x : ranked) l (g : rng_state) :
  keys_of (x :: l) g
  = ((x.1.1, (random_random g).1), x) :: keys_of l ((random_random g).2).
Proof. unfold keys_of. simpl. by destruct (random_random g). Qed.

Lemma keys_of_snd (scores : list ranked) (g : rng_state) :
  (keys_of scores g).*2 = scores.
Proof.
  revert g. induction scores as [|x l IH]; intros g; [done|].
  by rewrite keys_of_cons, fmap_cons, IH.
Qed.

Lemma keys_of_well_keyed (scores : list ranked) (g : rng_state) :
  Forall well_keyed (keys_of scores g).
Proof.
  revert g. induction scores as [|x l IH]; intros g; [constructor|].
  rewrite keys_of_cons. by constructor.
Qed.

(** The final sort draws once for each entry, in the order of the
    entries. *)
Lemma mapM_tie_break_key_keys (scores : list ranked) (w : world N R) :
  mapM tie_break_key scores w
  = (Ok (keys_of scores (generator w)),
     World (store w) (draws (length scores) (generator w))).
Proof.
  revert w. induction scores as [|x l IH]; intros w.
  - by destruct w.
  - rewrite mapM_cons_run. unfold tie_break_key at 1.
    rewrite bind_run. unfold random_draw at 1.
    change (length (x :: l)) with (S (length l)).
    rewrite draws_succ, keys_of_cons.
    destruct (random_random (generator w)) as [y g1]. simpl.
    by rewrite IH.
Qed.

Lemma py_slice_to_length_any {B} (l : list B) (k : Z) :
  length (py_slice_to l k)
  = if (0 <=? k)%Z then min (Z.to_nat k) (length l)
    else length l - Z.to_nat (- k).
Proof.
  unfold py_slice_to. destruct (0 <=? k)%Z; rewrite length_take; lia.
Qed.

Lemma py_slice_to_fmap {B C} (f : B → C) (l : list B) (k : Z) :
  f <$> py_slice_to l k = py_slice_to (f <$> l) k.
Proof.
  unfold py_slice_to. rewrite length_fmap. by destruct (0 <=? k)%Z; rewrite fmap_take.
Qed.

(** The query is read before any record is. *)
Lemma recommendInternship_run student internships top_n (w : world N R) q :
  internships ≠ [] →
  query_raw_of student = Ok q →
  recommendInternship student internships top_n w
  = (docs ← mapM document_of internships;
     if py_blank (preprocess q)
     then fallback_path internships top_n
     else vector_path (preprocess q) docs internships top_n) w.
Proof.
  intros Hne Hq. unfold recommendInternship.
  destruct internships as [|r l] eqn:Hl; [done|].
  rewrite (bind_run (lift _)). unfold lift at 1. by rewrite Hq.
Qed.

(** The shape of every call that returns. *)
Lemma recommendInternship_inv student internships top_n (w w' : world N R) out :
  recommendInternship student internships top_n w = (Ok out, w') →
  (internships = [] ∧ out = [] ∧ w' = w)
  ∨ ∃ q, query_raw_of student = Ok q ∧ internships ≠ [] ∧
      ((py_blank (preprocess q) = true ∧ w' = w ∧
        ∃ scores, map record_of scores = internships ∧
          out = py_slice_to (py_sort_desc num_ltb score_of scores) top_n)
       ∨ (py_blank (preprocess q) = false ∧ store w' = store w ∧
          generator w' = draws (length internships) (generator w) ∧
          ∃ scores, map record_of scores = internships ∧
            out = py_slice_to
                    (py_sort_desc tuple_ltb fst (keys_of scores (generator w))).*2
                    top_n)).
Proof.
  unfold recommendInternship.
  destruct internships as [|r l] eqn:Hl.
  { intros [= <- <-]. by left. }
  rewrite <-Hl. assert (Hne : internships ≠ []) by (by rewrite Hl).
  clear Hl r l. intros H. right.
  apply bind_run_inv in H as (q & w1 & Hq & H).
  unfold lift in Hq. injection Hq as Hq <-.
  exists q. split; [done|]. split; [done|].
  apply bind_run_inv in H as (docs & w2 & Hdocs & H).
  apply generator_free_run in Hdocs as ->;
    [|apply generator_free_mapM, generator_free_document_of].
  destruct (py_blank (preprocess q)); [left|right]; (split; [done|]).
  - unfold fallback_path in H.
    apply bind_run_inv in H as (scores & w3 & Hs & H).
    pose proof Hs as ->%generator_free_run;
      [|apply generator_free_mapM; intros; unfold fallback_entry;
        repeat free_step].
    injection H as <- <-. split; [done|]. exists scores. split; [|done].
    apply (mapM_run_inv _ (λ x e, record_of e = id x)) in Hs;
      [|exact fallback_entry_record].
    by rewrite (Forall2_record _ _ _ Hs), map_id.
  - unfold vector_path in H.
    apply bind_run_inv in H as ([names rows] & w3 & [= _ <-] & H).
    apply bind_run_inv in H as (qv & w4 & [= _ <-] & H).
    apply bind_run_inv in H as (sts & w5 & Hsts & H).
    apply generator_free_run in Hsts as ->; [|repeat free_step].
    apply bind_run_inv in H as (ms & w6 & [= _ <-] & H).
    apply bind_run_inv in H as (scores & w7 & Hs & H).
    pose proof Hs as ->%generator_free_run;
      [|apply generator_free_mapM; intros; apply generator_free_scored_entry].
    apply bind_run_inv in H as (sorted & w8 & Hsort & [= <- <-]).
    unfold tie_break_sort in Hsort.
    apply bind_run_inv in Hsort as (keyed & w9 & Hk & [= <- <-]).
    rewrite mapM_tie_break_key_keys in Hk. injection Hk as <- <-.
    apply (mapM_run_inv _ (λ x e, record_of e = snd x)) in Hs as Hrec;
      [|intros; by eapply scored_entry_record].
    apply Forall2_record in Hrec. apply mapM_run_length in Hs.
    rewrite enumerate_length in Hs. simpl.
    split; [done|]. split; [by rewrite Hs|].
    exists scores. split; [|done].
    rewrite Hrec. apply enumerate_snd.
Qed.

End ReturnFacts.

Section ReturnTheorems.
Context {N : PyNum} {NL : Nltk} {SK : Sklearn N} {NP : Numpy N} {R : PyRandom N}.

(** X1.  The list a call returns is cut by the slice [scores[:top_n]],
    whatever the sign of [top_n]: [min top_n n] entries for [top_n ≥ 0]
    (none for [top_n = 0]), and for a negative [top_n] all but the last
    [-top_n] of the [n] ranked candidates. *)
Theorem returned_length_any_top_n student internships top_n (w w' : world N R) out :
  recommendInternship student internships top_n w = (Ok out, w') →
  length out
  = if (0 <=? top_n)%Z then min (Z.to_nat top_n) (length internships)
    else length internships - Z.to_nat (- top_n).
Proof.
  intros [(-> & -> & _)|(q & _ & _ & [(_ & _ & scores & <- & ->)
                                      |(_ & _ & _ & scores & <- & ->)])]
    %recommendInternship_inv.
  - simpl. destruct (0 <=? top_n)%Z; lia.
  - by rewrite py_slice_to_length_any, py_sort_desc_length, length_map.
  - rewrite py_slice_to_length_any, length_fmap, py_sort_desc_length.
    by rewrite <-(length_fmap snd (keys_of _ _)), keys_of_snd, length_map.
Qed.

(** X2.  The records of a returned list are the candidates themselves:
    the first [top_n] of a rearrangement of the candidate list, each
    candidate as often as it was passed, none invented. *)
Theorem returned_records_are_candidates student internships top_n
    (w w' : world N R) out :
  recommendInternship student internships top_n w = (Ok out, w') →
  ∃ ranking, ranking ≡ₚ internships
    ∧ map record_of out = py_slice_to ranking top_n.
Proof.
  intros [(-> & -> & _)|(q & _ & _ & [(_ & _ & scores & <- & ->)
                                      |(_ & _ & _ & scores & <- & ->)])]
    %recommendInternship_inv.
  - exists []. split; [done|]. unfold py_slice_to.
    by destruct (0 <=? top_n)%Z; rewrite take_nil.
  - exists (map record_of (py_sort_desc num_ltb score_of scores)).
    split; [by rewrite py_sort_desc_perm|]. apply py_slice_to_fmap.
  - exists (map record_of (py_sort_desc tuple_ltb fst (keys_of scores (generator w))).*2).
    split; [by rewrite py_sort_desc_perm, keys_of_snd|]. apply py_slice_to_fmap.
Qed.

(** X4.  What a call does to the generator of the process.  A call that
    raises, a call on the empty list and a call that takes the fallback
    path leave it as it was; a call that returns from the vector-space
    path has drawn exactly one number for each candidate. *)
Theorem generator_after_call student internships top_n (w w' : world N R) o :
  recommendInternship student internships top_n w = (o, w') →
  generator w'
  = if is_ok o && takes_vector_path student internships
    then draws (length internships) (generator w)
    else generator w.
Proof.
  destruct o as [out|e]; simpl.
  - intros [(-> & -> & ->)|(q & Hq & Hne & [(Hb & -> & _)|(Hb & _ & Hg & _)])]
      %recommendInternship_inv; unfold takes_vector_path.
    + done.
    + destruct internships; [done|]. by rewrite Hq, Hb.
    + destruct internships; [done|]. by rewrite Hq, Hb.
  - intros H. destruct w as [st g].
    destruct (tie_break_only_recommendInternship student internships top_n st)
      as [[o Ho]|[scores Hs]].
    + rewrite Ho in H. by injection H as _ <-.
    + rewrite Hs, bind_run in H.
      destruct (tie_break_sort_run scores (World st g)) as (sorted & g' & Hrun & _).
      by rewrite Hrun in H.
Qed.

End ReturnTheorems.

(** * The order of a returned list *)

Section OrderFacts.
Context {K E : Type} (lt : K → K → bool) (key : E → K).
Variable before : relation E.
Hypothesis before_no : ∀ x y, lt (key y) (key x) = false → before x y.
Hypothesis before_yes : ∀ x y, lt (key y) (key x) = true → before y x.
Hypothesis before_trans : ∀ x y z, before x y → before y z → before x z.

(** The sort orders by any transitive relation that [<] on the keys
    decides, also where [<] itself is not a strict weak order. *)
Lemma insert_sorted_before x l :
  StronglySorted before l → StronglySorted before (insert_sorted lt key x l).
Proof.
  induction 1 as [|y l Hl IH Hy]; simpl.
  - repeat constructor.
  - destruct (lt (key y) (key x)) eqn:Hlt.
    + constructor; [done|].
      rewrite insert_sorted_perm. constructor; [by apply before_yes|done].
    + apply before_no in Hlt.
      constructor; [by constructor|]. constructor; [done|].
      eapply Forall_impl; [exact Hy|]. intros z Hz. by eapply before_trans.
Qed.

Lemma sort_asc_before l : StronglySorted before (sort_asc lt key l).
Proof. induction l; simpl; [constructor|by apply insert_sorted_before]. Qed.

Lemma py_sort_desc_before l :
  StronglySorted (flip before) (py_sort_desc lt key l).
Proof. unfold py_sort_desc. apply StronglySorted_reverse, sort_asc_before. Qed.

End OrderFacts.

Section ScoreOrder.
Context {N : PyNum} {NL : Nltk} {SK : Sklearn N} {NP : Numpy N} {R : PyRandom N}.
Context {L : PyNumLaws N} {T : PyNumTies N}.

Lemma StronglySorted_fmap {A B} (f : A → B) (Rel : relation B) (l : list A) :
  StronglySorted (λ x y, Rel (f x) (f y)) l → StronglySorted Rel (f <$> l).
Proof.
  induction 1 as [|x l Hl IH Hx]; [constructor|].
  rewrite fmap_cons. constructor; [done|]. by apply Forall_fmap.
Qed.

Lemma StronglySorted_impl_on {A} (P : A → Prop) (R1 R2 : relation A) (l : list A) :
  (∀ x y, P x → P y → R1 x y → R2 x y) →
  Forall P l → StronglySorted R1 l → StronglySorted R2 l.
Proof.
  intros Himpl HP Hs. induction Hs as [|x l Hl IH Hx]; [constructor|].
  apply Forall_cons in HP as [Px Pl]. constructor; [by apply IH|].
  rewrite Forall_forall in *. intros y Hy. apply Himpl; auto.
Qed.

(** The random component of the key never puts a lower score first. *)
Lemma tie_break_sorted (keyed : list ((num * num) * ranked)) :
  Forall well_keyed keyed →
  StronglySorted (descending num_ltb score_of) (py_sort_desc tuple_ltb fst keyed).*2.
Proof.
  intros Hk. apply StronglySorted_fmap.
  apply (StronglySorted_impl_on well_keyed
           (flip (λ x y : (num * num) * ranked, num_ltb y.1.1 x.1.1 = false))).
  - unfold descending, flip, well_keyed. by intros x y <- <-.
  - by rewrite py_sort_desc_perm.
  - apply py_sort_desc_before.
    + intros x y. unfold tuple_ltb.
      destruct (num_eqb y.1.1 x.1.1) eqn:E; [|done].
      intros _. by apply num_eqb_tied in E as [? ?].
    + intros x y. unfold tuple_ltb.
      destruct (num_eqb y.1.1 x.1.1) eqn:E.
      * intros _. by apply num_eqb_tied in E as [? ?].
      * apply num_ltb_asym.
    + intros x y z Hxy Hyz. by eapply num_ltb_negtrans.
Qed.

(** X3.  Every returned list is in non-increasing order of score, on the
    fallback path and on the vector-space path alike: no entry is
    followed, at any distance, by an entry with a strictly greater
    score. *)
Theorem returned_scores_descend student internships top_n (w w' : world N R) out :
  recommendInternship student internships top_n w = (Ok out, w') →
  StronglySorted (λ x y, num_ltb (score_of x) (score_of y) = false) out.
Proof.
  intros [(-> & -> & _)|(q & _ & _ & [(_ & _ & scores & _ & ->)
                                      |(_ & _ & _ & scores' & _ & ->)])]
    %recommendInternship_inv.
  - constructor.
  - unfold py_slice_to.
    destruct (0 <=? top_n)%Z; apply StronglySorted_take;
      (apply (py_sort_desc_sorted num_ltb score_of);
        [apply num_ltb_asym|apply num_ltb_negtrans]).
  - unfold py_slice_to.
    destruct (0 <=? top_n)%Z; apply StronglySorted_take;
      apply tie_break_sorted, keys_of_well_keyed.
Qed.

End ScoreOrder.

(** * The ranking does not depend on how many results are asked for *)

Section SliceFacts.
Context {N : PyNum} {NL : Nltk} {SK : Sklearn N} {NP : Numpy N} {R : PyRandom N}.

Lemma sliced_bind {A} top_n (m : M A) (f g : A → M (list ranked)) (w : world N R) :
  (∀ a w1, f a w1 = (l ← g a; mret (py_slice_to l top_n)) w1) →
  (m ≫= f) w = (l ← m ≫= g; mret (py_slice_to l top_n)) w.
Proof.
  intros Hfg. rewrite !bind_run. destruct (m w) as [[a|e] w1]; [|done].
  by rewrite Hfg, bind_run.
Qed.

(** [top_n] is used by the final slice and by nothing before it. *)
Lemma recommendInternship_sliced student internships :
  ∃ ranking : M (list ranked), ∀ top_n (w : world N R),
    recommendInternship student internships top_n w
    = (l ← ranking; mret (py_slice_to l top_n)) w.
Proof.
  destruct internships as [|r0 rest].
  { exists (mret []). intros top_n w. rewrite bind_run.
    unfold recommendInternship, mret, M_ret, py_slice_to.
    by destruct (0 <=? top_n)%Z; rewrite take_nil. }
  pose (internships := r0 :: rest).
  exists (query_raw ← lift (query_raw_of student);
          docs ← mapM document_of internships;
          if py_blank (preprocess query_raw)
          then scores ← mapM fallback_entry internships;
               mret (py_sort_desc num_ltb (λ x : ranked, x.1.1) scores)
          else '(feature_names, tfidf_matrix) ←
                 lift (tfidf_fit_transform (docs ++ [preprocess query_raw]));
               query_vec ← lift (last_row tfidf_matrix);
               all_stipends ← mapM (λ intern, dict_get intern "stipend" (VNum (lit 0)))
                                   internships;
               max_stipend ← lift (max_stipend_of all_stipends);
               scores ← mapM (scored_entry
                                (cosine_similarity query_vec (removelast tfidf_matrix))
                                max_stipend query_vec (removelast tfidf_matrix)
                                feature_names)
                             (enumerate internships);
               tie_break_sort scores).
  intros top_n w. unfold recommendInternship, internships.
  apply sliced_bind. intros q w1. apply sliced_bind. intros docs w2.
  destruct (py_blank (preprocess q)).
  - unfold fallback_path. apply sliced_bind. by intros scores w3.
  - unfold vector_path. apply sliced_bind. intros [names rows] w3.
    apply sliced_bind. intros qv w4. apply sliced_bind. intros sts w5.
    apply sliced_bind. intros ms w6. apply sliced_bind. by intros scores w7.
Qed.

(** X5.  Asking for fewer results gives a prefix of what asking for more
    gives: from the same records and the same state of the generator, the
    call with [k ≤ k'] returns the first [k] entries of the list the call
    with [k'] returns, and leaves the generator in the same state. *)
Theorem fewer_results_are_a_prefix student internships (k k' : Z)
    (w w' : world N R) out' :
  (0 ≤ k ≤ k')%Z →
  recommendInternship student internships k' w = (Ok out', w') →
  recommendInternship student internships k w = (Ok (take (Z.to_nat k) out'), w').
Proof.
  intros Hk. destruct (recommendInternship_sliced student internships) as [ranking H].
  rewrite !H, !bind_run. destruct (ranking w) as [[l|e] w1]; [|done].
  intros [= <- <-]. unfold mret, M_ret. f_equal. f_equal.
  rewrite !py_slice_to_take by lia. rewrite take_take. f_equal. lia.
Qed.

End SliceFacts.

(** * The order of the pairs of score and draw *)

Section TupleOrder.
Context {N : PyNum} {L : PyNumLaws N} {O : PyNumOrder N}.

Lemma num_eqb_not_ltb (a b : num) : num_eqb a b = true → num_ltb a b = false.
Proof. intros H. by rewrite (num_ltb_eqb_l a b b H), num_ltb_irrefl. Qed.

Lemma num_ltb_flip (a b : num) :
  num_ltb a b = false → num_eqb a b = false → num_ltb b a = true.
Proof.
  intros Hab Hne. destruct (num_ltb b a) eqn:Hba; [done|].
  by rewrite (num_ltb_total a b Hab Hba) in Hne.
Qed.

Lemma tuple_ltb_second (x y : num * num) :
  (if num_eqb x.2 y.2 then false else num_ltb x.2 y.2) = num_ltb x.2 y.2.
Proof. destruct (num_eqb x.2 y.2) eqn:E; [|done]. by rewrite num_eqb_not_ltb. Qed.

Lemma tuple_ltb_asym (x y : num * num) :
  tuple_ltb x y = true → tuple_ltb y x = false.
Proof.
  unfold tuple_ltb. rewrite !tuple_ltb_second, (num_eqb_sym y.1 x.1).
  destruct (num_eqb x.1 y.1); apply num_ltb_asym.
Qed.

Lemma tuple_ltb_negtrans (x y z : num * num) :
  tuple_ltb x y = false → tuple_ltb y z = false → tuple_ltb x z = false.
Proof.
  unfold tuple_ltb. rewrite !tuple_ltb_second.
  destruct (num_eqb x.1 y.1) eqn:Exy, (num_eqb y.1 z.1) eqn:Eyz.
  - rewrite (num_eqb_trans _ _ _ Exy Eyz). apply num_ltb_negtrans.
  - intros _ Hyz. rewrite (num_ltb_eqb_l _ _ z.1 Exy), Hyz.
    destruct (num_eqb x.1 z.1) eqn:Exz; [|done].
    rewrite num_eqb_sym in Exy.
    by rewrite (num_eqb_trans _ _ _ Exy Exz) in Eyz.
  - intros Hxy _. rewrite <-(num_ltb_eqb_r _ _ x.1 Eyz), Hxy.
    destruct (num_eqb x.1 z.1) eqn:Exz; [|done].
    rewrite num_eqb_sym in Eyz.
    by rewrite (num_eqb_trans _ _ _ Exz Eyz) in Exy.
  - intros Hxy Hyz. rewrite (num_ltb_negtrans _ _ _ Hxy Hyz).
    destruct (num_eqb x.1 z.1) eqn:Exz; [|done]. exfalso.
    pose proof (num_ltb_flip _ _ Hxy Exy) as Hyx.
    pose proof (num_ltb_flip _ _ Hyz Eyz) as Hzy.
    pose proof (num_ltb_trans _ _ _ Hzy Hyx) as Hzx.
    by rewrite (num_ltb_eqb_r _ _ z.1 Exz), num_ltb_irrefl in Hzx.
Qed.

End TupleOrder.

(** X17.  How the vector-space path breaks ties.  The [i]-th candidate
    is paired with the [i]-th number drawn from the generator, starting
    from its state at the call, and the returned list is the head of the
    stable descending sort of the pairs of score and draw: of two entries
    with equal scores the one with the larger draw comes first, and
    entries equal in score and draw keep the order of the candidates. *)
Theorem ties_are_ordered_by_the_draws
    {N : PyNum} {NL : Nltk} {SK : Sklearn N} {NP : Numpy N} {R : PyRandom N}
    {L : PyNumLaws N} {O : PyNumOrder N}
    student internships top_n (w w' : world N R) out :
  recommendInternship student internships top_n w = (Ok out, w') →
  takes_vector_path student internships = true →
  ∃ scores,
    map record_of scores = internships
    ∧ out = py_slice_to
              (py_sort_desc tuple_ltb fst (keys_of scores (generator w))).*2 top_n
    ∧ StronglySorted (descending tuple_ltb fst)
        (py_sort_desc tuple_ltb fst (keys_of scores (generator w)))
    ∧ ∀ k, filter (tied_with tuple_ltb fst k)
             (py_sort_desc tuple_ltb fst (keys_of scores (generator w)))
           = filter (tied_with tuple_ltb fst k) (keys_of scores (generator w)).
Proof.
  unfold takes_vector_path.
  intros [(-> & _ & _)|(q & Hq & Hne & [(Hb & _)|(_ & _ & _ & scores & Hrec & ->)])]
    %recommendInternship_inv; [done| |].
  - destruct internships; [done|]. by rewrite Hq, Hb.
  - intros _. exists scores. split; [done|]. split; [done|]. split.
    + apply py_sort_desc_sorted; [apply tuple_ltb_asym|apply tuple_ltb_negtrans].
    + intros k. apply py_sort_desc_stable. apply tuple_ltb_negtrans.
Qed.

(** * Records the engine cannot score *)

Section ErrorFacts.
Context {N : PyNum} {NL : Nltk} {SK : Sklearn N} {NP : Numpy N} {R : PyRandom N}.

Lemma mapM_run_raise {A B} (f : A → M B) (g : A → B) pre x post (w : world N R) e :
  (∀ y, y ∈ pre → f y w = (Ok (g y), w)) →
  f x w = (Raise e, w) →
  mapM f (pre ++ x :: post) w = (Raise e, w).
Proof.
  intros Hpre Hx. induction pre as [|y pre IH].
  - change ([] ++ x :: post)%list with (x :: post). by rewrite mapM_cons_run, Hx.
  - change ((y :: pre) ++ x :: post)%list with (y :: (pre ++ x :: post))%list.
    rewrite mapM_cons_run, Hpre by left. rewrite IH; [done|].
    intros z Hz. apply Hpre. by right.
Qed.

Lemma first_failure {A} (p : A → bool) (l : list A) :
  (∃ x, x ∈ l ∧ p x = false) →
  ∃ pre x post,
    l = (pre ++ x :: post)%list ∧ Forall (λ y, p y = true) pre ∧ p x = false.
Proof.
  induction l as [|y l IH]; intros (x & Hx & Hp).
  - by apply elem_of_nil in Hx.
  - destruct (p y) eqn:Hy.
    + apply elem_of_cons in Hx as [->|Hx]; [congruence|].
      destruct IH as (pre & x' & post & -> & Hpre & Hx'); [by exists x|].
      exists (y :: pre), x', post. split; [done|]. split; [by constructor|done].
    + exists [], y, l. split; [done|]. split; [constructor|done].
Qed.

Lemma has_key_false (d : gmap string (value N)) key :
  has_key d key = false → d !! key = None.
Proof. unfold has_key. by destruct (d !! key). Qed.

Lemma dict_index_missing (w : world N R) r key :
  has_key (store w r) key = false →
  dict_index r key w = (Raise (KeyError key), w).
Proof. intros H%has_key_false. unfold dict_index. by rewrite H. Qed.

Lemma document_of_text (w : world N R) r :
  first_missing_text (store w r) = None →
  document_of r w = (Ok (document_text (store w r)), w).
Proof.
  unfold first_missing_text.
  destruct (has_key (store w r) "title") eqn:Ht; [|done].
  destruct (has_key (store w r) "description") eqn:Hd; [|done].
  destruct (has_key (store w r) "required_skills") eqn:Hs; [|done].
  intros _. unfold document_of.
  rewrite bind_run, (dict_index_run _ _ _ Ht).
  rewrite bind_run, (dict_index_run _ _ _ Hd).
  by rewrite bind_run, (dict_index_run _ _ _ Hs).
Qed.

Lemma document_of_missing (w : world N R) r key :
  first_missing_text (store w r) = Some key →
  document_of r w = (Raise (KeyError key), w).
Proof.
  unfold first_missing_text, document_of.
  destruct (has_key (store w r) "title") eqn:Ht; simpl; cycle 1.
  { intros [= <-]. by rewrite bind_run, (dict_index_missing _ _ _ Ht). }
  rewrite bind_run, (dict_index_run _ _ _ Ht).
  destruct (has_key (store w r) "description") eqn:Hd; simpl; cycle 1.
  { intros [= <-]. by rewrite bind_run, (dict_index_missing _ _ _ Hd). }
  rewrite bind_run, (dict_index_run _ _ _ Hd).
  destruct (has_key (store w r) "required_skills") eqn:Hs; simpl; [done|].
  intros [= <-]. by rewrite bind_run, (dict_index_missing _ _ _ Hs).
Qed.

Lemma documents_run internships (w : world N R) :
  (∀ r, r ∈ internships → first_missing_text (store w r) = None) →
  mapM document_of internships w
  = (Ok (map (λ r, document_text (store w r)) internships), w).
Proof. intros H. apply mapM_run_ok. intros r Hr. by apply document_of_text, H. Qed.

Lemma well_formed_split (d : gmap string (value N)) :
  first_missing_text d = None → numeric_for_vector d = true → well_formed d = true.
Proof.
  unfold first_missing_text, numeric_for_vector, numeric_for_fallback, well_formed.
  destruct (has_key d "title"); [|done].
  destruct (has_key d "description"); [|done].
  destruct (has_key d "required_skills"); [|done].
  intros _. simpl. rewrite !andb_true_iff. intros [[[-> ->] ->] ->]. done.
Qed.

Lemma max_from_raises (m : value N) l e : max_from m l = Raise e → e = TypeError.
Proof.
  revert m. induction l as [|x l IH]; intros m; [done|]. simpl.
  destruct (py_gt x m) as [b|e'] eqn:E; simpl; [apply IH|].
  intros [= <-]. destruct x, m; simpl in E; congruence.
Qed.

Lemma max_from_numeric (m : value N) l m' :
  max_from m l = Ok m' → is_num m = true → Forall (λ v, is_num v = true) l.
Proof.
  revert m. induction l as [|x l IH]; intros m; [constructor|]. simpl.
  destruct m as [|y|s]; [done| |done]. intros H _.
  destruct x as [|x|s]; [done| |done]. simpl in H.
  constructor; [done|]. apply (IH _ H). by destruct (num_ltb y x).
Qed.

Lemma stipends_read (w : world N R) internships :
  mapM (λ intern, dict_get intern "stipend" (VNum (lit 0))) internships w
  = (Ok (map (λ r, signal (store w r) "stipend") internships), w).
Proof. by apply mapM_run_ok. Qed.

(** X6.  The three text fields are indexed, not read with a default: the
    first candidate that lacks one ends the call with [KeyError] for the
    first field it lacks, whatever the query is and whichever path the
    call would have taken. *)
Theorem missing_text_field_raises student pre r post top_n (w : world N R) q key :
  query_raw_of student = Ok q →
  Forall (λ r', first_missing_text (store w r') = None) pre →
  first_missing_text (store w r) = Some key →
  recommendInternship student (pre ++ r :: post) top_n w = (Raise (KeyError key), w).
Proof.
  intros Hq Hpre Hr.
  rewrite (recommendInternship_run _ _ _ _ q) by (by destruct pre).
  rewrite bind_run.
  rewrite (mapM_run_raise document_of (λ r, document_text (store w r))
             pre r post w (KeyError key)); [done| |by apply document_of_missing].
  rewrite Forall_forall in Hpre. intros y Hy. by apply document_of_text, Hpre.
Qed.

Context {L : PyNumLaws N}.

Lemma fallback_entry_numeric (w : world N R) r :
  numeric_for_fallback (store w r) = true →
  fallback_entry r w = (Ok (fallback_entry_of (store w) r), w).
Proof.
  unfold numeric_for_fallback. rewrite !andb_true_iff.
  intros [[Hp%signal_num Hr%signal_num] Hc%signal_num].
  unfold fallback_entry, fallback_entry_of, mbind, M_bind, dict_get, lift.
  fold (signal (store w r) "popularity") (signal (store w r) "rating")
       (signal (store w r) "company_prestige").
  rewrite Hp, Hr, Hc.
  rewrite !py_truediv_ok by auto using num_100_neq_0, num_5_neq_0, num_10_neq_0.
  by rewrite fallback_score_spec.
Qed.

Lemma py_truediv_type_error (a b : value N) :
  is_num a = false → py_truediv a b = Raise TypeError.
Proof. by destruct a. Qed.

Lemma fallback_entry_type_error (w : world N R) r :
  numeric_for_fallback (store w r) = false →
  fallback_entry r w = (Raise TypeError, w).
Proof.
  unfold numeric_for_fallback. intros H.
  unfold fallback_entry, mbind, M_bind, dict_get, lift.
  fold (signal (store w r) "popularity") (signal (store w r) "rating")
       (signal (store w r) "company_prestige").
  destruct (is_num (signal (store w r) "popularity")) eqn:Hp; cycle 1.
  { by rewrite (py_truediv_type_error _ _ Hp). }
  rewrite (signal_num _ _ Hp), py_truediv_ok by apply num_100_neq_0.
  destruct (is_num (signal (store w r) "rating")) eqn:Hr; cycle 1.
  { by rewrite (py_truediv_type_error _ _ Hr). }
  rewrite (signal_num _ _ Hr), py_truediv_ok by apply num_5_neq_0.
  destruct (is_num (signal (store w r) "company_prestige")) eqn:Hc; [done|].
  by rewrite (py_truediv_type_error _ _ Hc).
Qed.

Lemma fallback_path_run internships top_n (w : world N R) :
  (∀ r, r ∈ internships → numeric_for_fallback (store w r) = true) →
  fallback_path internships top_n w
  = (Ok (py_slice_to
           (py_sort_desc num_ltb score_of (map (fallback_entry_of (store w)) internships))
           top_n), w).
Proof.
  intros Hnum. unfold fallback_path. rewrite bind_run.
  rewrite (mapM_run_ok fallback_entry (fallback_entry_of (store w)));
    [done|]. intros r Hr. by apply fallback_entry_numeric, Hnum.
Qed.

Lemma fallback_path_type_error internships top_n (w : world N R) :
  (∃ r, r ∈ internships ∧ numeric_for_fallback (store w r) = false) →
  fallback_path internships top_n w = (Raise TypeError, w).
Proof.
  intros Hbad. unfold fallback_path. rewrite bind_run.
  apply (first_failure (λ r, numeric_for_fallback (store w r))) in Hbad
    as (pre & r & post & -> & Hpre & Hr).
  rewrite (mapM_run_raise fallback_entry (fallback_entry_of (store w))
             pre r post w TypeError); [done| |by apply fallback_entry_type_error].
  rewrite Forall_forall in Hpre. intros y Hy. by apply fallback_entry_numeric, Hpre.
Qed.

Lemma elem_of_not_nil {B} (l : list B) (P : B → Prop) :
  (∃ x, x ∈ l ∧ P x) → l ≠ [].
Proof. intros (x & Hx & _) ->. by apply elem_of_nil in Hx. Qed.

(** X7.  On the fallback path a popularity, rating or prestige that is
    present and is not a number (a NULL column, a string) is not replaced
    by zero: the call raises [TypeError], whatever the other candidates
    hold.  The stipend is not looked at. *)
Theorem fallback_non_numeric_raises student internships top_n (w : world N R) q :
  query_raw_of student = Ok q →
  py_blank (preprocess q) = true →
  (∀ r, r ∈ internships → first_missing_text (store w r) = None) →
  (∃ r, r ∈ internships ∧ numeric_for_fallback (store w r) = false) →
  recommendInternship student internships top_n w = (Raise TypeError, w).
Proof.
  intros Hq Hblank Htext Hbad.
  pose proof (elem_of_not_nil _ _ Hbad) as Hne.
  rewrite (recommendInternship_run _ _ _ _ q) by done.
  rewrite bind_run, documents_run, Hblank by done.
  by apply fallback_path_type_error.
Qed.

End ErrorFacts.

Section VectorErrorFacts.
Context {N : PyNum} {NL : Nltk} {SK : Sklearn N} {NP : Numpy N} {R : PyRandom N}.
Context {L : PyNumLaws N} {S : SklearnShape SK} {A : NumpyArgsort NP}.

(** A stipend that is not a number cannot be divided, whatever the
    maximum is. *)
Lemma scored_entry_stipend_error (w : world N R) sims ms q dvs names i r sim :
  sims !! i = Some sim →
  is_num (signal (store w r) "stipend") = false →
  scored_entry sims ms q dvs names (i, r) w = (Raise TypeError, w).
Proof.
  intros Hsim Hs. unfold scored_entry, mbind, M_bind, dict_get, lift.
  fold (signal (store w r) "popularity") (signal (store w r) "stipend").
  rewrite (py_index_run _ _ _ Hsim).
  destruct (is_num (signal (store w r) "popularity")) eqn:Hp; cycle 1.
  { by rewrite (py_truediv_type_error _ _ Hp). }
  rewrite (signal_num _ _ Hp), py_truediv_ok by apply num_100_neq_0.
  by rewrite (py_truediv_type_error _ _ Hs).
Qed.

Lemma scored_entry_signal_error (w : world N R) sims m q dvs names i r sim :
  sims !! i = Some sim →
  num_eqb m (lit 0) = false →
  numeric_for_vector (store w r) = false →
  scored_entry sims (VNum m) q dvs names (i, r) w = (Raise TypeError, w).
Proof.
  intros Hsim Hm Hbad.
  destruct (is_num (signal (store w r) "stipend")) eqn:Hs; cycle 1.
  { by eapply scored_entry_stipend_error. }
  unfold numeric_for_vector, numeric_for_fallback in Hbad. rewrite Hs in Hbad.
  unfold scored_entry, mbind, M_bind, dict_get, lift.
  fold (signal (store w r) "popularity") (signal (store w r) "rating")
       (signal (store w r) "company_prestige") (signal (store w r) "stipend").
  rewrite (py_index_run _ _ _ Hsim).
  destruct (is_num (signal (store w r) "popularity")) eqn:Hp; cycle 1.
  { by rewrite (py_truediv_type_error _ _ Hp). }
  rewrite (signal_num _ _ Hp), py_truediv_ok by apply num_100_neq_0.
  rewrite (signal_num _ _ Hs), py_truediv_ok by done.
  destruct (is_num (signal (store w r) "rating")) eqn:Hr; cycle 1.
  { by rewrite (py_truediv_type_error _ _ Hr). }
  rewrite (signal_num _ _ Hr), py_truediv_ok by apply num_5_neq_0.
  destruct (is_num (signal (store w r) "company_prestige")) eqn:Hc; [done|].
  by rewrite (py_truediv_type_error _ _ Hc).
Qed.

Lemma enumerate_elem_of {B} (l : list B) r :
  r ∈ l → ∃ i, (i, r) ∈ enumerate l.
Proof.
  intros [i Hi]%list_elem_of_lookup. exists i.
  apply list_elem_of_lookup. exists i. by rewrite enumerate_lookup, Hi.
Qed.

Lemma vector_path_fit_error query docs internships top_n (w : world N R) e :
  tfidf_fit_transform (docs ++ [query]) = Raise e →
  vector_path query docs internships top_n w = (Raise e, w).
Proof.
  intros Hfit. unfold vector_path. rewrite bind_run. unfold lift at 1.
  by rewrite Hfit.
Qed.

Lemma vector_path_type_error query internships top_n (w : world N R) names rows :
  (∀ r, r ∈ internships → first_missing_text (store w r) = None) →
  tfidf_fit_transform (map (λ r, document_text (store w r)) internships ++ [query])
    = Ok (names, rows) →
  (∃ r, r ∈ internships ∧ numeric_for_vector (store w r) = false) →
  vector_path query (map (λ r, document_text (store w r)) internships)
              internships top_n w
  = (Raise TypeError, w).
Proof.
  intros Htext Hfit Hbad.
  pose proof (elem_of_not_nil _ _ Hbad) as Hne.
  pose proof (fit_rows _ _ _ Hfit) as Hrows.
  pose proof (fit_cols _ _ _ Hfit) as Hcols.
  rewrite length_app, length_map in Hrows. simpl in Hrows.
  destruct (last rows) as [qv|] eqn:Hlast; cycle 1.
  { apply last_None in Hlast as ->. simpl in Hrows. lia. }
  apply last_Some in Hlast as [dvs ->].
  rewrite length_app in Hrows. simpl in Hrows.
  apply Forall_app in Hcols as [Hdvs Hqv]. rewrite Forall_singleton in Hqv.
  unfold vector_path. rewrite bind_run. unfold lift at 1. rewrite Hfit.
  rewrite bind_run. unfold lift at 1, last_row. rewrite last_snoc.
  rewrite removelast_last. set (sims := cosine_similarity qv dvs).
  assert (Hsims : length sims = length internships).
  { unfold sims. rewrite cosine_length. lia. }
  rewrite bind_run, stipends_read. rewrite bind_run. unfold lift at 1.
  destruct (decide (Forall (λ r, is_num (signal (store w r) "stipend") = true)
                      internships)) as [Hnum|Hnum].
  - (* every stipend is a number: the candidate with the other signal *)
    assert (Hsts : map (λ r, signal (store w r) "stipend") internships
                   = map VNum (stipends_of (store w) internships)).
    { unfold stipends_of. rewrite map_map. apply map_ext_in.
      intros r Hr%list_elem_of_In. rewrite Forall_forall in Hnum.
      by apply signal_num, Hnum. }
    rewrite Hsts, max_stipend_of_run.
    set (maxS := spec_max_stipend (stipends_of (store w) internships)).
    rewrite bind_run.
    assert (Hbad' : ∃ ix, ix ∈ enumerate internships
                          ∧ numeric_for_vector (store w ix.2) = false).
    { destruct Hbad as (r & Hr & Hbad).
      destruct (enumerate_elem_of _ _ Hr) as [i Hi]. by exists (i, r). }
    apply (first_failure (λ ix, numeric_for_vector (store w ix.2))) in Hbad'
      as (pre & [i r] & post & Henum & Hpre & Hr).
    assert (Hin : ∀ ix, ix ∈ (pre ++ (i, r) :: post)%list →
                        internships !! ix.1 = Some ix.2).
    { intros [j r']. rewrite <-Henum. apply elem_of_enumerate. }
    rewrite Henum.
    assert (Hi : internships !! i = Some r).
    { apply (Hin (i, r)). rewrite elem_of_app. right. by left. }
    destruct (lookup_lt_is_Some_2 sims i) as [sim Hsim].
    { rewrite Hsims. by eapply lookup_lt_Some. }
    rewrite (mapM_run_raise _ (scored_entry_of (store w) sims maxS qv dvs names)
               pre (i, r) post w TypeError); [done| |].
    + intros [j r'] Hj.
      assert (Hj' : internships !! j = Some r').
      { apply (Hin (j, r')). rewrite elem_of_app. by left. }
      assert (Hlt : (j < length internships)%nat) by (by eapply lookup_lt_Some).
      destruct (lookup_lt_is_Some_2 sims j) as [sim' Hsim']; [lia|].
      destruct (lookup_lt_is_Some_2 dvs j) as [dv Hdv]; [lia|].
      assert (Hlen : length dv = length names).
      { rewrite Forall_forall in Hdvs. apply Hdvs. by eapply list_elem_of_lookup_2. }
      apply (scored_entry_run w sims maxS qv dvs names j r' sim' dv);
        [|done|done|congruence|congruence|apply spec_max_stipend_nonzero].
      apply well_formed_split.
      * apply Htext. by eapply list_elem_of_lookup_2.
      * rewrite Forall_forall in Hpre. by apply (Hpre (j, r')).
    + apply (scored_entry_signal_error w sims maxS qv dvs names i r sim);
        [done|apply spec_max_stipend_nonzero|done].
  - (* some stipend is not a number *)
    apply not_Forall_Exists in Hnum; [|intros r; apply _].
    apply Exists_exists in Hnum as (r & Hr & Hs). apply not_true_is_false in Hs.
    destruct internships as [|r0 l]; [done|].
    unfold max_stipend_of. simpl map. simpl py_max.
    destruct (max_from (signal (store w r0) "stipend")
                (map (λ r, signal (store w r) "stipend") l)) as [m0|e] eqn:Hmax.
    + assert (H0 : is_num (signal (store w r0) "stipend") = false).
      { apply not_true_is_false. intros H0.
        pose proof (max_from_numeric _ _ _ Hmax H0) as Hall.
        apply elem_of_cons in Hr as [->|Hr]; [congruence|].
        rewrite Forall_forall in Hall.
        rewrite (Hall (signal (store w r) "stipend")) in Hs; [done|].
        apply list_elem_of_fmap. by exists r. }
      cbn [mbind outcome_bind]. rewrite bind_run.
      change (enumerate (r0 :: l)) with ((0, r0) :: zip (seq 1 (length l)) l).
      destruct (lookup_lt_is_Some_2 sims 0) as [sim Hsim]; [simpl in Hsims; lia|].
      by rewrite mapM_cons_run, (scored_entry_stipend_error _ _ _ _ _ _ _ _ sim).
    + cbn [mbind outcome_bind]. by apply max_from_raises in Hmax as ->.
Qed.

(** X8.  On the vector-space path a signal that is present and is not a
    number makes the call raise [TypeError]: a stipend already when the
    maximum stipend is taken or the first candidate is scored, the other
    three signals when their candidate is scored.  No later candidate
    and no value of the other fields can prevent it. *)
Theorem vector_non_numeric_raises student internships top_n (w : world N R)
    q names rows :
  query_raw_of student = Ok q →
  py_blank (preprocess q) = false →
  (∀ r, r ∈ internships → first_missing_text (store w r) = None) →
  tfidf_fit_transform
    (map (λ r, document_text (store w r)) internships ++ [preprocess q])
    = Ok (names, rows) →
  (∃ r, r ∈ internships ∧ numeric_for_vector (store w r) = false) →
  recommendInternship student internships top_n w = (Raise TypeError, w).
Proof.
  intros Hq Hblank Htext Hfit Hbad.
  pose proof (elem_of_not_nil _ _ Hbad) as Hne.
  rewrite (recommendInternship_run _ _ _ _ q) by done.
  rewrite bind_run, documents_run, Hblank by done.
  by eapply vector_path_type_error.
Qed.

End VectorErrorFacts.

(** * What a call depends on *)

Section LocalFrame.
Context {N : PyNum} {NL : Nltk} {SK : Sklearn N} {NP : Numpy N} {R : PyRandom N}.
Variables stA stB : ref → gmap string (value N).

Lemma respects_get_at r key :
  signal (stA r) key = signal (stB r) key →
  respects (R:=R) stA stB (dict_get r key (VNum (lit 0))).
Proof.
  intros Hk [st1 g1] [st2 g2] (?&?&?); simplify_eq/=.
  unfold dict_get; simpl. split; [|done]. f_equal. apply Hk.
Qed.

Lemma respects_index_at r key :
  stA r !! key = stB r !! key →
  respects (R:=R) stA stB (dict_index r key).
Proof.
  intros Hk [st1 g1] [st2 g2] (?&?&?); simplify_eq/=.
  unfold dict_index; simpl. rewrite Hk. by destruct (stB r !! key).
Qed.

Lemma respects_mapM_in {A B} (f : A → M (R:=R) B) (l : list A) :
  (∀ a, a ∈ l → respects stA stB (f a)) → respects stA stB (mapM f l).
Proof.
  induction l as [|x l IH]; intros Hf; simpl; [apply respects_ret|].
  apply respects_bind; [apply Hf; by left|]. intros y.
  apply respects_bind; [apply IH; intros; apply Hf; by right|].
  intros k. apply respects_ret.
Qed.

Lemma respects_document_of_at r :
  stA r !! "title" = stB r !! "title" →
  stA r !! "description" = stB r !! "description" →
  stA r !! "required_skills" = stB r !! "required_skills" →
  respects (R:=R) stA stB (document_of r).
Proof.
  intros Ht Hd Hs. unfold document_of.
  apply respects_bind; [by apply respects_index_at|]. intros t.
  apply respects_bind; [by apply respects_index_at|]. intros d.
  apply respects_bind; [by apply respects_index_at|]. intros s.
  apply respects_ret.
Qed.

Ltac local_step :=
  first
    [ apply respects_ret
    | apply respects_lift
    | apply respects_random
    | apply respects_get_at; assumption
    | apply respects_mapM; intros ?
    | apply respects_bind; [|intros ?] ].

Lemma respects_fallback_entry_at r :
  signal (stA r) "popularity" = signal (stB r) "popularity" →
  signal (stA r) "rating" = signal (stB r) "rating" →
  signal (stA r) "company_prestige" = signal (stB r) "company_prestige" →
  respects (R:=R) stA stB (fallback_entry r).
Proof. intros Hp Hr Hc. unfold fallback_entry. repeat local_step. Qed.

Lemma respects_scored_entry_at sims m q dvs names i r :
  signal (stA r) "popularity" = signal (stB r) "popularity" →
  signal (stA r) "stipend" = signal (stB r) "stipend" →
  signal (stA r) "rating" = signal (stB r) "rating" →
  signal (stA r) "company_prestige" = signal (stB r) "company_prestige" →
  respects (R:=R) stA stB (scored_entry sims m q dvs names (i, r)).
Proof. intros Hp Hs Hr Hc. unfold scored_entry. repeat local_step. Qed.

Lemma respects_fallback_path_on internships top_n :
  (∀ r, r ∈ internships → agree_but_stipend (stA r) (stB r)) →
  respects (R:=R) stA stB (fallback_path internships top_n).
Proof.
  intros Hagree. unfold fallback_path.
  apply respects_bind; [|intros; apply respects_ret].
  apply respects_mapM_in. intros r (_ & _ & _ & Hp & Hr & Hc)%Hagree.
  by apply respects_fallback_entry_at.
Qed.

Lemma respects_documents_on internships :
  (∀ r, r ∈ internships → agree_but_stipend (stA r) (stB r)) →
  respects (R:=R) stA stB (mapM document_of internships).
Proof.
  intros Hagree. apply respects_mapM_in. intros r (Ht & Hd & Hs & _)%Hagree.
  by apply respects_document_of_at.
Qed.

Lemma agree_weaken (d1 d2 : gmap string (value N)) :
  agree d1 d2 → agree_but_stipend d1 d2.
Proof. by intros (? & ? & ? & ? & ? & ? & ?). Qed.

Lemma respects_recommendInternship_on student internships top_n :
  (∀ r, r ∈ internships → agree (stA r) (stB r)) →
  respects (R:=R) stA stB (recommendInternship student internships top_n).
Proof.
  intros Hagree.
  assert (Hweak : ∀ r, r ∈ internships → agree_but_stipend (stA r) (stB r)).
  { intros r Hr. by apply agree_weaken, Hagree. }
  unfold recommendInternship.
  destruct internships as [|r0 l] eqn:Hl; [apply respects_ret|].
  rewrite <-Hl in *. clear Hl r0 l.
  apply respects_bind; [apply respects_lift|]. intros q.
  apply respects_bind; [by apply respects_documents_on|]. intros docs.
  destruct (py_blank (preprocess q)); [by apply respects_fallback_path_on|].
  unfold vector_path.
  apply respects_bind; [apply respects_lift|]. intros [names rows].
  apply respects_bind; [apply respects_lift|]. intros qv.
  apply respects_bind.
  { apply respects_mapM_in. intros r (_ & _ & _ & _ & Hs & _)%Hagree.
    by apply respects_get_at. }
  intros sts.
  apply respects_bind; [apply respects_lift|]. intros ms.
  apply respects_bind.
  { apply respects_mapM_in. intros [i r] Hir%elem_of_enumerate.
    apply list_elem_of_lookup_2, Hagree in Hir as (_ & _ & _ & Hp & Hs & Hr & Hc).
    by apply respects_scored_entry_at. }
  intros scores.
  apply respects_bind; [|intros; apply respects_ret].
  unfold tie_break_sort, tie_break_key. repeat local_step.
Qed.

End LocalFrame.

(** X9.  A call reads seven fields of the candidates it is given and
    nothing else of the caller's records: two stores that agree on the
    three text fields and the four signals of every listed candidate give
    the same outcome and the same state of the generator, however they
    differ on other fields ([id], [company], [duration], [apply_url]) and
    on records that are not in the list. *)
Theorem reads_only_the_listed_candidates
    {N : PyNum} {NL : Nltk} {SK : Sklearn N} {NP : Numpy N} {R : PyRandom N}
    student internships top_n (w1 w2 : world N R) :
  (∀ r, r ∈ internships → agree (store w1 r) (store w2 r)) →
  generator w1 = generator w2 →
  (recommendInternship student internships top_n w1).1
  = (recommendInternship student internships top_n w2).1
  ∧ generator (recommendInternship student internships top_n w1).2
    = generator (recommendInternship student internships top_n w2).2.
Proof.
  intros Hagree Hg.
  destruct (respects_recommendInternship_on (store w1) (store w2)
              student internships top_n Hagree w1 w2) as (Ho & _ & _ & Hg');
    done.
Qed.

(** X10.  The fallback path reads neither the stipend nor the generator:
    when the normalised query is blank, stores that agree on the three
    text fields and on popularity, rating and prestige of the listed
    candidates give the same outcome, whatever the stipends are, numbers
    or not, and whatever the state of the generator. *)
Theorem fallback_ignores_stipend
    {N : PyNum} {NL : Nltk} {SK : Sklearn N} {NP : Numpy N} {R : PyRandom N}
    student internships top_n (w1 w2 : world N R) q :
  query_raw_of student = Ok q →
  py_blank (preprocess q) = true →
  (∀ r, r ∈ internships → agree_but_stipend (store w1 r) (store w2 r)) →
  (recommendInternship student internships top_n w1).1
  = (recommendInternship student internships top_n w2).1.
Proof.
  intros Hq Hblank Hagree.
  destruct internships as [|r0 l] eqn:Hl; [done|].
  rewrite <-Hl in *. assert (Hne : internships ≠ []) by (by rewrite Hl).
  clear Hl r0 l.
  rewrite !(recommendInternship_run _ _ _ _ q) by done.
  rewrite Hblank.
  set (m := mapM document_of internships
            ≫= λ _ : list string, fallback_path internships top_n).
  assert (Hm : respects (store w1) (store w2) m).
  { apply respects_bind; [by apply respects_documents_on|].
    intros _. by apply respects_fallback_path_on. }
  assert (Hfree : generator_free m).
  { apply generator_free_bind;
      [apply generator_free_mapM, generator_free_document_of|].
    intros _. apply generator_free_fallback_path. }
  destruct (Hfree (store w1)) as [o Ho].
  destruct (Hm (World (store w1) (generator w2)) w2) as [Ho' _]; [done|].
  rewrite <-Ho', Ho. destruct w1 as [st1 g1]. simpl. by rewrite Ho.
Qed.

(** * The keywords of an explanation *)

(** X11.  With distinct feature names, an explanation never lists a
    keyword twice: the terms [get_top_contributing_terms] returns are
    pairwise distinct feature names, at most [top_n] of them. *)
Theorem contributing_terms_distinct {N : PyNum} {NP : Numpy N} {A : NumpyArgsort NP}
    (query_vec doc_vec : list num) (feature_names : list string) (top_n : nat) terms :
  length query_vec = length doc_vec →
  length feature_names = length doc_vec →
  NoDup feature_names →
  get_top_contributing_terms query_vec doc_vec feature_names top_n = Ok terms →
  NoDup terms ∧ terms ⊆ feature_names ∧ (length terms ≤ top_n)%nat.
Proof.
  intros Hq Hn Hnames. rewrite get_top_contributing_terms_run by done.
  intros [= <-].
  assert (Hrange : ∀ i, i ∈ picked_indices query_vec doc_vec top_n →
                        is_Some (feature_names !! i)).
  { intros i [Hi _]%picked_indices_positive. apply lookup_lt_is_Some.
    rewrite length_zip_with in Hi. lia. }
  split; [|split].
  - apply NoDup_fmap_2_strong; [|apply picked_indices_NoDup].
    intros i j [s Hi]%Hrange [t Hj]%Hrange. unfold name_at.
    rewrite Hi, Hj. simpl. intros ->. by eapply NoDup_lookup.
  - intros s (i & -> & [t Hi]%Hrange)%list_elem_of_fmap. unfold name_at.
    rewrite Hi. simpl. by eapply list_elem_of_lookup_2.
  - rewrite length_map, picked_indices_length. lia.
Qed.

(** * A query without a usable word *)

Section UnusableQuery.
Context {N : PyNum} {NL : Nltk} {SK : Sklearn N} {NP : Numpy N} {R : PyRandom N}.
Context {L : PyNumLaws N}.

Lemma preprocess_nothing_kept (text : string) :
  Forall (λ t, keep_token t = false) (word_tokenize (py_lower text)) →
  preprocess text = "".
Proof.
  intros H. unfold preprocess.
  replace (List.filter keep_token (word_tokenize (py_lower text))) with (@nil string);
    [done|].
  induction H as [|t l Ht _ IH]; [done|]. simpl. by rewrite Ht.
Qed.

(** X12.  A student whose text holds no usable word (every token is a
    stopword, a number, not alphanumeric or shorter than three
    characters) is not turned away: the normalised query is empty, the
    vectorizer is not called, and the candidates come back sorted by the
    fallback score and cut to [top_n].  The stipends are not read and
    may hold anything. *)
Theorem unusable_query_gets_fallback_ranking student internships top_n
    (w : world N R) q :
  query_raw_of student = Ok q →
  Forall (λ t, keep_token t = false) (word_tokenize (py_lower q)) →
  (∀ r, r ∈ internships →
        first_missing_text (store w r) = None
        ∧ numeric_for_fallback (store w r) = true) →
  recommendInternship student internships top_n w
  = (Ok (py_slice_to
           (py_sort_desc num_ltb score_of (map (fallback_entry_of (store w)) internships))
           top_n), w).
Proof.
  intros Hq Hnone%preprocess_nothing_kept Hrec.
  destruct internships as [|r0 l] eqn:Hl.
  { unfold recommendInternship, mret, M_ret, py_slice_to. cbn.
    by destruct (0 <=? top_n)%Z; rewrite take_nil. }
  rewrite <-Hl in *. assert (Hne : internships ≠ []) by (by rewrite Hl).
  clear Hl r0 l.
  rewrite (recommendInternship_run _ _ _ _ q) by done.
  rewrite bind_run, documents_run by (intros; by apply Hrec).
  rewrite Hnone. change (py_blank "") with true. cbv iota.
  apply fallback_path_run. intros r Hr. by apply Hrec.
Qed.

End UnusableQuery.

(** * The texts of the student *)

(** X16.  The query is built before any candidate is looked at, and only
    when there is a candidate.  A student whose skills or interests are
    present and are not strings makes every call with a candidate raise
    [TypeError], whatever the records hold, missing text fields included;
    with no candidate the same student gets the empty list. *)
Theorem student_texts_must_be_strings
    {N : PyNum} {NL : Nltk} {SK : Sklearn N} {NP : Numpy N} {R : PyRandom N}
    student internships top_n (w : world N R) :
  student_texts student = false →
  recommendInternship student internships top_n w
  = match internships with
    | [] => (Ok [], w)
    | _ :: _ => (Raise TypeError, w)
    end.
Proof.
  intros Hbad. destruct internships as [|r l]; [done|].
  unfold recommendInternship. rewrite bind_run. unfold lift at 1.
  unfold student_texts in Hbad. unfold query_raw_of.
  destruct (default (VStr "") (student !! "skills")) as [|x|s]; [done..|].
  by destruct (default (VStr "") (student !! "interests")).
Qed.

(** * The route [find_matches] *)

Section RouteFacts.
Context {N : PyNum} {NL : Nltk} {SK : Sklearn N} {NP : Numpy N} {R : PyRandom N}.
Context {FZ : Fitz} {RD : PyRound N}.

Lemma dict_of_row_text (row : internship_row) :
  first_missing_text (dict_of_row row) = None.
Proof. reflexivity. Qed.

Lemma dict_of_row_fallback (row : internship_row) :
  numeric_for_fallback (dict_of_row row)
  = is_num (row_popularity row) && is_num (row_rating row)
    && is_num (row_company_prestige row).
Proof. reflexivity. Qed.

Lemma rows_store_lookup (rows : list internship_row) i row :
  rows !! i = Some row → rows_store rows i = dict_of_row row.
Proof. unfold rows_store. by intros ->. Qed.

Lemma rows_store_seq (rows : list internship_row) r :
  r ∈ seq 0 (length rows) → ∃ row, rows !! r = Some row.
Proof.
  rewrite elem_of_seq. intros [_ Hr]. by apply lookup_lt_is_Some_2.
Qed.

Lemma rows_store_text (rows : list internship_row) r :
  r ∈ seq 0 (length rows) → first_missing_text (rows_store rows r) = None.
Proof.
  intros [row Hrow]%rows_store_seq.
  rewrite (rows_store_lookup _ _ _ Hrow). apply dict_of_row_text.
Qed.

(** The student the route builds always has a query text. *)
Lemma route_query (resume_text : string) :
  query_raw_of (N:=N) {[ "skills" := VStr resume_text ]}
  = Ok ((resume_text +:+ " ") +:+ "").
Proof. reflexivity. Qed.

(** A request that passes the checks gets what the engine gives. *)
Lemma find_matches_run (ctx : request_context) (g : rng_state) resume_text :
  reaches_engine ctx resume_text →
  find_matches ctx g
  = match recommendInternship {[ "skills" := VStr resume_text ]}
            (seq 0 (length (internships_table ctx))) 5
            (World (rows_store (internships_table ctx)) g) with
    | (Ok recommendations, w') =>
        (Ok (jsonify (match_list (map (suggestion_of (store w')) recommendations)) 200),
         generator w')
    | (Raise e, w') => (Raise e, generator w')
    end.
Proof.
  intros ((user & Hu & Hrole) & (file & texts & Hf & Hpdf & Hfitz & ->) & Hblank & Hrows).
  unfold find_matches, student_required, login_required.
  rewrite Hu, Hrole, Hf, Hpdf, Hfitz. simpl negb. cbv iota.
  rewrite Hblank. by destruct (internships_table ctx).
Qed.

(** Only a request that passes the checks is answered with a list. *)
Lemma find_matches_inv (ctx : request_context) (g g' : rng_state) items status :
  find_matches ctx g = (Ok (jsonify (match_list items) status), g') →
  ∃ resume_text, reaches_engine ctx resume_text.
Proof.
  unfold find_matches, student_required, login_required, reaches_engine.
  destruct (g_user ctx) as [user|]; [|done].
  destruct (String.eqb (user_role user) "student") eqn:Hrole; [|done].
  apply String.eqb_eq in Hrole.
  destruct (request_files ctx !! "resume") as [file|]; [|done].
  destruct (py_endswith (py_lower (filename file)) ".pdf") eqn:Hpdf; [|done].
  destruct (fitz_page_texts (stream file)) as [texts|msg] eqn:Hfitz; [|done].
  simpl negb. cbv iota zeta.
  destruct (py_blank (py_join "" texts)) eqn:Hblank; [done|].
  destruct (internships_table ctx) as [|row rows]; [done|].
  intros _. exists (py_join "" texts).
  split; [by exists user|]. split; [by exists file, texts|]. done.
Qed.

End RouteFacts.

Section RouteTheorems.
Context {N : PyNum} {NL : Nltk} {SK : Sklearn N} {NP : Numpy N} {R : PyRandom N}.
Context {FZ : Fitz} {RD : PyRound N}.
Context {L : PyNumLaws N}.

(** A returned list is the head of a ranking of all the candidates. *)
Lemma recommendInternship_ranking {T : PyNumTies N}
    student internships top_n (w w' : world N R) out :
  recommendInternship student internships top_n w = (Ok out, w') →
  store w' = store w
  ∧ ∃ sorted, out = py_slice_to sorted top_n
      ∧ map record_of sorted ≡ₚ internships
      ∧ StronglySorted (descending num_ltb score_of) sorted.
Proof.
  intros [(-> & -> & ->)|(q & _ & _ & [(_ & -> & scores & <- & ->)
                                       |(_ & Hst & _ & scores & <- & ->)])]
    %recommendInternship_inv.
  - split; [done|]. exists []. split; [|split; [done|constructor]].
    unfold py_slice_to. by destruct (0 <=? top_n)%Z; rewrite take_nil.
  - split; [done|]. eexists. split; [done|]. split; [by rewrite py_sort_desc_perm|].
    apply (py_sort_desc_sorted num_ltb score_of);
      [apply num_ltb_asym|apply num_ltb_negtrans].
  - split; [done|]. eexists. split; [done|].
    split; [by rewrite py_sort_desc_perm, keys_of_snd|].
    apply tie_break_sorted, keys_of_well_keyed.
Qed.

(** X13.  Whenever the route answers with a list, the status is 200, the
    list has [min 5 n] suggestions for the [n] rows of the table, each
    suggestion carries the dictionary of a row of the table, no row is
    suggested twice, and the rounded scores do not increase along the
    list. *)
Theorem find_matches_answer {T : PyNumTies N} {RL : PyRoundLaws RD}
    (ctx : request_context) (g g' : rng_state) items status :
  find_matches ctx g = (Ok (jsonify (match_list items) status), g') →
  status = 200
  ∧ length items = min 5 (length (internships_table ctx))
  ∧ (∃ picks,
       NoDup picks
       ∧ Forall2 (λ it i, ∃ row, internships_table ctx !! i = Some row
                                 ∧ item_internship it = dict_of_row row)
                 items picks)
  ∧ StronglySorted (λ a b, num_ltb (item_score a) (item_score b) = false) items.
Proof.
  intros H. destruct (find_matches_inv _ _ _ _ _ H) as [text Hreach].
  rewrite (find_matches_run _ _ _ Hreach) in H.
  set (rows := internships_table ctx) in *.
  destruct (recommendInternship _ _ _ _) as [[out|e] w'] eqn:Hrun; [|done].
  injection H as <- <- <-.
  apply recommendInternship_ranking in Hrun as (Hst & sorted & -> & Hperm & Hsorted).
  simpl in Hst. rewrite Hst, py_slice_to_take by lia.
  change (Z.to_nat 5) with 5%nat.
  assert (Hlen : length sorted = length rows).
  { by rewrite <-(length_map record_of), Hperm, length_seq. }
  split; [done|]. split; [by rewrite length_map, length_take, Hlen|].
  split.
  - exists (map record_of (take 5 sorted)). split.
    + change (map record_of (take 5 sorted)) with (record_of <$> take 5 sorted).
      rewrite fmap_take. eapply sublist_NoDup; [|apply sublist_take].
      change (record_of <$> sorted) with (map record_of sorted).
      rewrite Hperm. apply NoDup_seq.
    + apply Forall2_fmap, Forall_Forall2_diag, Forall_forall.
      intros x Hx%(subseteq_take 5). simpl.
      assert (Hr : record_of x ∈ seq 0 (length rows)).
      { rewrite <-Hperm. apply list_elem_of_fmap. by exists x. }
      apply rows_store_seq in Hr as [row Hrow]. exists row. split; [done|].
      by apply rows_store_lookup.
  - apply StronglySorted_fmap, StronglySorted_take.
    apply (StronglySorted_impl_on (λ _, True) (descending num_ltb score_of)).
    + intros x y _ _ Hxy. simpl. apply num_round_mono, Hxy.
    + by apply Forall_forall.
    + done.
Qed.

Context {S : SklearnShape SK} {A : NumpyArgsort NP}.

(** X14.  A single row whose popularity, rating or prestige is NULL (or
    any other value that is not a number) takes the route down for every
    student: whatever the resume, a request that passes the checks ends
    in an exception, not in a response, because the route guards the
    extraction of the text only and the engine cannot divide the value. *)
Theorem find_matches_fails_on_null_signal
    (ctx : request_context) (g : rng_state) resume_text :
  reaches_engine ctx resume_text →
  (∃ row, row ∈ internships_table ctx ∧ numeric_for_fallback (dict_of_row row) = false) →
  ∃ e, find_matches ctx g = (Raise e, g).
Proof.
  intros Hreach (row & [i Hi]%list_elem_of_lookup & Hrow).
  rewrite (find_matches_run _ _ _ Hreach).
  set (rows := internships_table ctx) in *.
  set (w := World (rows_store rows) g).
  assert (Hin : i ∈ seq 0 (length rows)).
  { apply elem_of_seq. split; [lia|]. by eapply lookup_lt_Some. }
  assert (Hbad : ∃ r, r ∈ seq 0 (length rows)
                      ∧ numeric_for_fallback (store w r) = false).
  { exists i. split; [done|]. simpl. by rewrite (rows_store_lookup _ _ _ Hi). }
  assert (Htext : ∀ r, r ∈ seq 0 (length rows) →
                       first_missing_text (store w r) = None).
  { intros r Hr. by apply rows_store_text. }
  pose proof (elem_of_not_nil _ _ Hbad) as Hne.
  rewrite (recommendInternship_run _ _ _ _ _ Hne (route_query resume_text)).
  rewrite bind_run, documents_run by done.
  destruct (py_blank (preprocess _)).
  { exists TypeError. by rewrite fallback_path_type_error. }
  destruct (tfidf_fit_transform
              (map (λ r, document_text (store w r)) (seq 0 (length rows))
               ++ [preprocess ((resume_text +:+ " ") +:+ "")]))
    as [[names rows']|e] eqn:Hfit.
  - exists TypeError. rewrite (vector_path_type_error _ _ _ _ names rows'); [done..|].
    destruct Hbad as (r & Hr & Hbad). exists r. split; [done|].
    unfold numeric_for_vector. by rewrite Hbad.
  - exists e. by rewrite (vector_path_fit_error _ _ _ _ _ _ Hfit).
Qed.

(** X15.  A resume whose text holds no usable word is not rejected like
    a resume without text: when the signals of the rows are numbers, the
    route answers 200 with the best five rows by the fallback score, and
    draws no random number. *)
Theorem find_matches_without_usable_words
    (ctx : request_context) (g : rng_state) resume_text :
  reaches_engine ctx resume_text →
  Forall (λ t, keep_token t = false)
         (word_tokenize (py_lower ((resume_text +:+ " ") +:+ ""))) →
  Forall (λ row, numeric_for_fallback (dict_of_row row) = true)
         (internships_table ctx) →
  find_matches ctx g
  = (Ok (jsonify
           (match_list
              (map (suggestion_of (rows_store (internships_table ctx)))
                 (take 5 (py_sort_desc num_ltb score_of
                            (map (fallback_entry_of (rows_store (internships_table ctx)))
                                 (seq 0 (length (internships_table ctx))))))))
           200), g).
Proof.
  intros Hreach Hnone%preprocess_nothing_kept Hnum.
  rewrite (find_matches_run _ _ _ Hreach).
  pose proof Hreach as (_ & _ & _ & Hrows).
  set (rows := internships_table ctx) in *.
  set (w := World (rows_store rows) g).
  assert (Hne : seq 0 (length rows) ≠ []) by (by destruct rows).
  rewrite (recommendInternship_run _ _ _ _ _ Hne (route_query resume_text)).
  rewrite bind_run, documents_run by (intros; by apply rows_store_text).
  rewrite Hnone. change (py_blank "") with true. cbv iota.
  rewrite fallback_path_run.
  - by rewrite py_slice_to_take by lia.
  - intros r [row Hrow]%rows_store_seq. simpl.
    rewrite (rows_store_lookup _ _ _ Hrow).
    rewrite Forall_forall in Hnum. apply Hnum. by eapply list_elem_of_lookup_2.
Qed.

End RouteTheorems.

(** * The reference instances satisfy the further laws *)

Module RouteReferenceFacts.
Import Reference ReferenceFacts RouteReference.

#[global] Instance Q_ties : PyNumTies Q_num.
Proof.
  split. simpl. intros a b Hab%Qeq_bool_iff.
  split; apply Q_ltb_ge; rewrite Hab; apply Qle_refl.
Qed.

#[global] Instance Q_order : PyNumOrder Q_num.
Proof.
  split; simpl.
  - intros a b. apply eq_true_iff_eq. rewrite !Qeq_bool_iff. split; intros H; by symmetry.
  - intros a b c. rewrite !Qeq_bool_iff. apply Qeq_trans.
  - intros a b c Hab%Qeq_bool_iff. f_equal. apply eq_true_iff_eq.
    by rewrite !Qle_bool_iff, Hab.
  - intros a b c Hab%Qeq_bool_iff. f_equal. apply eq_true_iff_eq.
    by rewrite !Qle_bool_iff, Hab.
  - intros a b Hab%Q_ltb_ge Hba%Q_ltb_ge. apply Qeq_bool_iff. by apply Qle_antisym.
Qed.

Lemma round_half_even_bounds (x : Q) :
  (Qfloor x <= round_half_even x <= Qfloor x + 1)%Z.
Proof.
  unfold round_half_even.
  destruct (Qcompare _ _); [destruct (Z.even _)|..]; lia.
Qed.

Lemma round_half_even_mono (x y : Q) :
  (x <= y)%Q → (round_half_even x <= round_half_even y)%Z.
Proof.
  intros Hxy. pose proof (Qfloor_resp_le _ _ Hxy) as Hf.
  destruct (Z.eq_dec (Qfloor x) (Qfloor y)) as [E|E].
  - unfold round_half_even. rewrite <-E.
    destruct (Qcompare (x - inject_Z (Qfloor x)) (1 # 2)) eqn:Cx;
    destruct (Qcompare (y - inject_Z (Qfloor x)) (1 # 2)) eqn:Cy;
      try (destruct (Z.even (Qfloor x)); lia); exfalso.
    all: assert (Hd : (x - inject_Z (Qfloor x) <= y - inject_Z (Qfloor x))%Q)
           by (apply Qplus_le_l; exact Hxy).
    + apply (proj2 (Qeq_alt _ _)) in Cx. apply (proj2 (Qlt_alt _ _)) in Cy.
      rewrite Cx in Hd. by apply Qle_not_lt in Hd.
    + apply (proj2 (Qgt_alt _ _)) in Cx. apply (proj2 (Qeq_alt _ _)) in Cy.
      rewrite Cy in Hd. by apply Qle_not_lt in Hd.
    + apply (proj2 (Qgt_alt _ _)) in Cx. apply (proj2 (Qlt_alt _ _)) in Cy.
      apply (Qlt_irrefl (1 # 2)). eapply Qlt_le_trans; [exact Cx|].
      eapply Qle_trans; [exact Hd|]. by apply Qlt_le_weak.
  - pose proof (round_half_even_bounds x). pose proof (round_half_even_bounds y). lia.
Qed.

Lemma pow10_nonneg (k : Z) : (0 <= inject_Z (10 ^ k))%Q.
Proof. rewrite <-(Zle_Qle 0). apply Z.pow_nonneg. lia. Qed.

Lemma Q_round_mono (a b : Q) (ndigits : Z) :
  (b <= a)%Q → (Q_round b ndigits <= Q_round a ndigits)%Q.
Proof.
  intros Hab. unfold Q_round. destruct (0 <=? ndigits)%Z; rewrite !Qred_correct.
  - apply Qmult_le_compat_r; [|apply Qinv_le_0_compat, pow10_nonneg].
    rewrite <-Zle_Qle. apply round_half_even_mono.
    apply Qmult_le_compat_r; [done|apply pow10_nonneg].
  - apply Qmult_le_compat_r; [|apply pow10_nonneg].
    rewrite <-Zle_Qle. apply round_half_even_mono.
    apply Qmult_le_compat_r; [done|apply Qinv_le_0_compat, pow10_nonneg].
Qed.

#[global] Instance Q_rounding_laws : PyRoundLaws Q_rounding.
Proof.
  split. simpl. intros a b ndigits Hab%Q_ltb_ge.
  by apply Q_ltb_ge, Q_round_mono.
Qed.

End RouteReferenceFacts.

(** * The further theorems at concrete inputs *)

Module FurtherExamples.
Import Reference ReferenceFacts Examples RouteReference RouteReferenceFacts.

(** The call returns: name its list and the world it leaves. *)
Tactic Notation "returning" constr(call) "as" ident(H) ident(out) ident(w) :=
  let Hok := fresh "Hok" in
  assert (Hok : is_ok call.1 = true) by (vm_compute; reflexivity);
  destruct call as [[out|?] w] eqn:H;
  [clear Hok|simpl in Hok; discriminate Hok].

(** A property of each listed record, by evaluation. *)
Ltac listed_records :=
  let r := fresh "r" in let Hr := fresh "Hr" in
  intros r Hr;
  repeat (apply elem_of_cons in Hr as [->|Hr];
          [try split; vm_compute; reflexivity|]);
  exact (False_ind _ (proj1 (elem_of_nil _) Hr)).

(** The agreement of two stores on each listed record, field by field. *)
Ltac field_by_field :=
  lazymatch goal with
  | |- _ ∧ _ => split; [reflexivity|field_by_field]
  | |- _ => reflexivity
  end.

Ltac agreeing_records :=
  let r := fresh "r" in let Hr := fresh "Hr" in
  intros r Hr;
  repeat (apply elem_of_cons in Hr as [->|Hr];
          [unfold agree, agree_but_stipend; field_by_field|]);
  exact (False_ind _ (proj1 (elem_of_nil _) Hr)).

Lemma returned_length_any_top_n_witness :
  ∃ out w',
    recommendInternship (resume "python flask machine learning") [0; 1] (-1)
      two_postings = (Ok out, w')
    ∧ length out = 1%nat.
Proof.
  returning (recommendInternship (resume "python flask machine learning") [0; 1] (-1)
               two_postings) as H out w'.
  exists out, w'. split; [reflexivity|].
  rewrite (returned_length_any_top_n _ _ _ _ _ _ H). reflexivity.
Defined.

Lemma returned_records_are_candidates_witness :
  ∃ out w' ranking,
    recommendInternship (resume "python flask machine learning") [0; 1] 1
      two_postings = (Ok out, w')
    ∧ ranking ≡ₚ [0; 1]
    ∧ map record_of out = take 1 ranking.
Proof.
  returning (recommendInternship (resume "python flask machine learning") [0; 1] 1
               two_postings) as H out w'.
  destruct (returned_records_are_candidates _ _ _ _ _ _ H) as (ranking & Hperm & Hrec).
  exists out, w', ranking. split; [reflexivity|]. split; [exact Hperm|exact Hrec].
Defined.

Lemma returned_scores_descend_witness :
  ∃ out w',
    recommendInternship (resume "python developer") [0; 1] 2 two_twins = (Ok out, w')
    ∧ StronglySorted (λ x y, num_ltb (score_of x) (score_of y) = false) out.
Proof.
  returning (recommendInternship (resume "python developer") [0; 1] 2 two_twins)
    as H out w'.
  exists out, w'. split; [reflexivity|].
  exact (returned_scores_descend _ _ _ _ _ _ H).
Defined.

Lemma generator_after_call_witness :
  generator (recommendInternship (resume "python developer") [0; 1] 2 two_twins).2
  = draws 2 (generator two_twins).
Proof.
  rewrite (generator_after_call _ _ _ _ _ _ (surjective_pairing _)).
  vm_compute. reflexivity.
Defined.

Lemma fewer_results_are_a_prefix_witness :
  ∃ out' w',
    recommendInternship (resume "python developer") [0; 1] 2 two_twins = (Ok out', w')
    ∧ recommendInternship (resume "python developer") [0; 1] 1 two_twins
      = (Ok (take 1 out'), w').
Proof.
  returning (recommendInternship (resume "python developer") [0; 1] 2 two_twins)
    as H out' w'.
  exists out', w'. split; [reflexivity|].
  apply (fewer_results_are_a_prefix _ _ 1 2 _ _ _); [lia|exact H].
Defined.

Lemma ties_are_ordered_by_the_draws_witness :
  ∃ out w' scores,
    recommendInternship (resume "python developer") [0; 1] 2 two_twins = (Ok out, w')
    ∧ map record_of scores = [0; 1]
    ∧ out = py_slice_to
              (py_sort_desc tuple_ltb fst (keys_of scores (generator two_twins))).*2 2.
Proof.
  returning (recommendInternship (resume "python developer") [0; 1] 2 two_twins)
    as H out w'.
  destruct (ties_are_ordered_by_the_draws _ _ _ _ _ _ H)
    as (scores & Hrec & Hout & _); [vm_compute; reflexivity|].
  exists out, w', scores. split; [reflexivity|]. split; [exact Hrec|exact Hout].
Defined.

Lemma missing_text_field_raises_witness :
  recommendInternship (resume "python") [0; 1] 5
    (World (R:=tape_random) (store_of [backend; delete "description" design]) [])
  = (Raise (KeyError "description"),
     World (store_of [backend; delete "description" design]) []).
Proof.
  apply (missing_text_field_raises (resume "python") [0] 1 [] 5 _ "python ").
  - vm_compute. reflexivity.
  - constructor; [vm_compute; reflexivity|constructor].
  - vm_compute. reflexivity.
Defined.

Lemma fallback_non_numeric_raises_witness :
  recommendInternship (resume "the and of") [0; 1] 5
    (World (R:=tape_random) (store_of [backend; <["rating" := VNone]> design]) [])
  = (Raise TypeError, World (store_of [backend; <["rating" := VNone]> design]) []).
Proof.
  apply (fallback_non_numeric_raises (resume "the and of") [0; 1] 5 _ "the and of ").
  - vm_compute. reflexivity.
  - vm_compute. reflexivity.
  - listed_records.
  - exists 1. split; [apply list_elem_of_further, list_elem_of_here|].
    vm_compute. reflexivity.
Defined.

Lemma vector_non_numeric_raises_witness :
  recommendInternship (resume "python flask developer") [0] 5 (one_posting unpaid)
  = (Raise TypeError, one_posting unpaid).
Proof.
  destruct (tfidf_fit_transform
              (map (λ r, document_text (store (one_posting unpaid) r)) [0]
               ++ [preprocess "python flask developer "]))
    as [[names rows]|e] eqn:Hfit; cycle 1.
  { exfalso. vm_compute in Hfit. discriminate Hfit. }
  apply (vector_non_numeric_raises (resume "python flask developer") [0] 5 _
           "python flask developer " names rows).
  - vm_compute. reflexivity.
  - vm_compute. reflexivity.
  - listed_records.
  - exact Hfit.
  - exists 0. split; [apply list_elem_of_here|]. vm_compute. reflexivity.
Defined.

Lemma reads_only_the_listed_candidates_witness :
  (recommendInternship (resume "python flask machine learning") [0; 1] 2
     two_postings).1
  = (recommendInternship (resume "python flask machine learning") [0; 1] 2
       (World (R:=tape_random)
          (store_of [<["company" := VStr "Acme"]> backend; design; twin])
              [0.5; 0.25; 0.75]%Q)).1.
Proof.
  apply (reads_only_the_listed_candidates
           (resume "python flask machine learning") [0; 1] 2 two_postings
           (World (R:=tape_random)
          (store_of [<["company" := VStr "Acme"]> backend; design; twin])
                  [0.5; 0.25; 0.75]%Q)).
  - agreeing_records.
  - reflexivity.
Defined.

Lemma fallback_ignores_stipend_witness :
  (recommendInternship (resume "the and of") [0; 1] 2 two_postings).1
  = (recommendInternship (resume "the and of") [0; 1] 2
       (World (R:=tape_random) (store_of [unpaid; delete "stipend" design]) [])).1.
Proof.
  apply (fallback_ignores_stipend (resume "the and of") [0; 1] 2 two_postings
           (World (R:=tape_random) (store_of [unpaid; delete "stipend" design]) []) "the and of ").
  - vm_compute. reflexivity.
  - vm_compute. reflexivity.
  - agreeing_records.
Defined.

Lemma contributing_terms_distinct_witness :
  NoDup ["sql"; "python flask"; "python"].
Proof.
  apply (contributing_terms_distinct (N:=Q_num)
           [0.5; 0.5; 0.5; 0.5]%Q [0.5; 0.5; 0.5; 0.5]%Q
           ["flask"; "python"; "python flask"; "sql"] 3).
  - reflexivity.
  - reflexivity.
  - apply (bool_decide_unpack _). vm_compute. reflexivity.
  - vm_compute. reflexivity.
Defined.

Lemma unusable_query_gets_fallback_ranking_witness :
  records_of
    (recommendInternship (resume "the and of") [0; 1] 1
       (World (R:=tape_random) (store_of [unpaid; design]) [])).1
  = [1].
Proof.
  rewrite (unusable_query_gets_fallback_ranking (resume "the and of") [0; 1] 1
             (World (R:=tape_random) (store_of [unpaid; design]) []) "the and of ").
  - vm_compute. reflexivity.
  - vm_compute. reflexivity.
  - apply (bool_decide_unpack _). vm_compute. reflexivity.
  - listed_records.
Defined.

Lemma student_texts_must_be_strings_witness :
  recommendInternship {[ "skills" := VNum (N:=Q_num) 7%Q ]} [0; 1] 5 two_postings
  = (Raise TypeError, two_postings).
Proof.
  apply (student_texts_must_be_strings
           {[ "skills" := VNum (N:=Q_num) 7%Q ]} [0; 1] 5 two_postings).
  vm_compute. reflexivity.
Defined.

(** A request that passes the checks of the route. *)
Ltac passes_checks text :=
  split; [exists aditya; split; reflexivity|];
  split; [exists {| filename := "Resume.PDF"; stream := pdf_marker +:+ text |}, [text];
          repeat apply conj; vm_compute; reflexivity|];
  split; [vm_compute; reflexivity|discriminate].

Lemma find_matches_answer_witness :
  ∃ items g',
    find_matches (R:=tape_random)
      (student_posts "python flask machine learning" [backend_row; design_row])
      [0.5; 0.25]%Q
    = (Ok (jsonify (match_list items) 200), g')
    ∧ length items = 2%nat.
Proof.
  assert (Hok : answers_list
                  (find_matches (R:=tape_random)
                     (student_posts "python flask machine learning"
                        [backend_row; design_row]) [0.5; 0.25]%Q).1 = true)
    by (vm_compute; reflexivity).
  destruct (find_matches _ _) as [[[ep nx|[msg|items] status]|e] g'] eqn:H;
    try (simpl in Hok; discriminate Hok).
  destruct (find_matches_answer _ _ _ _ _ H) as (-> & Hlen & _).
  exists items, g'. split; [reflexivity|]. rewrite Hlen. reflexivity.
Defined.

Lemma find_matches_fails_on_null_signal_witness :
  ∃ e, find_matches (R:=tape_random)
          (student_posts "python flask" [backend_row; unrated_row]) []
        = (Raise e, []).
Proof.
  apply (find_matches_fails_on_null_signal (R:=tape_random)
           (student_posts "python flask" [backend_row; unrated_row]) []
           "python flask").
  - passes_checks "python flask".
  - exists unrated_row. split; [apply list_elem_of_further, list_elem_of_here|].
    vm_compute. reflexivity.
Defined.

Lemma find_matches_without_usable_words_witness :
  answers_list
    (find_matches (R:=tape_random)
       (student_posts "the and of" [backend_row; design_row]) []).1 = true.
Proof.
  rewrite (find_matches_without_usable_words (R:=tape_random)
             (student_posts "the and of" [backend_row; design_row]) [] "the and of").
  - reflexivity.
  - passes_checks "the and of".
  - apply (bool_decide_unpack _). vm_compute. reflexivity.
  - repeat constructor.
Defined.

End FurtherExamples.
